(** * sockwrap: client and process monitor for the java socket server

    A shallow embedding of [stanford_corenlp_pywrapper/sockwrap.py]
    (Python 2).  The module talks to the operating system (sub-processes,
    sockets, a named pipe, the file system), so every function is written
    in a small state-and-exception monad over an explicit [world]; each
    system call leaves an [event] in the world's trace.

    Conventions.
    - A Python 2 [str] is a byte string: Rocq's [string].
    - Durations are integers in milliseconds ([time.sleep(0.01)] is
      [time_sleep 10], a timeout of 2 seconds is [2000]).
    - [LOG.info] / [LOG.warning] only write to the logging module and are
      left out; where a log call evaluates something that can raise
      ([MODES[mode]]), that evaluation is kept.
    - [json] (either [ujson] or the standard module, whichever the import
      at the top of the file finds), [glob.glob], [os.getpid],
      [time.time] and the module's directory are taken as a [platform]
      parameter.
    - The two [while True] loops and the recursion between
      [start_server] and the ping it sends take fuel; [OutOfFuel] is an
      outcome of the model only, and what is claimed to return is proved
      to return with the fuel stated.
    - A [configdict] is passed by reference: the world has a heap of
      dictionaries and a session holds the address of the caller's.
    - The interpreter is CPython 2 on a 64-bit build.  A size passed to
      [recv] is converted to a C [int] and one passed to a file's [read]
      to a C [long]: beyond them the call raises [OverflowError].  An
      object is reclaimed when its last reference goes; for a socket that
      closes the descriptor.  Memory is taken to be there when asked for.
    - A signal takes effect in its own time: how many calls of [poll]
      still find a killed child alive is given by the world. *)

From Stdlib Require Import ZArith String Ascii Lia.
From stdpp Require Import gmap strings list pretty.

Set Warnings "-register-all".

Local Open Scope string_scope.
Local Open Scope Z_scope.

(** ** Values, exceptions, outcomes *)

(** What [json.loads] can return, and what a config dictionary can hold. *)
Inductive pyvalue : Type :=
| PyNone
| PyBool (b : bool)
| PyInt (z : Z)
| PyFloat (repr : string)
| PyStr (s : string)
| PyList (l : list pyvalue)
| PyDict (kvs : list (string * pyvalue)).

(** The exception classes this module meets.  [socket.timeout] is a
    subclass of [socket.error]. *)
Inductive exn : Type :=
| AssertionError
| SocketError
| SocketTimeout
| StructError
| ValueError
| TypeError
| KeyError
| IOError
| AttributeError
| OSError
| UnboundLocalError
| OverflowError.

Definition is_socket_error (e : exn) : bool :=
  match e with
  | SocketError | SocketTimeout => true
  | _ => false
  end.

Definition is_socket_timeout (e : exn) : bool :=
  match e with
  | SocketTimeout => true
  | _ => false
  end.

Inductive outcome (A : Type) : Type :=
| Ret (a : A)
| Raise (e : exn)
| OutOfFuel.
Arguments Ret {A} a.
Arguments Raise {A} e.
Arguments OutOfFuel {A}.

(** ** The world *)

(** A child runs, has been reaped with its return code, or has been sent
    a terminating signal and is on its way out: the next [lag] calls of
    [poll] still find it alive, the one after reaps it with [retcode]. *)
Inductive proc_status : Type :=
| Running
| Exited (retcode : Z)
| Dying (retcode : Z) (lag : nat).

(** What the peer does on the next read of the response channel: deliver
    [data] after [delay] milliseconds, or break the transport. *)
Inductive reply : Type :=
| Chunk (delay : Z) (data : string)
| Fault.

Inductive event : Type :=
| EPopen (pid : nat) (cmd : string)
| EKill (pid : nat) (sig : Z)
| EMkfifo (path : string)
| EUnlink (path : string)
| EOpen (path : string)
| ESleep (ms : Z)
| EConnect (fd : nat) (port : Z) (ok : bool)
| ESetTimeout (fd : nat) (t : Z)
| ESendAll (fd : nat) (data : string)
| ERecv (fd : nat) (n : Z)
| EClose (fd : nat)
| EReclaim (fd : nat)
| EStdinWrite (pid : nat) (data : string)
| ERead (path : string) (n : Z)
| EAtexitRegister.

Record world : Type := mkWorld {
  files : gset string;                    (* paths that exist *)
  procs : gmap nat proc_status;           (* children spawned so far *)
  conns : gmap nat (option Z);            (* open connections, with timeout *)
  next_id : nat;                          (* next fresh pid / descriptor *)
  connects : list bool;                   (* answers to coming connect()s *)
  replies : list reply;                   (* what coming reads deliver *)
  heap : gmap nat (gmap string pyvalue);  (* dict objects, by identity *)
  trace : list event;                     (* system calls, oldest first *)
  lags : list nat                         (* how slowly coming kills bite *)
}.

(** The instance attributes of a [CoreNLP] object. *)
Record CoreNLP : Type := mkCoreNLP {
  mode : option string;
  proc : option nat;
  server_port : Z;
  configfile : option string;
  configdict : option nat;
  comm_mode : string;
  outpipe : option string;
  classpath : string;
  outpipe_fp : option string
}.

Record state : Type := mkState { self : CoreNLP; env : world }.

Definition with_files (f : gset string) (w : world) : world :=
  mkWorld f (procs w) (conns w) (next_id w) (connects w) (replies w) (heap w) (trace w) (lags w).
Definition with_procs (p : gmap nat proc_status) (w : world) : world :=
  mkWorld (files w) p (conns w) (next_id w) (connects w) (replies w) (heap w) (trace w) (lags w).
Definition with_conns (c : gmap nat (option Z)) (w : world) : world :=
  mkWorld (files w) (procs w) c (next_id w) (connects w) (replies w) (heap w) (trace w) (lags w).
Definition with_next_id (n : nat) (w : world) : world :=
  mkWorld (files w) (procs w) (conns w) n (connects w) (replies w) (heap w) (trace w) (lags w).
Definition with_connects (c : list bool) (w : world) : world :=
  mkWorld (files w) (procs w) (conns w) (next_id w) c (replies w) (heap w) (trace w) (lags w).
Definition with_replies (r : list reply) (w : world) : world :=
  mkWorld (files w) (procs w) (conns w) (next_id w) (connects w) r (heap w) (trace w) (lags w).
Definition with_heap (h : gmap nat (gmap string pyvalue)) (w : world) : world :=
  mkWorld (files w) (procs w) (conns w) (next_id w) (connects w) (replies w) h (trace w) (lags w).
Definition with_trace (t : list event) (w : world) : world :=
  mkWorld (files w) (procs w) (conns w) (next_id w) (connects w) (replies w) (heap w) t (lags w).

Definition with_lags (l : list nat) (w : world) : world :=
  mkWorld (files w) (procs w) (conns w) (next_id w) (connects w) (replies w) (heap w) (trace w) l.

Definition with_proc (p : option nat) (o : CoreNLP) : CoreNLP :=
  mkCoreNLP (mode o) p (server_port o) (configfile o) (configdict o)
            (comm_mode o) (outpipe o) (classpath o) (outpipe_fp o).
Definition with_outpipe_fp (f : option string) (o : CoreNLP) : CoreNLP :=
  mkCoreNLP (mode o) (proc o) (server_port o) (configfile o) (configdict o)
            (comm_mode o) (outpipe o) (classpath o) f.

Definition with_outpipe (p : option string) (o : CoreNLP) : CoreNLP :=
  mkCoreNLP (mode o) (proc o) (server_port o) (configfile o) (configdict o)
            (comm_mode o) p (classpath o) (outpipe_fp o).
Definition with_classpath (c : string) (o : CoreNLP) : CoreNLP :=
  mkCoreNLP (mode o) (proc o) (server_port o) (configfile o) (configdict o)
            (comm_mode o) (outpipe o) c (outpipe_fp o).

(** ** The monad *)

Definition M (A : Type) : Type := state -> outcome A * state.

Definition ret {A} (a : A) : M A := fun st => (Ret a, st).

Definition bind {A B} (m : M A) (k : A -> M B) : M B :=
  fun st =>
    match m st with
    | (Ret a, st') => k a st'
    | (Raise e, st') => (Raise e, st')
    | (OutOfFuel, st') => (OutOfFuel, st')
    end.

Definition raise {A} (e : exn) : M A := fun st => (Raise e, st).
Definition out_of_fuel {A} : M A := fun st => (OutOfFuel, st).

(** [try: body / except <classes matching handles>: handler]. *)
Definition try_except {A} (body : M A) (handles : exn -> bool) (handler : exn -> M A) : M A :=
  fun st =>
    match body st with
    | (Raise e, st') => if handles e then handler e st' else (Raise e, st')
    | r => r
    end.

Declare Scope py_scope.
Delimit Scope py_scope with py.
Notation "x <- c1 ;; c2" := (bind c1 (fun x => c2))
  (at level 100, c1 at next level, right associativity) : py_scope.
Notation "c1 ;; c2" := (bind c1 (fun _ => c2))
  (at level 100, right associativity) : py_scope.
Local Open Scope py_scope.

Definition get_self : M CoreNLP := fun st => (Ret (self st), st).
Definition set_self (o : CoreNLP) : M unit := fun st => (Ret tt, mkState o (env st)).
Definition get_world : M world := fun st => (Ret (env st), st).
Definition set_world (w : world) : M unit := fun st => (Ret tt, mkState (self st) w).
Definition modify_world (f : world -> world) : M unit :=
  fun st => (Ret tt, mkState (self st) (f (env st))).
Definition emit (e : event) : M unit :=
  modify_world (fun w => with_trace (trace w ++ [e])%list w).

Definition assert (b : bool) : M unit :=
  if b then ret tt else raise AssertionError.

(** ** Byte-string helpers *)

Definition NL : string := String (ascii_of_nat 10) "".
Definition TAB : string := String (ascii_of_nat 9) "".
Definition DQ : string := String (ascii_of_nat 34) "".
Definition SQ : ascii := ascii_of_nat 39.

Definition len (s : string) : Z := Z.of_nat (String.length s).

(** [s[:n]] and [s[n:]] for [0 <= n]. *)
Fixpoint str_take (n : Z) (s : string) : string :=
  match s with
  | EmptyString => EmptyString
  | String c s' => if n <=? 0 then EmptyString else String c (str_take (n - 1) s')
  end.

Fixpoint str_drop (n : Z) (s : string) : string :=
  match s with
  | EmptyString => EmptyString
  | String c s' => if n <=? 0 then s else str_drop (n - 1) s'
  end.

(** [c in s] for a one-character [c]. *)
Definition str_contains (c : ascii) (s : string) : bool :=
  existsb (Ascii.eqb c) (list_ascii_of_string s).

(** [s.replace(old, new)] for one-character [old] and [new]. *)
Fixpoint str_replace (old new : ascii) (s : string) : string :=
  match s with
  | EmptyString => EmptyString
  | String c s' => String (if Ascii.eqb c old then new else c) (str_replace old new s')
  end.

(** Truth value of an optional string ([None] and [''] are false). *)
Definition truthy (o : option string) : bool :=
  match o with
  | Some (String _ _) => true
  | _ => false
  end.

(** [struct.unpack('>Q', s)[0]]: exactly eight bytes, most significant
    first; any other length raises [struct.error]. *)
Definition be_value (s : string) : Z :=
  fold_left (fun acc c => acc * 256 + Z.of_N (N_of_ascii c)) (list_ascii_of_string s) 0.

Definition struct_unpack_Q (s : string) : M Z :=
  if Nat.eqb (String.length s) 8 then ret (be_value s) else raise StructError.

(** ** Module constants *)

Record mode_info : Type := mkModeInfo { annotators : string; description : string }.

Definition MODES_items : list (string * mode_info) :=
  [ ("ssplit", mkModeInfo "tokenize, ssplit"
       "tokenization and sentence splitting (included in all subsequent ones)");
    ("pos", mkModeInfo "tokenize, ssplit, pos, lemma"
       "POS (and lemmas)");
    ("ner", mkModeInfo "tokenize, ssplit, pos, lemma, ner, entitymentions"
       "POS and NER (and lemmas)");
    ("parse", mkModeInfo "tokenize, ssplit, pos, lemma, parse"
       "fairly basic parsing with POS, lemmas, trees, dependencies");
    ("nerparse", mkModeInfo "tokenize, ssplit, pos, lemma, ner, entitymentions, parse"
       "parsing with NER, POS, lemmas, depenencies.");
    ("coref", mkModeInfo "tokenize, ssplit, pos, lemma, ner, entitymentions, parse, dcoref"
       "Coreference, including constituent parsing.") ].

Definition MODES : gmap string mode_info := list_to_map MODES_items.

Definition JAVA : string := "java".
Definition XMX_AMOUNT : string := "4g".
Definition PARSEDOC_TIMEOUT_SEC : Z := 60 * 5 * 1000.
Definition STARTUP_BUSY_WAIT_INTERVAL_SEC : Z := 1000.

(** [COMMAND] with its fields filled in and every newline replaced by a
    space. *)
Definition COMMAND_format (classpath comm_info more_config : string) : string :=
  str_replace (ascii_of_nat 10) " "%char
    (NL +:+ "exec " +:+ JAVA +:+ " -Xmx" +:+ XMX_AMOUNT
        +:+ " -XX:ParallelGCThreads=1 -cp '" +:+ classpath +:+ "'" +:+ NL
        +:+ "    corenlp.SocketServer " +:+ comm_info +:+ " " +:+ more_config).

(** ** System calls *)

Definition os_path_exists (p : string) : M bool :=
  w <- get_world ;; ret (bool_decide (p ∈ files w)).

Definition os_mkfifo (p : string) : M unit :=
  ex <- os_path_exists p ;;
  if ex then raise OSError
  else emit (EMkfifo p) ;; modify_world (fun w => with_files ({[p]} ∪ files w) w).

Definition os_unlink (p : string) : M unit :=
  ex <- os_path_exists p ;;
  if ex then emit (EUnlink p) ;; modify_world (fun w => with_files (files w ∖ {[p]}) w)
  else raise OSError.

(** [open(p, 'r')]. *)
Definition open_read (p : string) : M string :=
  ex <- os_path_exists p ;;
  if ex then emit (EOpen p) ;; ret p else raise IOError.

Definition time_sleep (ms : Z) : M unit := emit (ESleep ms).

(** [subprocess.Popen(cmd, shell=True, stdin=subprocess.PIPE)]. *)
Definition subprocess_Popen (cmd : string) : M nat :=
  w <- get_world ;;
  let pid := next_id w in
  set_world (with_next_id (S pid) (with_procs (<[pid := Running]> (procs w)) w)) ;;
  emit (EPopen pid cmd) ;;
  ret pid.

(** [Popen.poll()]: [None] while the child is alive, its return code once
    it has been reaped - by this call, when the child has died since the
    last one.  Every pid a session holds was entered in [procs] by
    [subprocess_Popen]. *)
Definition proc_poll (pid : nat) : M (option Z) :=
  w <- get_world ;;
  match procs w !! pid with
  | Some Running => ret None
  | Some (Exited rc) => ret (Some rc)
  | Some (Dying rc (S lag)) =>
      set_world (with_procs (<[pid := Dying rc lag]> (procs w)) w) ;; ret None
  | Some (Dying rc O) =>
      set_world (with_procs (<[pid := Exited rc]> (procs w)) w) ;; ret (Some rc)
  | None => raise OSError
  end.

(** [os.kill(pid, sig)] with a terminating signal.  The call returns at
    once; the child dies later, with return code [-sig]: the world says
    how many polls later.  A child already on its way out takes the signal
    without further effect; one that has been reaped is no process any
    more. *)
Definition os_kill (pid : nat) (sig : Z) : M unit :=
  w <- get_world ;;
  match procs w !! pid with
  | Some Running =>
      emit (EKill pid sig) ;;
      modify_world (fun w =>
        with_lags (tl (lags w))
          (with_procs (<[pid := Dying (- sig) (hd O (lags w))]> (procs w)) w))
  | Some (Dying _ _) => emit (EKill pid sig)
  | Some (Exited _) => raise OSError
  | None => raise OSError
  end.

(** [socket.socket(AF_INET, SOCK_STREAM)] followed by
    [connect(('localhost', port))]; with nobody left to answer the
    connection is refused. *)
Definition socket_connect (port : Z) : M nat :=
  w <- get_world ;;
  let fd := next_id w in
  match connects w with
  | true :: rest =>
      set_world (with_connects rest (with_next_id (S fd)
                   (with_conns (<[fd := None]> (conns w)) w))) ;;
      emit (EConnect fd port true) ;;
      ret fd
  | false :: rest =>
      set_world (with_connects rest (with_next_id (S fd) w)) ;;
      emit (EConnect fd port false) ;;
      raise SocketError
  | [] =>
      set_world (with_next_id (S fd) w) ;;
      emit (EConnect fd port false) ;;
      raise SocketError
  end.

Definition sock_close (fd : nat) : M unit :=
  emit (EClose fd) ;;
  modify_world (fun w => with_conns (delete fd (conns w)) w).

(** The last reference to a socket object goes (a local variable of a
    function that returns): the object is reclaimed and its descriptor
    closed. *)
Definition sock_reclaim (fd : nat) : M unit :=
  emit (EReclaim fd) ;;
  modify_world (fun w => with_conns (delete fd (conns w)) w).

(** The largest C [int] and C [long]. *)
Definition INT_MAX : Z := 2 ^ 31 - 1.
Definition LONG_MAX : Z := 2 ^ 63 - 1.

(** [sock.settimeout(t)]; a negative timeout is a [ValueError]. *)
Definition sock_settimeout (fd : nat) (t : Z) : M unit :=
  if t <? 0 then raise ValueError
  else
    emit (ESetTimeout fd t) ;;
    modify_world (fun w => with_conns (<[fd := Some t]> (conns w)) w).

Definition sock_sendall (fd : nat) (data : string) : M unit :=
  emit (ESendAll fd data).

Definition timed_out (tmo : option Z) (delay : Z) : bool :=
  match tmo with
  | Some t => t <? delay
  | None => false
  end.

(** Bytes of a chunk that a read left behind stay first in line. *)
Definition pushback (rest : string) (rs : list reply) : list reply :=
  match rest with
  | EmptyString => rs
  | _ => Chunk 0 rest :: rs
  end.

(** [sock.recv(n)]: at most [n] bytes; [''] when the peer has closed;
    [socket.timeout] when nothing arrives within the socket's timeout (the
    data is then still on its way); a request for no bytes returns at
    once.  A size that no C [int] holds is refused before anything is
    read.  With a timeout of 0 the socket does not block: a read that
    finds nothing yet raises [socket.error] (EAGAIN), and no time has
    passed.  The program never passes a negative [n].

    The script is the worker's output in the order it writes it, kept as
    one stream: what a read leaves behind is met by the next read.  On the
    network that holds within one connection; nothing below carries what
    one connection left unread over to another. *)
Definition sock_recv (fd : nat) (n : Z) : M string :=
  if INT_MAX <? n then raise OverflowError else
  emit (ERecv fd n) ;;
  if n <=? 0 then ret "" else
  w <- get_world ;;
  match conns w !! fd with
  | None => raise SocketError
  | Some tmo =>
      match replies w with
      | [] => ret ""
      | Fault :: rs => set_world (with_replies rs w) ;; raise SocketError
      | Chunk d data :: rs =>
          if timed_out tmo d then
            match tmo with
            | Some t =>
                if t =? 0 then raise SocketError
                else set_world (with_replies (Chunk (d - t) data :: rs) w) ;;
                     raise SocketTimeout
            | None => raise SocketTimeout
            end
          else
            set_world (with_replies (pushback (str_drop n data) rs) w) ;;
            ret (str_take n data)
      end
  end.

Definition set_proc (p : option nat) : M unit :=
  o <- get_self ;; set_self (with_proc p o).
Definition set_outpipe_fp (f : option string) : M unit :=
  o <- get_self ;; set_self (with_outpipe_fp f o).
Definition set_outpipe (p : option string) : M unit :=
  o <- get_self ;; set_self (with_outpipe p o).
Definition set_classpath (c : string) : M unit :=
  o <- get_self ;; set_self (with_classpath c o).

(** [self.proc.stdin.write(data)] and [flush()]; writing to a child that
    has gone breaks the pipe; a child on its way out is there to be
    written to for as long as a poll would find it alive. *)
Definition stdin_write (data : string) : M unit :=
  o <- get_self ;;
  match proc o with
  | None => raise AttributeError
  | Some pid =>
      w <- get_world ;;
      emit (EStdinWrite pid data) ;;
      match procs w !! pid with
      | Some Running => ret tt
      | Some (Dying _ (S _)) => ret tt
      | _ => raise IOError
      end
  end.

(** [self.outpipe_fp.read(n)]: like [sock_recv], but a file read has no
    timeout: it waits for the data however long that takes.  (A file read
    comes back short only at end of file; letting it return whatever the
    next chunk holds covers that and more.)  A size that no C [long] holds
    is refused before anything is read.  An exhausted script is the
    writer having closed its end; a read that waits for ever on a silent
    writer has no counterpart here. *)
Definition outpipe_fp_read (n : Z) : M string :=
  o <- get_self ;;
  match outpipe_fp o with
  | None => raise AttributeError
  | Some path =>
      if LONG_MAX <? n then raise OverflowError else
      emit (ERead path n) ;;
      if n <=? 0 then ret "" else
      w <- get_world ;;
      match replies w with
      | [] => ret ""
      | Fault :: rs => set_world (with_replies rs w) ;; raise IOError
      | Chunk d data :: rs =>
          set_world (with_replies (pushback (str_drop n data) rs) w) ;;
          ret (str_take n data)
      end
  end.

(** ** The program *)

(** The libraries and process-wide facts the module reads but does not
    own.  [json_loads] answers [None] where the decoder raises
    [ValueError]; [glob_glob] expands a pattern against the existing
    paths. *)
Record platform : Type := mkPlatform {
  json_loads : string -> option pyvalue;
  json_dumps : pyvalue -> string;
  glob_glob : gset string -> string -> list string;
  os_getpid : Z;
  time_time : string;
  module_dir : string
}.

Section Sockwrap.

Variable P : platform.

(** [command], called from [start_server] with the instance attributes
    as keyword arguments: of the extra keyword arguments only
    [server_port], [outpipe] and [classpath] are read.  [configdict] is a
    reference: the dictionary it names is the caller's own object. *)
Definition command (mode configfile : option string) (configdict : option nat)
    (comm_mode : string) (server_port : Z) (outpipe : option string)
    (classpath : string) : M string :=
  match mode, configfile, configdict with
  | None, None, None => raise AssertionError
  | _, _, _ => ret tt
  end ;;
  configdict <-
    (if truthy mode then
       configdict <-
         match configdict with
         | Some r =>
             w <- get_world ;;
             match heap w !! r with
             | Some d => assert (negb (bool_decide (is_Some (d !! "annotators")))) ;; ret r
             | None => raise TypeError
             end
         | None =>
             w <- get_world ;;
             let r := next_id w in
             set_world (with_next_id (S r) (with_heap (<[r := ∅]> (heap w)) w)) ;;
             ret r
         end ;;
       match MODES !! default "" mode with
       | None => raise KeyError
       | Some info =>
           modify_world (fun w =>
             with_heap (alter (insert "annotators" (PyStr (annotators info))) configdict (heap w)) w) ;;
           ret (Some configdict)
       end
     else ret configdict) ;;
  let more_config := "" in
  let more_config :=
    if truthy configfile then more_config +:+ " --configfile " +:+ default "" configfile
    else more_config in
  w <- get_world ;;
  more_config <-
    match configdict ≫= (fun r => heap w !! r) with
    | Some d =>
        if bool_decide (d = ∅) then ret more_config
        else
          let j := json_dumps P (PyDict (map_to_list d)) in
          assert (negb (str_contains SQ j)) ;;
          ret (more_config +:+ " --configdict '" +:+ j +:+ "'")
    | None => ret more_config
    end ;;
  comm_info <-
    (if String.eqb comm_mode "SOCKET" then ret ("--server " +:+ pretty server_port)
     else if String.eqb comm_mode "PIPE" then
       ret ("--outpipe " +:+ default "None" outpipe)
     else raise KeyError) ;;
  ret (COMMAND_format classpath comm_info more_config).

(** [get_socket(num_retries, retry_interval)]; [trials] is what is left of
    [range(num_retries)]. *)
Fixpoint get_socket_trials (trials : list nat) (num_retries : nat) (retry_interval : Z)
    : M nat :=
  match trials with
  | [] => raise AssertionError
  | trial :: trials' =>
      o <- get_self ;;
      try_except (socket_connect (server_port o)) is_socket_error
        (fun _ =>
           (if Z.of_nat trial <? Z.of_nat num_retries - 1
            then time_sleep retry_interval else ret tt) ;;
           get_socket_trials trials' num_retries retry_interval)
  end.

Definition get_socket (num_retries : nat) (retry_interval : Z) : M nat :=
  get_socket_trials (seq 0 num_retries) num_retries retry_interval.

Definition kill_proc_if_running : M unit :=
  o <- get_self ;;
  match proc o with
  | None => ret tt
  | Some pid =>
      retcode <- proc_poll pid ;;
      match retcode with
      | Some _ => ret tt
      | None => os_kill pid 9
      end
  end.

Definition cleanup : M unit :=
  kill_proc_if_running ;;
  o <- get_self ;;
  if truthy (outpipe o) then
    ex <- os_path_exists (default "" (outpipe o)) ;;
    if ex then os_unlink (default "" (outpipe o)) else ret tt
  else ret tt.

Definition __del__ : M unit := cleanup.

Definition curlen (chunks : list string) : Z :=
  fold_right (fun x acc => len x + acc) 0 chunks.

(** The read inside the accumulation loop, by communication mode. *)
Definition read_chunk (sock : option nat) (n : Z) : M string :=
  o <- get_self ;;
  if String.eqb (comm_mode o) "SOCKET" then
    match sock with
    | Some fd => sock_recv fd n
    | None => raise UnboundLocalError
    end
  else if String.eqb (comm_mode o) "PIPE" then outpipe_fp_read n
  else raise UnboundLocalError.

(** The [while True] loop of [send_command_and_get_string_result]
    (lines 272-283).  [None] is Python's [None]. *)
Fixpoint recv_loop (fuel : nat) (sock : option nat) (size_info : Z) (chunks : list string)
    : M (option string) :=
  match fuel with
  | O => out_of_fuel
  | S fuel' =>
      let remaining_size := size_info - curlen chunks in
      data <- read_chunk sock remaining_size ;;
      let chunks := (chunks ++ [data])%list in
      if size_info <=? curlen chunks then ret (Some (String.concat "" chunks))
      else if 1000 <? Z.of_nat (length chunks) then ret None
      else time_sleep 10 ;; recv_loop fuel' sock size_info chunks
  end.

(** A function returns: its local [sock], if it has one, was the only
    reference to the socket, which is reclaimed.  (When the function is
    left by an exception the traceback keeps the frame, and with it the
    socket, until the exception is let go of, which is the catcher's
    matter: nothing is reclaimed here in that case.) *)
Definition drop_local (sock : option nat) : M unit :=
  match sock with
  | Some fd => sock_reclaim fd
  | None => ret tt
  end.

Definition send_command_and_get_string_result (fuel : nat) (cmd : string) (timeout : Z)
    : M (option string) :=
  o <- get_self ;;
  r <-
    (if String.eqb (comm_mode o) "SOCKET" then
       sock <- get_socket 100 1000 ;;
       sock_settimeout sock timeout ;;
       sock_sendall sock (cmd +:+ NL) ;;
       size_info_str <- sock_recv sock 8 ;;
       ret (Some sock, size_info_str)
     else if String.eqb (comm_mode o) "PIPE" then
       stdin_write (cmd +:+ NL) ;;
       size_info_str <- outpipe_fp_read 8 ;;
       ret (None, size_info_str)
     else raise UnboundLocalError) ;;
  size_info <- struct_unpack_Q (snd r) ;;
  result <- recv_loop fuel (fst r) size_info [] ;;
  drop_local (fst r) ;;
  ret result.

(** [ensure_proc_is_running], with the [start_server] it calls passed in
    (the two are mutually recursive through the startup ping). *)
Definition ensure_proc_is_running_with (start_server : M unit) : M unit :=
  o <- get_self ;;
  match proc o with
  | None => start_server
  | Some pid =>
      rc <- proc_poll pid ;;
      match rc with
      | Some _ => start_server
      | None => ret tt
      end
  end.

Definition send_command_and_parse_result_with (start_server : M unit)
    (fuel : nat) (cmd : string) (timeout : Z) (raw : bool) : M pyvalue :=
  try_except
    (ensure_proc_is_running_with start_server ;;
     data <- send_command_and_get_string_result fuel cmd timeout ;;
     match data with
     | None => ret PyNone
     | Some data =>
         if raw then ret (PyStr data)
         else
           match json_loads P data with
           | Some decoded => ret decoded
           | None => ret PyNone
           end
     end)
    is_socket_timeout
    (fun _ => ret PyNone).

(** [assert ret == "PONG", "Bad return data on startup ping: " + ret]:
    building the message fails first when [ret] is not a string. *)
Definition assert_pong (v : pyvalue) : M unit :=
  match v with
  | PyStr s => assert (String.eqb s "PONG")
  | _ => raise TypeError
  end.

(** The [while True] loop of [start_server] (lines 178-189) around the
    ping (the command [PING], a two-second timeout). *)
Fixpoint ping_loop (ping : M pyvalue) (fuel : nat) : M unit :=
  match fuel with
  | O => out_of_fuel
  | S fuel' =>
      r <- try_except (v <- ping ;; ret (Some v)) is_socket_error
             (fun _ => time_sleep STARTUP_BUSY_WAIT_INTERVAL_SEC ;; ret None) ;;
      match r with
      | None => ping_loop ping fuel'
      | Some PyNone => ping_loop ping fuel'
      | Some v => assert_pong v
      end
  end.

Definition PING : string := "PING" +:+ TAB +:+ DQ +:+ DQ.

Fixpoint start_server (fuel : nat) : M unit :=
  match fuel with
  | O => out_of_fuel
  | S fuel' =>
      kill_proc_if_running ;;
      o <- get_self ;;
      (if String.eqb (comm_mode o) "PIPE" then
         match outpipe o with
         | Some p => ex <- os_path_exists p ;; if ex then ret tt else os_mkfifo p
         | None => raise TypeError
         end
       else ret tt) ;;
      cmd <- command (mode o) (configfile o) (configdict o) (comm_mode o)
                     (server_port o) (outpipe o) (classpath o) ;;
      pid <- subprocess_Popen cmd ;;
      set_proc (Some pid) ;;
      time_sleep STARTUP_BUSY_WAIT_INTERVAL_SEC ;;
      (if String.eqb (comm_mode o) "SOCKET" then
         sock <- get_socket 100 STARTUP_BUSY_WAIT_INTERVAL_SEC ;;
         sock_close sock
       else if String.eqb (comm_mode o) "PIPE" then
         match outpipe o with
         | Some p => fp <- open_read p ;; set_outpipe_fp (Some fp)
         | None => raise TypeError
         end
       else ret tt) ;;
      ping_loop (send_command_and_parse_result_with (start_server fuel') fuel' PING 2000 false)
                fuel'
  end.

Definition ensure_proc_is_running (fuel : nat) : M unit :=
  ensure_proc_is_running_with (start_server fuel).

Definition send_command_and_parse_result (fuel : nat) (cmd : string) (timeout : Z)
    (raw : bool) : M pyvalue :=
  send_command_and_parse_result_with (start_server fuel) fuel cmd timeout raw.

Definition parse_doc (fuel : nat) (text : string) (timeout : Z) (raw : bool) : M pyvalue :=
  let cmd := "PARSEDOC" +:+ TAB +:+ json_dumps P (PyStr text) in
  send_command_and_parse_result fuel cmd timeout raw.

(** [CoreNLP.__init__].  [corenlp_jars] is a list or tuple of strings by
    its type, so the [isinstance] assertion holds; [classpath] has no
    value before line 141. *)
Definition __init__ (mode : option string) (server_port : Z) (comm_mode : string)
    (outpipe_filename_prefix : string) (configfile : option string)
    (configdict : option nat) (corenlp_jars : list string) (fuel : nat) : M unit :=
  set_self (mkCoreNLP mode None server_port configfile configdict comm_mode None "" None) ;;
  (if String.eqb comm_mode "PIPE" then
     let tag := "pypid=" +:+ pretty (os_getpid P) +:+ "_time=" +:+ time_time P in
     let p := outpipe_filename_prefix +:+ "_" +:+ tag in
     set_outpipe (Some p) ;;
     ex <- os_path_exists p ;;
     assert (negb ex)
   else ret tt) ;;
  w <- get_world ;;
  let deglobbed := concat (map (glob_glob P (files w)) corenlp_jars) in
  assert (existsb (fun f => bool_decide (f ∈ files w)) deglobbed) ;;
  let local_libdir := module_dir P +:+ "/lib" in
  let jars := (local_libdir +:+ "/*") :: corenlp_jars in
  set_classpath (String.concat ":" jars) ;;
  start_server fuel ;;
  emit EAtexitRegister.

End Sockwrap.

(** ** A concrete platform

    A decoder and an encoder for the part of JSON the protocol's control
    messages use (the three literals, unsigned integers, strings without
    escapes, flat containers on the way out), and a [glob] over patterns
    without wildcards. *)

Definition is_digit (c : ascii) : bool :=
  let n := nat_of_ascii c in (48 <=? n)%nat && (n <=? 57)%nat.

Definition digits_value (s : string) : Z :=
  fold_left (fun acc c => acc * 10 + (Z.of_nat (nat_of_ascii c) - 48))
            (list_ascii_of_string s) 0.

Definition plain_char (c : ascii) : bool :=
  negb (Ascii.eqb c (ascii_of_nat 34)) && negb (Ascii.eqb c (ascii_of_nat 92)).

Definition loads_frag (s : string) : option pyvalue :=
  if String.eqb s "null" then Some PyNone
  else if String.eqb s "true" then Some (PyBool true)
  else if String.eqb s "false" then Some (PyBool false)
  else
    match s with
    | EmptyString => None
    | String c rest =>
        if Ascii.eqb c (ascii_of_nat 34) then
          let body := str_take (len rest - 1) rest in
          if String.eqb (str_drop (len rest - 1) rest) DQ
             && forallb plain_char (list_ascii_of_string body)
          then Some (PyStr body) else None
        else if forallb is_digit (list_ascii_of_string s) then Some (PyInt (digits_value s))
        else None
    end.

Fixpoint dumps_frag (v : pyvalue) : string :=
  match v with
  | PyNone => "null"
  | PyBool true => "true"
  | PyBool false => "false"
  | PyInt z => pretty z
  | PyFloat r => r
  | PyStr s => DQ +:+ s +:+ DQ
  | PyList l => "[" +:+ String.concat ", " (map dumps_frag l) +:+ "]"
  | PyDict kvs =>
      "{" +:+ String.concat ", "
                (map (fun kv => DQ +:+ fst kv +:+ DQ +:+ ": " +:+ dumps_frag (snd kv)) kvs)
          +:+ "}"
  end.

Definition glob_literal (fs : gset string) (pattern : string) : list string :=
  if bool_decide (pattern ∈ fs) then [pattern] else [].

Definition P0 : platform :=
  mkPlatform loads_frag dumps_frag glob_literal 4242 "1430000000.0" "/opt/pywrapper".

(** ** Example sessions

    A session whose worker (pid 1) is running, in each communication
    mode, over a world with the given connection answers and replies. *)

Definition demo_socket_session : CoreNLP :=
  mkCoreNLP (Some "ssplit") (Some 1%nat) 12340 None None "SOCKET" None
            "/opt/pywrapper/lib/*:/jars/a.jar" None.

Definition demo_pipe_session : CoreNLP :=
  mkCoreNLP (Some "ssplit") (Some 1%nat) 12340 None None "PIPE" (Some "/tmp/pipe")
            "/opt/pywrapper/lib/*:/jars/a.jar" (Some "/tmp/pipe").

Definition demo_world (cs : list bool) (rs : list reply) : world :=
  mkWorld {[ "/jars/a.jar" ]} {[ 1%nat := Running ]} ∅ 2 cs rs ∅ [] [].

(** The eight-byte big-endian header announcing [n < 256] bytes, and a
    whole response frame. *)
Definition header (n : nat) : string :=
  String.concat "" (replicate 7 (String (ascii_of_nat 0) "")) +:+ String (ascii_of_nat n) "".

Definition frame (payload : string) : string :=
  header (String.length payload) +:+ payload.

(** ** Observations on traces and channels *)

Definition is_read (e : event) : bool :=
  match e with
  | ERecv _ _ | ERead _ _ => true
  | _ => false
  end.

Definition is_sleep (e : event) : bool :=
  match e with
  | ESleep _ => true
  | _ => false
  end.

Definition count_ev (p : event -> bool) (tr : list event) : nat :=
  length (List.filter p tr).

(** Reads and sleeps a state has seen so far. *)
Definition reads (st : state) : nat := count_ev is_read (trace (env st)).
Definition sleeps (st : state) : nat := count_ev is_sleep (trace (env st)).

(** Bytes the channel will still deliver. *)
Definition script_bytes (rs : list reply) : Z :=
  fold_right (fun r acc => match r with Chunk _ d => len d + acc | Fault => acc end) 0 rs.

(** Every coming read returns: no transport fault, nothing later than the
    timeout [tmo] of the reader. *)
Definition arrives (tmo : option Z) (r : reply) : bool :=
  match r with
  | Chunk d _ => negb (timed_out tmo d)
  | Fault => false
  end.

Definition all_arrive (tmo : option Z) (rs : list reply) : Prop :=
  forallb (arrives tmo) rs = true.

(** The reader of the loop is usable: a connected socket with timeout
    [tmo] in SOCKET mode, the opened pipe (which has no timeout) in PIPE
    mode. *)
Definition channel_ready (st : state) (sock : option nat) (tmo : option Z) : Prop :=
  (comm_mode (self st) = "SOCKET" /\
     exists fd t, sock = Some fd /\ tmo = Some t /\ 0 <= t /\
                  conns (env st) !! fd = Some tmo)
  \/ (comm_mode (self st) = "PIPE" /\ tmo = None /\ is_Some (outpipe_fp (self st))).

(** The worker was never started, or has been seen to exit. *)
Definition settled (st : state) : Prop :=
  proc (self st) = None
  \/ exists pid rc, proc (self st) = Some pid /\ procs (env st) !! pid = Some (Exited rc).

(** The session's pipe file, if it has one, is not on disk. *)
Definition pipe_gone (st : state) : Prop :=
  truthy (outpipe (self st)) = true -> default "" (outpipe (self st)) ∉ files (env st).

(** The process [pid] has been reaped, or has been sent a terminating
    signal and is on its way out. *)
Definition halted (st : state) (pid : nat) : Prop :=
  exists rc, procs (env st) !! pid = Some (Exited rc)
             \/ exists lag, procs (env st) !! pid = Some (Dying rc lag).

(** The session has no worker that runs unsignalled. *)
Definition stopped (st : state) : Prop :=
  proc (self st) = None \/ exists pid, proc (self st) = Some pid /\ halted st pid.

(** The worker is running. *)
Definition live (st : state) : Prop :=
  exists pid, proc (self st) = Some pid /\ procs (env st) !! pid = Some Running.

(** The loop has something to read from: a socket in SOCKET mode, the
    opened pipe in PIPE mode. *)
Definition reader_bound (st : state) (sock : option nat) : Prop :=
  (comm_mode (self st) = "SOCKET" /\ is_Some sock)
  \/ (comm_mode (self st) = "PIPE" /\ is_Some (outpipe_fp (self st))).

(** The state a SOCKET-mode call is in once the header read is over:
    one more descriptor, connected, with the timeout set, the command
    sent, and [rs] still to come. *)
Definition socket_call_state (st : state) (cmd : string) (timeout : Z)
    (cs : list bool) (rs : list reply) : state :=
  let w := env st in
  let fd := next_id w in
  mkState (self st)
    (mkWorld (files w) (procs w) (<[fd := Some timeout]> (<[fd := None]> (conns w)))
       (S fd) cs rs (heap w)
       (trace w ++ [EConnect fd (server_port (self st)) true; ESetTimeout fd timeout;
                    ESendAll fd (cmd +:+ NL); ERecv fd 8]) (lags w)).

(** The same for PIPE mode. *)
Definition pipe_call_state (st : state) (pid : nat) (path cmd : string)
    (rs : list reply) : state :=
  let w := env st in
  mkState (self st)
    (mkWorld (files w) (procs w) (conns w) (next_id w) (connects w) rs (heap w)
       (trace w ++ [EStdinWrite pid (cmd +:+ NL); ERead path 8]) (lags w)).

(** The state once the socket object of descriptor [fd] has been
    reclaimed; and once a function's local [sock] has gone. *)
Definition reclaimed (fd : nat) (st : state) : state :=
  mkState (self st)
    (with_conns (delete fd (conns (env st)))
       (with_trace (trace (env st) ++ [EReclaim fd]) (env st))).

Definition dropped (sock : option nat) (st : state) : state :=
  match sock with
  | Some fd => reclaimed fd st
  | None => st
  end.

(** The next reply delivers, in time for this call, at least the eight
    header bytes, and they announce an empty payload. *)
Definition empty_frame_next (st : state) (timeout : Z) : Prop :=
  exists d data rs,
    replies (env st) = Chunk d data :: rs /\ str_take 8 data = header 0 /\
    ((comm_mode (self st) = "SOCKET" /\ 0 <= timeout /\ d <= timeout /\
        exists cs, connects (env st) = true :: cs)
     \/ (comm_mode (self st) = "PIPE" /\ is_Some (outpipe_fp (self st)))).

(** The state after [time.sleep] of [ms] milliseconds. *)
Definition slept (ms : Z) (st : state) : state :=
  mkState (self st) (with_trace (trace (env st) ++ [ESleep ms]) (env st)).

(** The payload a healthy worker answers a ping with: the JSON string
    [PONG]. *)
Definition PONG_payload : string := DQ +:+ "PONG" +:+ DQ.

Definition unstarted_socket_session : CoreNLP := with_proc None demo_socket_session.

(** ** What a computation leaves alone *)

(** [m] relates every state it starts in to the state it ends in,
    whatever the outcome. *)
Definition preserves (R : state -> state -> Prop) {A} (m : M A) : Prop :=
  forall st, R st (snd (m st)).

(** No dictionary is touched, and identifiers are only used up. *)
Definition grow (st st' : state) : Prop :=
  heap (env st') = heap (env st) /\ (next_id (env st) <= next_id (env st'))%nat.

(** The dictionary at [r], once it has an [annotators] entry, stays as it
    is. *)
Definition stable (r : nat) (st st' : state) : Prop :=
  (r < next_id (env st))%nat ->
  (r < next_id (env st'))%nat /\
  forall d, heap (env st) !! r = Some d -> is_Some (d !! "annotators") ->
            heap (env st') !! r = Some d.

Definition is_close (e : event) : bool :=
  match e with
  | EClose _ => true
  | _ => false
  end.

Definition is_kill (e : event) : bool :=
  match e with
  | EKill _ _ => true
  | _ => false
  end.

(** Signals a state has seen sent so far. *)
Definition kills (st : state) : nat := count_ev is_kill (trace (env st)).

(** Calls of [close] a state has seen so far. *)
Definition closes (st : state) : nat := count_ev is_close (trace (env st)).

Definition is_open (e : event) : bool :=
  match e with
  | EConnect _ _ true => true
  | _ => false
  end.

(** Connections made so far. *)
Definition opens (st : state) : nat := count_ev is_open (trace (env st)).

(** No connection is opened or closed, no [close] is called. *)
Definition same_conns (st st' : state) : Prop :=
  conns (env st') = conns (env st) /\ closes st' = closes st /\ opens st' = opens st.

(** The path [__init__] gives the session's pipe. *)
Definition session_pipe_path (P : platform) (prefix : string) : string :=
  prefix +:+ "_" +:+ ("pypid=" +:+ pretty (os_getpid P) +:+ "_time=" +:+ time_time P).


(** The trace is only ever added to. *)
Definition extends (st st' : state) : Prop :=
  exists evs, trace (env st') = (trace (env st) ++ evs)%list.


(** ** Example states *)


Definition pipe_on_disk : state :=
  mkState demo_pipe_session (with_files {[ "/tmp/pipe" ]} (demo_world [] [])).

(** The same session with a worker that takes its time to die: one
    [poll()] after the signal still finds it alive. *)
Definition pipe_on_disk_slow_worker : state :=
  mkState demo_pipe_session
    (with_lags [1%nat] (with_files {[ "/tmp/pipe" ]} (demo_world [] []))).



Definition empty_frame_state : state :=
  mkState demo_socket_session (demo_world [true] [Chunk 0 (header 0)]).

Definition is_ping_send (e : event) : bool :=
  match e with
  | ESendAll _ _ => true
  | _ => false
  end.

Definition handshake_with_odd_replies : outcome unit * state :=
  start_server P0 10
    (mkState unstarted_socket_session
       (demo_world [true; true; true; true]
          [Chunk 0 (frame "oops"); Chunk 0 (frame "null"); Chunk 0 (frame PONG_payload)])).

(** One regular call that succeeds, and the session's startup. *)
Definition after_one_call : state :=
  snd (send_command_and_get_string_result 5 PING 2000
         (mkState demo_socket_session (demo_world [true] [Chunk 0 (frame PONG_payload)]))).

(** The startup: the probe connection of [start_server] (descriptor 4)
    is closed by a call of [close]; the connection of the ping that
    follows (descriptor 5) by the reclaiming of its socket. *)
Definition after_startup : state :=
  snd (start_server P0 10
         (mkState unstarted_socket_session
            (demo_world [true; true] [Chunk 0 (frame PONG_payload)]))).

Definition callers_dict : gmap string pyvalue := {[ "ssplit.isOneSentence" := PyStr "true" ]}.

Definition world_with_callers_dict : world :=
  with_heap {[ 0%nat := callers_dict ]} (demo_world [true; true] [Chunk 0 (frame PONG_payload)]).


Definition after_construction : state :=
  snd (__init__ P0 (Some "ssplit") 12340 "SOCKET" "/tmp/corenlp_pywrap_pipe" None
         (Some 0%nat) ["/jars/a.jar"] 10
         (mkState unstarted_socket_session world_with_callers_dict)).

(** ** Further observations *)

Definition is_connect (e : event) : bool :=
  match e with
  | EConnect _ _ _ => true
  | _ => false
  end.

(** Connection attempts a state has seen so far. *)
Definition attempts (st : state) : nat := count_ev is_connect (trace (env st)).

(** The next [n] connection attempts are all refused. *)
Definition refused (n : nat) (cs : list bool) : Prop :=
  Forall (fun b => b = false) (take n cs).

(** The bytes the channel will deliver, in order, whatever their
    segmentation. *)
Definition script_data (rs : list reply) : string :=
  fold_right (fun r acc => match r with Chunk _ d => d +:+ acc | Fault => acc end) "" rs.

(** What has been written to the worker so far, over a socket or its
    standard input. *)
Definition sent_of (e : event) : list string :=
  match e with
  | ESendAll _ s | EStdinWrite _ s => [s]
  | _ => []
  end.

Definition sent (st : state) : list string := flat_map sent_of (trace (env st)).

(** The session can place a call whose first read returns [d] late: a
    connection will be accepted and [d] is within the timeout (SOCKET), or
    the worker runs and the pipe is open (PIPE); [tmo] is the timeout the
    reads of the call are under. *)
Definition call_ready (st : state) (timeout d : Z) (tmo : option Z) : Prop :=
  (comm_mode (self st) = "SOCKET" /\ (exists cs, connects (env st) = true :: cs) /\
     0 <= timeout /\ d <= timeout /\ tmo = Some timeout)
  \/ (comm_mode (self st) = "PIPE" /\ live st /\ is_Some (outpipe_fp (self st)) /\
        tmo = None).

(** The connection answers left after a call: a SOCKET-mode call uses
    one up. *)
Definition call_connects (st : state) : list bool :=
  if String.eqb (comm_mode (self st)) "SOCKET" then drop 1 (connects (env st))
  else connects (env st).

(** The next response arrives whole: a header in one piece, announcing
    a length that a read takes as its size, then, in at most a thousand
    further pieces, at least the bytes it announces. *)
Definition served_call (st : state) (timeout : Z) : Prop :=
  exists d data rs tmo,
    replies (env st) = Chunk d data :: rs /\ 8 <= len data /\
    call_ready st timeout d tmo /\ all_arrive tmo rs /\
    0 < be_value (str_take 8 data) <= len (str_drop 8 data) + script_bytes rs /\
    be_value (str_take 8 data) <= INT_MAX /\
    (length rs <= 1000)%nat.

(** ** Further example states *)

(** Nobody answers the next three connection attempts. *)
Definition refusing_state : state :=
  mkState demo_socket_session (demo_world [false; false; false] []).

(** The worker starts listening between the second and the third
    attempt. *)
Definition late_listener_state : state :=
  mkState demo_socket_session (demo_world [false; false; true; true] []).

(** A five-byte response in three segments, the last of which already
    carries the start of the next frame. *)
Definition fragmented_pipe_state : state :=
  mkState demo_pipe_session
    (demo_world [] [Chunk 0 (header 5 +:+ "h"); Chunk 30 "el";
                    Chunk 0 ("lo" +:+ header 1); Chunk 0 "x"]).

(** The header itself comes in two segments. *)
Definition split_header_state : state :=
  mkState demo_socket_session
    (demo_world [true] [Chunk 0 "abc"; Chunk 0 (str_drop 3 (frame PONG_payload))]).

(** Only dictionaries are touched and identifiers used up: the session
    object, the processes, files, connections, channel and trace are as
    they were. *)
Definition allocates (st st' : state) : Prop :=
  self st' = self st /\ files (env st') = files (env st)
  /\ procs (env st') = procs (env st) /\ conns (env st') = conns (env st)
  /\ connects (env st') = connects (env st) /\ replies (env st') = replies (env st)
  /\ trace (env st') = trace (env st) /\ (next_id (env st) <= next_id (env st'))%nat.

(** Every process the session holds is one the system knows. *)
Definition known (st : state) : Prop :=
  forall pid, proc (self st) = Some pid -> is_Some (procs (env st) !! pid).

(** The dictionary [command] builds when only a mode is given, and the
    condition under which its encoding is accepted. *)
Definition mode_config (info : mode_info) : gmap string pyvalue :=
  <["annotators" := PyStr (annotators info)]> ∅.

Definition quote_free (P : platform) (info : mode_info) : Prop :=
  str_contains SQ (json_dumps P (PyDict (map_to_list (mode_config info)))) = false.

(** A session configured by a mode preset alone. *)
Definition mode_only (P : platform) (o : CoreNLP) : Prop :=
  configdict o = None /\
  exists m info, mode o = Some m /\ MODES !! m = Some info /\ quote_free P info.

(** The state once a worker has been spawned with [cmd], recorded as the
    session's, and given its first second. *)
Definition spawned (st : state) (cmd : string) : state :=
  let w := env st in
  mkState (with_proc (Some (next_id w)) (self st))
    (mkWorld (files w) (<[next_id w := Running]> (procs w)) (conns w) (S (next_id w))
       (connects w) (replies w) (heap w)
       (trace w ++ [EPopen (next_id w) cmd; ESleep STARTUP_BUSY_WAIT_INTERVAL_SEC]) (lags w)).

(** The state once the probe connection of [start_server] has been
    accepted and closed. *)
Definition probed (st : state) (cs : list bool) : state :=
  let w := env st in
  mkState (self st)
    (mkWorld (files w) (procs w) (delete (next_id w) (<[next_id w := None]> (conns w)))
       (S (next_id w)) cs (replies w) (heap w)
       (trace w ++ [EConnect (next_id w) (server_port (self st)) true; EClose (next_id w)])
       (lags w)).

Definition is_atexit (e : event) : bool :=
  match e with
  | EAtexitRegister => true
  | _ => false
  end.

(** Exit hooks registered so far. *)
Definition hooks (st : state) : nat := count_ev is_atexit (trace (env st)).

(** The session object, the processes, the files and the dictionaries
    are as they were, and no exit hook has been registered. *)
Definition untouched (st st' : state) : Prop :=
  self st' = self st /\ procs (env st') = procs (env st)
  /\ files (env st') = files (env st) /\ heap (env st') = heap (env st)
  /\ hooks st' = hooks st /\ (next_id (env st) <= next_id (env st'))%nat.

(** The process [pid] has been seen to exit. *)
Definition exited (st : state) (pid : nat) : Prop :=
  exists rc, procs (env st) !! pid = Some (Exited rc).

(** The configuration part of a session object: everything but the
    worker and the open pipe. *)
Definition same_config (o o' : CoreNLP) : Prop :=
  mode o' = mode o /\ server_port o' = server_port o /\ configfile o' = configfile o
  /\ configdict o' = configdict o /\ comm_mode o' = comm_mode o
  /\ outpipe o' = outpipe o /\ classpath o' = classpath o.

(** Of the dictionary at [r], at most the [annotators] entry is
    written, and that only where there was none. *)
Definition keeps_entries (r : nat) (st st' : state) : Prop :=
  forall d, heap (env st) !! r = Some d ->
    exists d', heap (env st') !! r = Some d'
               /\ (forall k, k <> "annotators" -> d' !! k = d !! k)
               /\ (is_Some (d !! "annotators") -> d' = d).

(** What starting a worker never does: it registers no exit hook;
    changes no configuration field of the session object (the dictionary
    that [configdict] refers to is another matter: see the next but one
    clause); revives no process that has exited or been signalled; of
    the dictionaries there are, writes at most the [annotators] entry,
    where there was none; deletes no file; and creates no file but the
    pipe of a PIPE-mode session. *)
Definition orderly (st st' : state) : Prop :=
  hooks st' = hooks st
  /\ same_config (self st) (self st')
  /\ (next_id (env st) <= next_id (env st'))%nat
  /\ (forall pid, (pid < next_id (env st))%nat ->
        (exited st pid -> exited st' pid) /\ (halted st pid -> halted st' pid))
  /\ (forall r, (r < next_id (env st))%nat -> keeps_entries r st st')
  /\ (forall q, q ∈ files (env st) -> q ∈ files (env st'))
  /\ (forall q, q ∈ files (env st') ->
        q ∈ files (env st) \/ (comm_mode (self st) = "PIPE" /\ outpipe (self st) = Some q)).

(** Some entry of [corenlp_jars] expands to a path that exists. *)
Definition jars_found (P : platform) (corenlp_jars : list string) (st : state) : Prop :=
  exists f p, f ∈ corenlp_jars /\ p ∈ glob_glob P (files (env st)) f /\ p ∈ files (env st).

(** The session object [__init__] has built by the time it calls
    [start_server]. *)
Definition new_session (P : platform) (mode : option string) (server_port : Z)
    (cm prefix : string) (configfile : option string) (configdict : option nat)
    (corenlp_jars : list string) : CoreNLP :=
  mkCoreNLP mode None server_port configfile configdict cm
    (if String.eqb cm "PIPE" then Some (session_pipe_path P prefix) else None)
    (String.concat ":" (((module_dir P +:+ "/lib") +:+ "/*") :: corenlp_jars)) None.

(** What [cleanup] may change: the session's worker and the session's
    pipe file, nothing else. *)
Definition tidies (st st' : state) : Prop :=
  self st' = self st /\ heap (env st') = heap (env st) /\ conns (env st') = conns (env st)
  /\ connects (env st') = connects (env st) /\ replies (env st') = replies (env st)
  /\ next_id (env st') = next_id (env st) /\ sent st' = sent st /\ hooks st' = hooks st
  /\ (forall q, q ∈ files (env st') -> q ∈ files (env st))
  /\ (forall q, outpipe (self st) <> Some q -> q ∈ files (env st) -> q ∈ files (env st'))
  /\ (forall pid, proc (self st) <> Some pid ->
        procs (env st') !! pid = procs (env st) !! pid).

(** The state once the pipe has been opened for reading. *)
Definition opened (st : state) (p : string) : state :=
  mkState (with_outpipe_fp (Some p) (self st))
    (with_trace (trace (env st) ++ [EOpen p]) (env st)).

(** A SOCKET-mode response in three segments, each as late as the
    timeout allows. *)
Definition slow_socket_state : state :=
  mkState demo_socket_session
    (demo_world [true] [Chunk 2000 (header 5 +:+ "h"); Chunk 2000 "el";
                        Chunk 2000 ("lo" +:+ header 1); Chunk 0 "x"]).

(** The worker has crashed; the next worker will answer the probe, the
    ping and one command. *)
Definition crashed_socket_state : state :=
  mkState demo_socket_session
    (with_procs {[ 1%nat := Exited 1 ]}
       (demo_world [true; true; true]
          [Chunk 0 (frame PONG_payload); Chunk 0 (header 4 +:+ "tr"); Chunk 5 "ue"])).

(** A session built with both a mode and a dictionary, after its first
    start: the dictionary has [annotators] by now, and the worker has
    crashed. *)
Definition stale_dict_state : state :=
  mkState (mkCoreNLP (Some "ssplit") (Some 1%nat) 12340 None (Some 0%nat) "SOCKET" None
             "/opt/pywrapper/lib/*:/jars/a.jar" None)
    (with_heap {[ 0%nat := <["annotators" := PyStr "tokenize, ssplit"]> callers_dict ]}
       (with_procs {[ 1%nat := Exited 1 ]} (demo_world [true; true] []))).

(** Nothing has been constructed yet; the worker will answer the ping. *)
Definition blank_state : state :=
  mkState unstarted_socket_session (demo_world [] [Chunk 0 (frame PONG_payload)]).

(** ** Proof support *)

Lemma count_ev_snoc p tr e :
  count_ev p (tr ++ [e]) = (count_ev p tr + (if p e then 1 else 0))%nat.
Proof.
  unfold count_ev. rewrite List.filter_app, length_app. simpl.
  destruct (p e); reflexivity.
Qed.

Lemma len_nonneg s : 0 <= len s.
Proof. unfold len. lia. Qed.

Lemma len_take_drop n s : len (str_take n s) + len (str_drop n s) = len s.
Proof.
  revert n. induction s as [|c s IH]; intros n; simpl; [reflexivity|].
  destruct (n <=? 0) eqn:E.
  - reflexivity.
  - specialize (IH (n - 1)). unfold len in *. simpl String.length. lia.
Qed.

Lemma script_bytes_nonneg rs : 0 <= script_bytes rs.
Proof.
  induction rs as [|[d s|] rs IH]; simpl; [lia | | exact IH].
  pose proof (len_nonneg s). lia.
Qed.

Lemma script_bytes_pushback rest rs :
  script_bytes (pushback rest rs) = len rest + script_bytes rs.
Proof. destruct rest; reflexivity. Qed.

Lemma all_arrive_pushback tmo rest rs :
  timed_out tmo 0 = false -> all_arrive tmo rs -> all_arrive tmo (pushback rest rs).
Proof.
  intros H0 Hrs. destruct rest; [exact Hrs|].
  unfold all_arrive in *. simpl. rewrite H0, Hrs. reflexivity.
Qed.

Lemma curlen_snoc chunks data : curlen (chunks ++ [data]) = curlen chunks + len data.
Proof.
  induction chunks as [|c cs IH]; simpl; [lia|]. rewrite IH. lia.
Qed.

#[local] Arguments count_ev : simpl never.

Ltac unfold_m :=
  unfold bind, ret, raise, out_of_fuel, try_except, get_self, set_self, get_world,
    set_world, modify_world, emit, assert, time_sleep in *.

Ltac case_step :=
  match goal with
  | |- context [match ?x with _ => _ end] =>
      lazymatch x with
      | context [match _ with _ => _ end] => fail
      | _ => destruct x eqn:?
      end
  end.

Ltac run := repeat (simpl in *; unfold_m; simpl in *; try case_step).


Lemma recv_loop_unfold fuel sock size chunks st :
  recv_loop (S fuel) sock size chunks st =
  match read_chunk sock (size - curlen chunks) st with
  | (Ret data, st1) =>
      let chunks' := (chunks ++ [data])%list in
      if size <=? curlen chunks' then (Ret (Some (String.concat "" chunks')), st1)
      else if 1000 <? Z.of_nat (length chunks') then (Ret None, st1)
      else recv_loop fuel sock size chunks'
             (mkState (self st1) (with_trace (trace (env st1) ++ [ESleep 10]) (env st1)))
  | (Raise e, st1) => (Raise e, st1)
  | (OutOfFuel, st1) => (OutOfFuel, st1)
  end.
Proof.
  cbn [recv_loop]. unfold bind at 1.
  destruct (read_chunk sock (size - curlen chunks) st) as [[data|e|] st1]; try reflexivity.
  cbv zeta.
  destruct (size <=? curlen (chunks ++ [data])); [reflexivity|].
  destruct (1000 <? Z.of_nat (length (chunks ++ [data]))); reflexivity.
Qed.


Lemma curlen_nonneg chunks : 0 <= curlen chunks.
Proof.
  induction chunks as [|c cs IH]; simpl; [lia|]. pose proof (len_nonneg c). lia.
Qed.

Lemma within_int n : n <= INT_MAX -> (INT_MAX <? n) = false /\ (LONG_MAX <? n) = false.
Proof. unfold INT_MAX, LONG_MAX. intros H. split; apply Z.ltb_ge; lia. Qed.

Lemma read_chunk_arrives sock tmo n st :
  channel_ready st sock tmo -> all_arrive tmo (replies (env st)) -> 0 < n -> n <= INT_MAX ->
  exists data st',
    read_chunk sock n st = (Ret data, st') /\
    channel_ready st' sock tmo /\
    all_arrive tmo (replies (env st')) /\
    len data + script_bytes (replies (env st')) = script_bytes (replies (env st)) /\
    reads st' = S (reads st) /\ sleeps st' = sleeps st.
Proof.
  intros Hready Harr Hn Hmax. destruct (within_int n Hmax) as [Hi Hl].
  destruct st as [o w]. simpl in *.
  assert (Hn' : (n <=? 0) = false) by (apply Z.leb_gt; lia).
  unfold read_chunk, bind, get_self. simpl.
  destruct Hready as [[Hm (fd & t & -> & -> & Ht & Hc)] | [Hm [-> [path Hfp]]]];
    simpl in Hm; rewrite Hm; simpl.
  - simpl in Hc. unfold sock_recv. rewrite Hi.
    unfold bind, emit, modify_world, get_world, set_world, ret. simpl.
    rewrite Hn'. simpl. rewrite Hc.
    destruct (replies w) as [|[d data|] rs] eqn:Hrs; simpl.
    + eexists _, _; split; [reflexivity|]. simpl. rewrite Hrs.
      repeat split; try assumption.
      * left. simpl. split; [assumption|]. exists fd, t. auto.
      * unfold reads. simpl. rewrite count_ev_snoc. simpl. lia.
      * unfold sleeps. simpl. rewrite count_ev_snoc. simpl. lia.
    + unfold all_arrive in Harr. simpl in Harr.
      apply andb_prop in Harr as [Hd Hrest]. apply negb_true_iff in Hd.
      simpl in Hd. rewrite Hd. simpl.
      eexists _, _; split; [reflexivity|]. simpl.
      repeat split.
      * left. simpl. split; [assumption|]. exists fd, t. auto.
      * apply all_arrive_pushback; [|exact Hrest]. simpl. apply Z.ltb_ge. lia.
      * rewrite script_bytes_pushback. pose proof (len_take_drop n data). lia.
      * unfold reads. simpl. rewrite count_ev_snoc. simpl. lia.
      * unfold sleeps. simpl. rewrite count_ev_snoc. simpl. lia.
    + unfold all_arrive in Harr. simpl in Harr. discriminate.
  - simpl in Hfp. unfold outpipe_fp_read, bind, get_self. cbn [self]. rewrite Hfp, Hl.
    unfold bind, emit, modify_world, get_world, get_self, set_world, ret. simpl.
    rewrite Hn'. simpl.
    destruct (replies w) as [|[d data|] rs] eqn:Hrs; simpl.
    + eexists _, _; split; [reflexivity|]. simpl. rewrite Hrs.
      repeat split; try assumption.
      * right. simpl. repeat split; [assumption | eauto].
      * unfold reads. simpl. rewrite count_ev_snoc. simpl. lia.
      * unfold sleeps. simpl. rewrite count_ev_snoc. simpl. lia.
    + unfold all_arrive in Harr. simpl in Harr.
      eexists _, _; split; [reflexivity|]. simpl.
      repeat split.
      * right. simpl. repeat split; [assumption | eauto].
      * apply all_arrive_pushback; [reflexivity | exact Harr].
      * rewrite script_bytes_pushback. pose proof (len_take_drop n data). lia.
      * unfold reads. simpl. rewrite count_ev_snoc. simpl. lia.
      * unfold sleeps. simpl. rewrite count_ev_snoc. simpl. lia.
    + unfold all_arrive in Harr. simpl in Harr. discriminate.
Qed.

Lemma recv_loop_starved sock tmo size fuel : forall chunks st,
  (length chunks <= 1000)%nat -> (1001 <= fuel + length chunks)%nat ->
  channel_ready st sock tmo -> all_arrive tmo (replies (env st)) ->
  curlen chunks + script_bytes (replies (env st)) < size -> size <= INT_MAX ->
  exists st',
    recv_loop fuel sock size chunks st = (Ret None, st') /\
    reads st' = (reads st + (1001 - length chunks))%nat /\
    sleeps st' = (sleeps st + (1000 - length chunks))%nat.
Proof.
  induction fuel as [|fuel IH]; intros chunks st Hlen Hfuel Hready Harr Hlt Hmax; [lia|].
  rewrite recv_loop_unfold.
  pose proof (script_bytes_nonneg (replies (env st))) as Hnn.
  pose proof (curlen_nonneg chunks) as Hcl.
  destruct (read_chunk_arrives sock tmo (size - curlen chunks) st Hready Harr)
    as (data & st1 & -> & Hready1 & Harr1 & Hbytes & Hreads & Hsleeps); [lia|lia|].
  cbv zeta.
  pose proof (script_bytes_nonneg (replies (env st1))) as Hnn1.
  assert (Hgo : (size <=? curlen (chunks ++ [data])) = false).
  { apply Z.leb_gt. rewrite curlen_snoc. lia. }
  rewrite Hgo.
  destruct (1000 <? Z.of_nat (length (chunks ++ [data]))) eqn:Hcap.
  - apply Z.ltb_lt in Hcap. rewrite length_app in Hcap. cbn [length] in Hcap.
    exists st1. split; [reflexivity|]. lia.
  - apply Z.ltb_ge in Hcap. rewrite length_app in Hcap. cbn [length] in Hcap.
    set (st2 := {| self := self st1; env := _ |}).
    assert (Hr2 : reads st2 = reads st1).
    { unfold reads, st2. cbn [env trace with_trace]. rewrite count_ev_snoc. simpl. lia. }
    assert (Hs2 : sleeps st2 = S (sleeps st1)).
    { unfold sleeps, st2. cbn [env trace with_trace]. rewrite count_ev_snoc. simpl. lia. }
    destruct (IH (chunks ++ [data])%list st2) as (st' & Hrun & Hr' & Hs').
    + rewrite length_app. cbn [length]. lia.
    + rewrite length_app. cbn [length]. lia.
    + destruct Hready1 as [[Hm (fd & t & ? & ? & ? & Hc)] | [Hm [? Hfp]]];
        [left | right]; unfold st2; simpl; eauto 10.
    + exact Harr1.
    + rewrite curlen_snoc. unfold st2. simpl. lia.
    + exact Hmax.
    + exists st'. split; [exact Hrun|].
      rewrite length_app in Hr', Hs'. cbn [length] in Hr', Hs'. lia.
Qed.


(** ** Stepping through monadic code *)

Ltac msimpl :=
  cbn [self env files procs conns next_id connects replies heap trace lags
       with_files with_procs with_conns with_next_id with_connects with_replies
       with_heap with_trace with_lags
       mode proc server_port configfile configdict comm_mode outpipe classpath outpipe_fp
       with_proc with_outpipe_fp with_outpipe with_classpath fst snd negb] in *.

Ltac mstep := repeat (progress (unfold_m; msimpl)).

Lemma bind_ret_eq {A B} (m : M A) (k : A -> M B) st a st' :
  m st = (Ret a, st') -> bind m k st = k a st'.
Proof. intros H. unfold bind. rewrite H. reflexivity. Qed.

Lemma bind_raise_eq {A B} (m : M A) (k : A -> M B) st e st' :
  m st = (Raise e, st') -> bind m k st = (Raise e, st').
Proof. intros H. unfold bind. rewrite H. reflexivity. Qed.

Lemma get_socket_first n interval st cs :
  connects (env st) = true :: cs ->
  get_socket (S n) interval st
  = (Ret (next_id (env st)),
     mkState (self st)
       (with_trace (trace (env st) ++ [EConnect (next_id (env st)) (server_port (self st)) true])
          (with_connects cs (with_next_id (S (next_id (env st)))
             (with_conns (<[next_id (env st) := None]> (conns (env st))) (env st)))))).
Proof.
  intros Hc. destruct st as [o w]. msimpl.
  unfold get_socket. cbn [seq get_socket_trials]. unfold socket_connect. mstep.
  rewrite Hc. reflexivity.
Qed.

(** A SOCKET-mode call on a connection over which nothing arrives: the
    header read returns the empty string and unpacking it fails. *)
Lemma socket_call_without_data fuel cmd t cs st :
  comm_mode (self st) = "SOCKET" -> connects (env st) = true :: cs ->
  replies (env st) = [] -> 0 <= t ->
  exists st',
    send_command_and_get_string_result fuel cmd t st = (Raise StructError, st')
    /\ trace (env st') =
         (trace (env st) ++
            [EConnect (next_id (env st)) (server_port (self st)) true;
             ESetTimeout (next_id (env st)) t;
             ESendAll (next_id (env st)) (cmd +:+ NL);
             ERecv (next_id (env st)) 8])%list.
Proof.
  intros Hm Hc Hr Ht.
  unfold send_command_and_get_string_result. unfold bind at 1. unfold get_self at 1.
  rewrite Hm. cbn [String.eqb Ascii.eqb Bool.eqb]. cbv iota.
  unfold bind at 1. unfold bind at 1. unfold bind at 1.
  rewrite (get_socket_first 99 1000 st cs Hc).
  destruct st as [o w]. msimpl.
  unfold sock_settimeout, sock_sendall, sock_recv, struct_unpack_Q.
  assert (Ht' : (t <? 0) = false) by (apply Z.ltb_ge; lia). rewrite Ht'.
  change (INT_MAX <? 8) with false. cbv iota.
  mstep. change (8 <=? 0) with false. cbv iota. mstep.
  rewrite lookup_insert_eq. rewrite Hr. cbn [String.length Nat.eqb].
  eexists; split; [reflexivity|]. msimpl.
  rewrite <- !app_assoc. reflexivity.
Qed.

(** ** One call, step by step *)

Lemma ensure_live start st : live st -> ensure_proc_is_running_with start st = (Ret tt, st).
Proof.
  destruct st as [o w]. intros (pid & Ho & Hp). msimpl.
  unfold ensure_proc_is_running_with, proc_poll. mstep. rewrite Ho. mstep. rewrite Hp.
  reflexivity.
Qed.

Lemma recv_loop_empty_frame fuel sock st :
  reader_bound st sock ->
  exists st',
    recv_loop (S fuel) sock 0 [] st = (Ret (Some ""), st')
    /\ reads st' = S (reads st)
    /\ self st' = self st
    /\ replies (env st') = replies (env st).
Proof.
  intros Hb. rewrite recv_loop_unfold. cbn [curlen fold_right]. change (0 - 0) with 0.
  destruct st as [o w]. unfold read_chunk, reads. mstep.
  destruct Hb as [[Hm [fd ->]] | [Hm [path Hfp]]]; msimpl; rewrite Hm.
  - cbn [String.eqb Ascii.eqb Bool.eqb]. cbv iota. unfold sock_recv.
    change (INT_MAX <? 0) with false. cbv iota. mstep.
    change (0 <=? 0) with true. cbv iota beta zeta.
    eexists. split; [reflexivity|]. msimpl. rewrite count_ev_snoc. cbn [is_read].
    repeat split. lia.
  - cbn [String.eqb Ascii.eqb Bool.eqb]. cbv iota. unfold outpipe_fp_read. mstep.
    rewrite Hfp. change (LONG_MAX <? 0) with false. cbv iota. mstep.
    change (0 <=? 0) with true. cbv iota beta zeta.
    eexists. split; [reflexivity|]. msimpl. rewrite count_ev_snoc. cbn [is_read].
    repeat split. lia.
Qed.

Lemma len_take n s : 0 <= n <= len s -> len (str_take n s) = n.
Proof.
  revert n. induction s as [|c s IH]; intros n Hn; unfold len in *; cbn [String.length] in *.
  - cbn [str_take]. simpl. lia.
  - cbn [str_take]. destruct (n <=? 0) eqn:E.
    + apply Z.leb_le in E. simpl. lia.
    + apply Z.leb_gt in E. cbn [String.length]. specialize (IH (n - 1)). lia.
Qed.

Lemma length_take_8 data : 8 <= len data -> Nat.eqb (String.length (str_take 8 data)) 8 = true.
Proof.
  intros H. apply Nat.eqb_eq. pose proof (len_take 8 data) as E. unfold len in *. lia.
Qed.

(** The end of a call: the result is handed back and the local socket,
    if there is one, reclaimed. *)
Lemma call_finishes {A} (m : M A) sock st :
  (result <- m ;; drop_local sock ;; ret result) st =
  match m st with
  | (Ret r, st1) => (Ret r, dropped sock st1)
  | (Raise e, st1) => (Raise e, st1)
  | (OutOfFuel, st1) => (OutOfFuel, st1)
  end.
Proof.
  unfold bind at 1. destruct (m st) as [[r|e|] [o w]]; try reflexivity.
  destruct sock as [fd|]; reflexivity.
Qed.

Lemma call_returns {A} (m : M A) sock st r st1 :
  m st = (Ret r, st1) ->
  (result <- m ;; drop_local sock ;; ret result) st = (Ret r, dropped sock st1).
Proof. intros H. rewrite call_finishes, H. reflexivity. Qed.

Lemma call_raises {A} (m : M A) sock st e st1 :
  m st = (Raise e, st1) ->
  (result <- m ;; drop_local sock ;; ret result) st = (Raise e, st1).
Proof. intros H. rewrite call_finishes, H. reflexivity. Qed.

(** Reclaiming the socket changes the connections and the trace, and
    nothing that is counted here. *)
Lemma dropped_facts sock st :
  self (dropped sock st) = self st
  /\ procs (env (dropped sock st)) = procs (env st)
  /\ files (env (dropped sock st)) = files (env st)
  /\ heap (env (dropped sock st)) = heap (env st)
  /\ replies (env (dropped sock st)) = replies (env st)
  /\ connects (env (dropped sock st)) = connects (env st)
  /\ next_id (env (dropped sock st)) = next_id (env st)
  /\ reads (dropped sock st) = reads st
  /\ sleeps (dropped sock st) = sleeps st.
Proof.
  destruct sock as [fd|]; [|repeat split].
  unfold dropped, reclaimed, reads, sleeps. msimpl. rewrite !count_ev_snoc.
  cbn [is_read is_sleep]. repeat split; lia.
Qed.

Section SocketCall.

Variables (fuel : nat) (cmd : string) (timeout : Z) (st : state) (cs : list bool).
Hypothesis Hmode : comm_mode (self st) = "SOCKET".
Hypothesis Hconn : connects (env st) = true :: cs.
Hypothesis Htmo : 0 <= timeout.

Lemma send_socket_start :
  send_command_and_get_string_result fuel cmd timeout st =
  (r <- (size_info_str <- sock_recv (next_id (env st)) 8 ;;
         ret (Some (next_id (env st)), size_info_str)) ;;
   size_info <- struct_unpack_Q (snd r) ;;
   result <- recv_loop fuel (fst r) size_info [] ;;
   drop_local (fst r) ;;
   ret result)
    (mkState (self st)
       (mkWorld (files (env st)) (procs (env st))
          (<[next_id (env st) := Some timeout]> (<[next_id (env st) := None]> (conns (env st))))
          (S (next_id (env st))) cs (replies (env st)) (heap (env st))
          (trace (env st) ++ [EConnect (next_id (env st)) (server_port (self st)) true;
                              ESetTimeout (next_id (env st)) timeout;
                              ESendAll (next_id (env st)) (cmd +:+ NL)])
          (lags (env st)))).
Proof.
  unfold send_command_and_get_string_result. unfold bind at 1. unfold get_self at 1.
  rewrite Hmode. cbn [String.eqb Ascii.eqb Bool.eqb]. cbv iota.
  unfold bind at 1. unfold bind at 1. unfold bind at 1.
  rewrite (get_socket_first 99 1000 st cs Hconn).
  destruct st as [o w]. msimpl.
  unfold sock_settimeout, sock_sendall.
  assert (Ht' : (timeout <? 0) = false) by (apply Z.ltb_ge; lia). rewrite Ht'.
  mstep. rewrite <- !app_assoc. reflexivity.
Qed.

(** The header read of the call, on its own. *)
Lemma socket_header_read d data rs :
  replies (env st) = Chunk d data :: rs -> d <= timeout ->
  sock_recv (next_id (env st)) 8
    (mkState (self st)
       (mkWorld (files (env st)) (procs (env st))
          (<[next_id (env st) := Some timeout]> (<[next_id (env st) := None]> (conns (env st))))
          (S (next_id (env st))) cs (replies (env st)) (heap (env st))
          (trace (env st) ++ [EConnect (next_id (env st)) (server_port (self st)) true;
                              ESetTimeout (next_id (env st)) timeout;
                              ESendAll (next_id (env st)) (cmd +:+ NL)])
          (lags (env st))))
  = (Ret (str_take 8 data),
     socket_call_state st cmd timeout cs (pushback (str_drop 8 data) rs)).
Proof.
  intros Hr Hd. destruct st as [o w]. msimpl. unfold sock_recv.
  change (INT_MAX <? 8) with false. cbv iota. mstep.
  change (8 <=? 0) with false. cbv iota. mstep.
  rewrite lookup_insert_eq. rewrite Hr. cbn [timed_out].
  assert (Hd' : (timeout <? d) = false) by (apply Z.ltb_ge; lia). rewrite Hd'.
  unfold socket_call_state. msimpl. rewrite <- !app_assoc. reflexivity.
Qed.

Lemma send_socket_header d data rs :
  replies (env st) = Chunk d data :: rs -> d <= timeout -> 8 <= len data ->
  send_command_and_get_string_result fuel cmd timeout st =
  (result <- recv_loop fuel (Some (next_id (env st))) (be_value (str_take 8 data)) [] ;;
   drop_local (Some (next_id (env st))) ;;
   ret result)
    (socket_call_state st cmd timeout cs (pushback (str_drop 8 data) rs)).
Proof.
  intros Hr Hd Hlen. rewrite send_socket_start.
  unfold bind at 1. unfold bind at 1. rewrite (socket_header_read d data rs Hr Hd).
  cbn [ret fst snd]. unfold bind at 1. unfold struct_unpack_Q.
  rewrite (length_take_8 data Hlen). reflexivity.
Qed.

Lemma send_socket_fault rs :
  replies (env st) = Fault :: rs ->
  send_command_and_get_string_result fuel cmd timeout st =
  (Raise SocketError, socket_call_state st cmd timeout cs rs).
Proof.
  intros Hr. rewrite send_socket_start.
  unfold bind at 1. unfold bind at 1.
  destruct st as [o w]. msimpl. unfold sock_recv.
  change (INT_MAX <? 8) with false. cbv iota. mstep.
  change (8 <=? 0) with false. cbv iota. mstep.
  rewrite lookup_insert_eq. rewrite Hr. mstep. unfold socket_call_state. msimpl.
  rewrite <- !app_assoc. reflexivity.
Qed.

Lemma send_socket_late d data rs :
  replies (env st) = Chunk d data :: rs -> timeout < d -> 0 < timeout ->
  send_command_and_get_string_result fuel cmd timeout st =
  (Raise SocketTimeout, socket_call_state st cmd timeout cs (Chunk (d - timeout) data :: rs)).
Proof.
  intros Hr Hd Hpos. rewrite send_socket_start.
  unfold bind at 1. unfold bind at 1.
  destruct st as [o w]. msimpl. unfold sock_recv.
  change (INT_MAX <? 8) with false. cbv iota. mstep.
  change (8 <=? 0) with false. cbv iota. mstep.
  rewrite lookup_insert_eq. rewrite Hr. cbn [timed_out].
  assert (Hd' : (timeout <? d) = true) by (apply Z.ltb_lt; lia). rewrite Hd'.
  assert (Hz : (timeout =? 0) = false) by (apply Z.eqb_neq; lia). rewrite Hz.
  mstep. unfold socket_call_state. msimpl.
  rewrite <- !app_assoc. reflexivity.
Qed.

(** A socket that does not block: nothing there yet is a [socket.error],
    and the data is as far away as it was. *)
Lemma send_socket_would_block d data rs :
  timeout = 0 -> replies (env st) = Chunk d data :: rs -> 0 < d ->
  send_command_and_get_string_result fuel cmd timeout st =
  (Raise SocketError, socket_call_state st cmd timeout cs (Chunk d data :: rs)).
Proof.
  intros Hz Hr Hd. rewrite send_socket_start.
  unfold bind at 1. unfold bind at 1.
  destruct st as [o w]. msimpl. unfold sock_recv.
  change (INT_MAX <? 8) with false. cbv iota. mstep.
  change (8 <=? 0) with false. cbv iota. mstep.
  rewrite lookup_insert_eq. rewrite Hr. cbn [timed_out].
  assert (Hd' : (timeout <? d) = true) by (apply Z.ltb_lt; lia). rewrite Hd'.
  assert (Hz' : (timeout =? 0) = true) by (apply Z.eqb_eq; exact Hz). rewrite Hz'.
  mstep. unfold socket_call_state. msimpl.
  rewrite <- !app_assoc. reflexivity.
Qed.

Lemma send_socket_short d data rs :
  replies (env st) = Chunk d data :: rs -> d <= timeout -> len data < 8 ->
  send_command_and_get_string_result fuel cmd timeout st =
  (Raise StructError, socket_call_state st cmd timeout cs (pushback (str_drop 8 data) rs)).
Proof.
  intros Hr Hd Hlen. rewrite send_socket_start.
  unfold bind at 1. unfold bind at 1. rewrite (socket_header_read d data rs Hr Hd).
  cbn [ret fst snd]. unfold bind at 1. unfold struct_unpack_Q.
  assert (Hne : Nat.eqb (String.length (str_take 8 data)) 8 = false).
  { apply Nat.eqb_neq. pose proof (len_take_drop 8 data). pose proof (len_nonneg (str_drop 8 data)).
    unfold len in *. lia. }
  rewrite Hne. reflexivity.
Qed.

End SocketCall.

Section PipeCall.

Variables (fuel : nat) (cmd : string) (timeout : Z) (st : state) (pid : nat) (path : string).
Hypothesis Hmode : comm_mode (self st) = "PIPE".
Hypothesis Hproc : proc (self st) = Some pid.
Hypothesis Hrun : procs (env st) !! pid = Some Running.
Hypothesis Hfp : outpipe_fp (self st) = Some path.

(** The write and the header read of the call, on their own. *)
Lemma pipe_header_read d data rs :
  replies (env st) = Chunk d data :: rs ->
  (stdin_write (cmd +:+ NL) ;;
   size_info_str <- outpipe_fp_read 8 ;;
   ret (@None nat, size_info_str)) st
  = (Ret (None, str_take 8 data),
     pipe_call_state st pid path cmd (pushback (str_drop 8 data) rs)).
Proof.
  intros Hr. destruct st as [o w]. msimpl.
  unfold stdin_write, outpipe_fp_read. mstep.
  rewrite Hproc. mstep. rewrite Hrun. mstep. rewrite Hfp.
  change (LONG_MAX <? 8) with false. cbv iota. mstep.
  change (8 <=? 0) with false. cbv iota. mstep. rewrite Hr. mstep.
  unfold pipe_call_state. msimpl. rewrite <- !app_assoc. reflexivity.
Qed.

Lemma send_pipe_header d data rs :
  replies (env st) = Chunk d data :: rs -> 8 <= len data ->
  send_command_and_get_string_result fuel cmd timeout st =
  (result <- recv_loop fuel None (be_value (str_take 8 data)) [] ;;
   drop_local None ;;
   ret result)
    (pipe_call_state st pid path cmd (pushback (str_drop 8 data) rs)).
Proof.
  intros Hr Hlen.
  unfold send_command_and_get_string_result. unfold bind at 1. unfold get_self at 1.
  rewrite Hmode. cbn [String.eqb Ascii.eqb Bool.eqb]. cbv iota.
  unfold bind at 1. rewrite (pipe_header_read d data rs Hr).
  cbn [fst snd]. unfold bind at 1. unfold struct_unpack_Q.
  rewrite (length_take_8 data Hlen). reflexivity.
Qed.

End PipeCall.

Section ParseResult.

Variable P : platform.

(** What [send_command_and_parse_result] makes of each outcome of the
    steps inside its [try]. *)
Lemma parse_result_of_call start fuel cmd timeout raw st :
  send_command_and_parse_result_with P start fuel cmd timeout raw st =
  match (ensure_proc_is_running_with start ;;
         send_command_and_get_string_result fuel cmd timeout) st with
  | (Ret None, st') => (Ret PyNone, st')
  | (Ret (Some data), st') =>
      (Ret (if raw then PyStr data else default PyNone (json_loads P data)), st')
  | (Raise e, st') => if is_socket_timeout e then (Ret PyNone, st') else (Raise e, st')
  | (OutOfFuel, st') => (OutOfFuel, st')
  end.
Proof.
  unfold send_command_and_parse_result_with, try_except, bind.
  destruct (ensure_proc_is_running_with start st) as [[[]|e|] st0]; try reflexivity.
  destruct (send_command_and_get_string_result fuel cmd timeout st0) as [[[data|]|e|] st1];
    try reflexivity.
  destruct raw; [reflexivity|]. unfold ret.
  destruct (json_loads P data); reflexivity.
Qed.

Lemma parse_result_live start fuel cmd timeout raw st :
  live st ->
  send_command_and_parse_result_with P start fuel cmd timeout raw st =
  match send_command_and_get_string_result fuel cmd timeout st with
  | (Ret None, st') => (Ret PyNone, st')
  | (Ret (Some data), st') =>
      (Ret (if raw then PyStr data else default PyNone (json_loads P data)), st')
  | (Raise e, st') => if is_socket_timeout e then (Ret PyNone, st') else (Raise e, st')
  | (OutOfFuel, st') => (OutOfFuel, st')
  end.
Proof.
  intros Hlive. rewrite parse_result_of_call.
  rewrite (bind_ret_eq _ _ _ _ _ (ensure_live start st Hlive)). reflexivity.
Qed.

End ParseResult.

Lemma header_len data n : str_take 8 data = header n -> 8 <= len data.
Proof.
  intros H. pose proof (len_take_drop 8 data) as E. rewrite H in E.
  pose proof (len_nonneg (str_drop 8 data)).
  change (len (header n)) with 8 in E. lia.
Qed.

Lemma call_empty_frame fuel cmd timeout st :
  live st -> empty_frame_next st timeout ->
  exists st',
    send_command_and_get_string_result (S fuel) cmd timeout st = (Ret (Some ""), st')
    /\ reads st' = (reads st + 2)%nat.
Proof.
  intros (pid & Hproc & Hrun) (d & data & rs & Hr & Hhdr & Hmode).
  pose proof (header_len data 0 Hhdr) as Hlen.
  destruct Hmode as [(Hm & Ht & Hd & cs & Hc) | (Hm & path & Hfp)].
  - rewrite (send_socket_header (S fuel) cmd timeout st cs Hm Hc Ht d data rs Hr Hd Hlen).
    rewrite Hhdr. change (be_value (header 0)) with 0.
    destruct (recv_loop_empty_frame fuel (Some (next_id (env st)))
                (socket_call_state st cmd timeout cs (pushback (str_drop 8 data) rs)))
      as (st' & Hloop & Hreads & _); [left; split; [exact Hm | eauto]|].
    rewrite (call_returns _ _ _ _ _ Hloop).
    eexists. split; [reflexivity|].
    destruct (dropped_facts (Some (next_id (env st))) st')
      as (_ & _ & _ & _ & _ & _ & _ & -> & _).
    rewrite Hreads.
    unfold reads, socket_call_state. msimpl.
    unfold count_ev. rewrite List.filter_app, length_app. cbn. lia.
  - rewrite (send_pipe_header (S fuel) cmd timeout st pid path Hm Hproc Hrun Hfp d data rs Hr Hlen).
    rewrite Hhdr. change (be_value (header 0)) with 0.
    destruct (recv_loop_empty_frame fuel None
                (pipe_call_state st pid path cmd (pushback (str_drop 8 data) rs)))
      as (st' & Hrun' & Hreads & _);
      [right; split; [exact Hm | unfold pipe_call_state; msimpl; eauto]|].
    rewrite (call_returns _ _ _ _ _ Hrun'). cbn [dropped].
    exists st'. split; [reflexivity|]. rewrite Hreads.
    unfold reads, pipe_call_state. msimpl.
    unfold count_ev. rewrite List.filter_app, length_app. cbn. lia.
Qed.

(** A frame that arrives whole in the first chunk. *)
Lemma recv_loop_one_chunk fuel sock tmo size d data rs st :
  channel_ready st sock tmo -> replies (env st) = Chunk d data :: rs ->
  timed_out tmo d = false -> 0 < size -> len data = size -> size <= INT_MAX ->
  exists st',
    recv_loop (S fuel) sock size [] st = (Ret (Some data), st')
    /\ self st' = self st /\ replies (env st') = rs /\ sleeps st' = sleeps st
    /\ procs (env st') = procs (env st) /\ connects (env st') = connects (env st).
Proof.
  intros Hready Hr Hd Hsize Hlen Hmax. destruct (within_int size Hmax) as [Hi Hl].
  rewrite recv_loop_unfold.
  cbn [curlen fold_right]. rewrite Z.sub_0_r.
  assert (Hn : (size <=? 0) = false) by (apply Z.leb_gt; lia).
  assert (Htake : forall s n, len s <= n -> str_take n s = s /\ str_drop n s = "").
  { clear. induction s as [|c s IH]; intros n Hl; [split; reflexivity|].
    unfold len in *. cbn [String.length str_take str_drop] in *.
    destruct (n <=? 0) eqn:E; [apply Z.leb_le in E; lia|].
    destruct (IH (n - 1)) as [-> ->]; [lia|]. split; reflexivity. }
  destruct (Htake data size) as [Ht Hdrop]; [lia|].
  destruct st as [o w]. unfold read_chunk. mstep.
  destruct Hready as [[Hm (fd & t & -> & -> & Ht0 & Hc)] | [Hm [-> [path Hfp]]]];
    msimpl; rewrite Hm; cbn [String.eqb Ascii.eqb Bool.eqb]; cbv iota.
  - unfold sock_recv. rewrite Hi. mstep. rewrite Hn. mstep. rewrite Hc, Hr. rewrite Hd. mstep.
    rewrite Ht, Hdrop. cbn [pushback app curlen fold_right].
    rewrite Z.add_0_r, Hlen, Z.leb_refl.
    eexists. split; [cbn [String.concat]; reflexivity|]. msimpl.
    unfold sleeps. msimpl. rewrite count_ev_snoc. cbn [is_sleep]. repeat split. lia.
  - unfold outpipe_fp_read. mstep. rewrite Hfp, Hl. mstep. rewrite Hn. mstep. rewrite Hr. mstep.
    rewrite Ht, Hdrop. cbn [pushback app curlen fold_right].
    rewrite Z.add_0_r, Hlen, Z.leb_refl.
    eexists. split; [cbn [String.concat]; reflexivity|]. msimpl.
    unfold sleeps. msimpl. rewrite count_ev_snoc. cbn [is_sleep]. repeat split. lia.
Qed.

Lemma reads_socket_call_state st cmd timeout cs rs :
  reads (socket_call_state st cmd timeout cs rs) = S (reads st).
Proof.
  unfold reads, socket_call_state, count_ev. msimpl.
  rewrite List.filter_app, length_app. cbn. lia.
Qed.

Lemma socket_call_state_ready st cmd timeout cs rs :
  comm_mode (self st) = "SOCKET" -> 0 <= timeout ->
  channel_ready (socket_call_state st cmd timeout cs rs) (Some (next_id (env st)))
    (Some timeout).
Proof.
  intros Hm Ht. left. split; [exact Hm|]. exists (next_id (env st)), timeout.
  split; [reflexivity|]. split; [reflexivity|]. split; [exact Ht|].
  unfold socket_call_state. msimpl. apply lookup_insert_eq.
Qed.

Section RegularSocketCall.

Variables (fuel : nat) (cmd : string) (timeout : Z) (st : state) (cs : list bool).
Hypothesis Hmode : comm_mode (self st) = "SOCKET".
Hypothesis Hconn : connects (env st) = true :: cs.
Hypothesis Htmo : 0 <= timeout.

(** The header arrives and declares more bytes than the channel will
    deliver: the call gives up after the header read and 1001 more. *)
Lemma call_truncated_payload d data rs :
  replies (env st) = Chunk d data :: rs -> d <= timeout -> 8 <= len data ->
  all_arrive (Some timeout) rs ->
  len (str_drop 8 data) + script_bytes rs < be_value (str_take 8 data) ->
  be_value (str_take 8 data) <= INT_MAX ->
  (1001 <= fuel)%nat ->
  exists st',
    send_command_and_get_string_result fuel cmd timeout st = (Ret None, st')
    /\ reads st' = (reads st + 1002)%nat.
Proof.
  intros Hr Hd Hlen Harr Hshort Hmax Hfuel.
  rewrite (send_socket_header fuel cmd timeout st cs Hmode Hconn Htmo d data rs Hr Hd Hlen).
  destruct (recv_loop_starved (Some (next_id (env st))) (Some timeout)
              (be_value (str_take 8 data)) fuel []
              (socket_call_state st cmd timeout cs (pushback (str_drop 8 data) rs)))
    as (st' & Hrun & Hreads & _).
  - cbn [length]. lia.
  - cbn [length]. lia.
  - apply socket_call_state_ready; assumption.
  - unfold socket_call_state. msimpl. apply all_arrive_pushback; [|exact Harr].
    cbn [timed_out]. apply Z.ltb_ge. lia.
  - unfold socket_call_state. msimpl. rewrite script_bytes_pushback.
    cbn [curlen fold_right]. lia.
  - exact Hmax.
  - rewrite (call_returns _ _ _ _ _ Hrun). eexists. split; [reflexivity|].
    destruct (dropped_facts (Some (next_id (env st))) st')
      as (_ & _ & _ & _ & _ & _ & _ & -> & _).
    rewrite Hreads, reads_socket_call_state. cbn [length]. lia.
Qed.

(** The whole frame arrives in the first chunk. *)
Lemma call_whole_frame d data rs :
  replies (env st) = Chunk d data :: rs -> d <= timeout -> 8 <= len data ->
  be_value (str_take 8 data) = len (str_drop 8 data) -> 0 < len (str_drop 8 data) ->
  len (str_drop 8 data) <= INT_MAX ->
  (1 <= fuel)%nat ->
  exists st',
    send_command_and_get_string_result fuel cmd timeout st
    = (Ret (Some (str_drop 8 data)), st').
Proof.
  intros Hr Hd Hlen Hsize Hpos Hmax Hfuel.
  rewrite (send_socket_header fuel cmd timeout st cs Hmode Hconn Htmo d data rs Hr Hd Hlen).
  destruct fuel as [|fuel']; [lia|].
  destruct (recv_loop_one_chunk fuel' (Some (next_id (env st))) (Some timeout)
              (be_value (str_take 8 data)) 0 (str_drop 8 data) rs
              (socket_call_state st cmd timeout cs (pushback (str_drop 8 data) rs)))
    as (st' & Hrun & _).
  - apply socket_call_state_ready; assumption.
  - unfold socket_call_state. msimpl.
    destruct (str_drop 8 data); [unfold len in Hpos; cbn in Hpos; lia | reflexivity].
  - cbn [timed_out]. apply Z.ltb_ge. lia.
  - lia.
  - lia.
  - lia.
  - rewrite (call_returns _ _ _ _ _ Hrun). eexists. reflexivity.
Qed.

(** The header declares a length that [recv] does not take: the first
    read of the loop is refused before it reaches the socket. *)
Lemma call_oversized d data rs :
  replies (env st) = Chunk d data :: rs -> d <= timeout -> 8 <= len data ->
  INT_MAX < be_value (str_take 8 data) ->
  (1 <= fuel)%nat ->
  send_command_and_get_string_result fuel cmd timeout st
  = (Raise OverflowError,
     socket_call_state st cmd timeout cs (pushback (str_drop 8 data) rs)).
Proof.
  intros Hr Hd Hlen Hbig Hfuel.
  rewrite (send_socket_header fuel cmd timeout st cs Hmode Hconn Htmo d data rs Hr Hd Hlen).
  destruct fuel as [|fuel']; [lia|].
  apply call_raises. rewrite recv_loop_unfold. cbn [curlen fold_right].
  unfold read_chunk. unfold bind at 1. unfold get_self at 1.
  cbn [fst snd self socket_call_state]. rewrite Hmode.
  cbn [String.eqb Ascii.eqb Bool.eqb]. cbv iota. unfold sock_recv.
  assert (Hi : (INT_MAX <? be_value (str_take 8 data) - 0) = true) by (apply Z.ltb_lt; lia).
  rewrite Hi. reflexivity.
Qed.

End RegularSocketCall.

Lemma reads_pipe_call_state st pid path cmd rs :
  reads (pipe_call_state st pid path cmd rs) = S (reads st).
Proof.
  unfold reads, pipe_call_state, count_ev. msimpl.
  rewrite List.filter_app, length_app. cbn. lia.
Qed.


(** ** The startup ping loop *)

Lemma ping_loop_unfold ping fuel st :
  ping_loop ping (S fuel) st =
  match ping st with
  | (Ret PyNone, st') => ping_loop ping fuel st'
  | (Ret v, st') => assert_pong v st'
  | (Raise e, st') =>
      if is_socket_error e
      then ping_loop ping fuel (slept STARTUP_BUSY_WAIT_INTERVAL_SEC st')
      else (Raise e, st')
  | (OutOfFuel, st') => (OutOfFuel, st')
  end.
Proof.
  cbn [ping_loop]. unfold bind at 1. unfold try_except. unfold bind at 1.
  destruct (ping st) as [[v|e|] st']; try reflexivity.
  - unfold ret. destruct v; reflexivity.
  - destruct (is_socket_error e); reflexivity.
Qed.

Lemma assert_pong_ok v st r st' :
  assert_pong v st = (r, st') ->
  st' = st /\
  ((v = PyStr "PONG" /\ r = Ret tt)
   \/ (v <> PyStr "PONG" /\ exists e, r = Raise e /\ is_socket_error e = false)).
Proof.
  destruct v; cbn [assert_pong]; unfold raise, assert;
    try (intros [= <- <-]; split; [reflexivity|]; right; split; [discriminate|];
         eexists; split; reflexivity).
  destruct (String.eqb s "PONG") eqn:E; unfold ret, raise; intros [= <- <-];
    (split; [reflexivity|]).
  - left. apply String.eqb_eq in E. subst. auto.
  - right. split; [|eexists; split; reflexivity].
    intros [= ->]. rewrite String.eqb_refl in E. discriminate.
Qed.

Lemma ping_loop_completes ping fuel : forall st st',
  ping_loop ping fuel st = (Ret tt, st') ->
  exists st0, ping st0 = (Ret (PyStr "PONG"), st').
Proof.
  induction fuel as [|fuel IH]; intros st st' H; [discriminate|].
  rewrite ping_loop_unfold in H.
  destruct (ping st) as [[v|e|] st1] eqn:Hp; try discriminate.
  - destruct v; try (apply IH in H; exact H);
      try (apply assert_pong_ok in H as [-> [[Hv _] | [_ (e & He & _)]]];
           [discriminate Hv || (rewrite Hv in Hp; eauto) | discriminate He]).
  - destruct (is_socket_error e); [apply IH in H; exact H | discriminate].
Qed.

Lemma sleeps_socket_call_state st cmd timeout cs rs :
  sleeps (socket_call_state st cmd timeout cs rs) = sleeps st.
Proof.
  unfold sleeps, socket_call_state, count_ev. msimpl.
  rewrite List.filter_app, length_app. cbn. lia.
Qed.

Lemma sleeps_slept ms st : sleeps (slept ms st) = S (sleeps st).
Proof. unfold sleeps, slept. msimpl. rewrite count_ev_snoc. cbn [is_sleep]. lia. Qed.

Section Handshake.

Variables (P : platform) (start : M unit) (f : nat).
Hypothesis Hpong : json_loads P PONG_payload = Some (PyStr "PONG").

Let ping : M pyvalue := send_command_and_parse_result_with P start (S f) PING 2000 false.

Lemma ping_pong st cs rs :
  live st -> comm_mode (self st) = "SOCKET" -> connects (env st) = true :: cs ->
  replies (env st) = Chunk 0 (frame PONG_payload) :: rs ->
  exists st', ping st = (Ret (PyStr "PONG"), st') /\ sleeps st' = sleeps st.
Proof.
  intros Hlive Hm Hc Hr. unfold ping. rewrite parse_result_live by exact Hlive.
  rewrite (send_socket_header (S f) PING 2000 st cs Hm Hc ltac:(lia) 0 (frame PONG_payload) rs Hr
             ltac:(lia) ltac:(vm_compute; discriminate)).
  change (be_value (str_take 8 (frame PONG_payload))) with 6.
  change (str_drop 8 (frame PONG_payload)) with PONG_payload.
  destruct (recv_loop_one_chunk f (Some (next_id (env st))) (Some 2000) 6 0 PONG_payload rs
              (socket_call_state st PING 2000 cs (pushback PONG_payload rs)))
    as (st' & Hloop & _ & _ & Hs & _).
  - left. split; [exact Hm|]. exists (next_id (env st)), 2000.
    repeat split; try lia. unfold socket_call_state. msimpl. apply lookup_insert_eq.
  - reflexivity.
  - reflexivity.
  - lia.
  - reflexivity.
  - unfold INT_MAX. lia.
  - rewrite (call_returns _ _ _ _ _ Hloop). eexists. rewrite Hpong. split; [reflexivity|].
    destruct (dropped_facts (Some (next_id (env st))) st')
      as (_ & _ & _ & _ & _ & _ & _ & _ & ->).
    rewrite Hs. apply sleeps_socket_call_state.
Qed.

Lemma ping_fault st cs rs :
  live st -> comm_mode (self st) = "SOCKET" -> connects (env st) = true :: cs ->
  replies (env st) = Fault :: rs ->
  ping st = (Raise SocketError, socket_call_state st PING 2000 cs rs).
Proof.
  intros Hlive Hm Hc Hr. unfold ping. rewrite parse_result_live by exact Hlive.
  rewrite (send_socket_fault (S f) PING 2000 st cs Hm Hc ltac:(lia) rs Hr). reflexivity.
Qed.

(** However many times in a row the ping meets a transport error, the
    loop sleeps and pings again. *)
Lemma ping_loop_retries k : forall n st cs,
  live st -> comm_mode (self st) = "SOCKET" ->
  connects (env st) = (replicate (S k) true ++ cs)%list ->
  replies (env st) = (replicate k Fault ++ [Chunk 0 (frame PONG_payload)])%list ->
  exists st',
    ping_loop ping (S k + n) st = (Ret tt, st') /\ sleeps st' = (sleeps st + k)%nat.
Proof.
  induction k as [|k IH]; intros n st cs Hlive Hm Hc Hr.
  - cbn [replicate app] in Hc, Hr. cbn [Nat.add]. rewrite ping_loop_unfold.
    destruct (ping_pong st cs [] Hlive Hm Hc Hr) as (st' & -> & Hs).
    exists st'. split; [reflexivity | lia].
  - cbn [replicate app] in Hc, Hr. change (S (S k) + n)%nat with (S (S k + n)).
    rewrite ping_loop_unfold. rewrite (ping_fault st _ _ Hlive Hm Hc Hr).
    cbn [is_socket_error].
    destruct (IH n (slept STARTUP_BUSY_WAIT_INTERVAL_SEC
                      (socket_call_state st PING 2000 (replicate (S k) true ++ cs)
                         (replicate k Fault ++ [Chunk 0 (frame PONG_payload)]))) cs)
      as (st' & Hrun & Hs).
    + destruct Hlive as (pid & Hp & Hpr). exists pid. split; assumption.
    + exact Hm.
    + reflexivity.
    + reflexivity.
    + exists st'. split; [exact Hrun|].
      rewrite Hs, sleeps_slept, sleeps_socket_call_state. lia.
Qed.

End Handshake.


(** ** Preservation *)

Section Preserves.

Variable R : state -> state -> Prop.
Hypothesis R_refl : forall st, R st st.
Hypothesis R_trans : forall a b c, R a b -> R b c -> R a c.

Lemma preserves_ret {A} (a : A) : preserves R (ret a).
Proof. intros st. apply R_refl. Qed.

Lemma preserves_raise {A} e : preserves R (@raise A e).
Proof. intros st. apply R_refl. Qed.

Lemma preserves_out_of_fuel {A} : preserves R (@out_of_fuel A).
Proof. intros st. apply R_refl. Qed.

Lemma preserves_get_self : preserves R get_self.
Proof. intros st. apply R_refl. Qed.

Lemma preserves_get_world : preserves R get_world.
Proof. intros st. apply R_refl. Qed.

Lemma preserves_assert b : preserves R (assert b).
Proof. intros st. destruct b; apply R_refl. Qed.

Lemma preserves_bind {A B} (m : M A) (k : A -> M B) :
  preserves R m -> (forall a, preserves R (k a)) -> preserves R (bind m k).
Proof.
  intros Hm Hk st. unfold bind. specialize (Hm st).
  destruct (m st) as [[a|e|] st1]; cbn [snd] in *; try exact Hm.
  eapply R_trans; [exact Hm | apply Hk].
Qed.

Lemma preserves_try_except {A} (body : M A) handles handler :
  preserves R body -> (forall e, preserves R (handler e)) ->
  preserves R (try_except body handles handler).
Proof.
  intros Hb Hh st. unfold try_except. specialize (Hb st).
  destruct (body st) as [[a|e|] st1]; cbn [snd] in *; try exact Hb.
  destruct (handles e); cbn [snd]; [|exact Hb].
  eapply R_trans; [exact Hb | apply Hh].
Qed.

End Preserves.

Lemma preserves_weaken (R R' : state -> state -> Prop) {A} (m : M A) :
  (forall a b, R a b -> R' a b) -> preserves R m -> preserves R' m.
Proof. intros H Hm st. apply H, Hm. Qed.

Lemma grow_refl st : grow st st.
Proof. split; [reflexivity | lia]. Qed.

Lemma grow_trans a b c : grow a b -> grow b c -> grow a c.
Proof. intros [H1 H2] [H3 H4]. split; [congruence | lia]. Qed.

Lemma stable_refl r st : stable r st st.
Proof. intros H. split; [exact H | auto]. Qed.

Lemma stable_trans r a b c : stable r a b -> stable r b c -> stable r a c.
Proof.
  intros H1 H2 Ha. destruct (H1 Ha) as [Hb Hd1]. destruct (H2 Hb) as [Hc Hd2].
  split; [exact Hc|]. intros d Hd Hann. apply Hd2; [apply Hd1; assumption | exact Hann].
Qed.

Lemma grow_stable r a b : grow a b -> stable r a b.
Proof. intros [Hh Hn] Ha. split; [lia|]. intros d Hd _. rewrite Hh. exact Hd. Qed.

Lemma same_conns_refl st : same_conns st st.
Proof. repeat split. Qed.

Lemma same_conns_trans a b c : same_conns a b -> same_conns b c -> same_conns a c.
Proof. intros (H1 & H2 & H3) (G1 & G2 & G3). repeat split; congruence. Qed.

(** Structural steps of a preservation proof. *)
Ltac pres_step refl trans :=
  match goal with
  | |- preserves _ (bind _ _) => apply (preserves_bind _ trans); [|intros ?]
  | |- preserves _ (try_except _ _ _) => apply (preserves_try_except _ trans); [|intros ?]
  | |- preserves _ (ret _) => apply (preserves_ret _ refl)
  | |- preserves _ (raise _) => apply (preserves_raise _ refl)
  | |- preserves _ out_of_fuel => apply (preserves_out_of_fuel _ refl)
  | |- preserves _ get_self => apply (preserves_get_self _ refl)
  | |- preserves _ get_world => apply (preserves_get_world _ refl)
  | |- preserves _ (assert _) => apply (preserves_assert _ refl)
  | |- preserves _ (match ?x with _ => _ end) => destruct x
  | |- preserves _ (let _ := _ in _) => cbv zeta
  end.

Ltac grow_steps := repeat (pres_step grow_refl grow_trans).

(** Effects that leave the heap and the identifier supply alone. *)
Lemma grow_modify_world f :
  (forall w, heap (f w) = heap w /\ (next_id w <= next_id (f w))%nat) ->
  preserves grow (modify_world f).
Proof. intros H [o w]. unfold grow, modify_world. msimpl. apply H. Qed.

Lemma grow_set_self o : preserves grow (set_self o).
Proof. intros st. split; cbn; [reflexivity | lia]. Qed.

Lemma grow_emit e : preserves grow (emit e).
Proof. apply grow_modify_world. intros w. split; [reflexivity | cbn; lia]. Qed.

Create HintDb pres.
#[local] Hint Resolve grow_emit grow_set_self : pres.

Ltac grow_auto :=
  repeat first [pres_step grow_refl grow_trans | solve [eauto with pres]].

Lemma grow_set_proc p : preserves grow (set_proc p).
Proof. unfold set_proc. grow_auto. Qed.
Lemma grow_set_outpipe_fp p : preserves grow (set_outpipe_fp p).
Proof. unfold set_outpipe_fp. grow_auto. Qed.
Lemma grow_os_path_exists p : preserves grow (os_path_exists p).
Proof. unfold os_path_exists. grow_auto. Qed.
Lemma grow_time_sleep ms : preserves grow (time_sleep ms).
Proof. unfold time_sleep. grow_auto. Qed.
#[local] Hint Resolve grow_set_proc grow_set_outpipe_fp grow_os_path_exists grow_time_sleep : pres.

Lemma grow_os_mkfifo p : preserves grow (os_mkfifo p).
Proof.
  unfold os_mkfifo. grow_auto.
  apply grow_modify_world. intros w. split; [reflexivity | cbn; lia].
Qed.
Lemma grow_os_unlink p : preserves grow (os_unlink p).
Proof.
  unfold os_unlink. grow_auto.
  apply grow_modify_world. intros w. split; [reflexivity | cbn; lia].
Qed.
Lemma grow_open_read p : preserves grow (open_read p).
Proof. unfold open_read. grow_auto. Qed.
Lemma grow_sock_close fd : preserves grow (sock_close fd).
Proof.
  unfold sock_close. grow_auto.
  apply grow_modify_world. intros w. split; [reflexivity | cbn; lia].
Qed.
Lemma grow_sock_reclaim fd : preserves grow (sock_reclaim fd).
Proof.
  unfold sock_reclaim. grow_auto.
  apply grow_modify_world. intros w. split; [reflexivity | cbn; lia].
Qed.
Lemma grow_drop_local sock : preserves grow (drop_local sock).
Proof. destruct sock; [apply grow_sock_reclaim | apply (preserves_ret _ grow_refl)]. Qed.
Lemma grow_sock_settimeout fd t : preserves grow (sock_settimeout fd t).
Proof.
  unfold sock_settimeout. grow_auto.
  apply grow_modify_world. intros w. split; [reflexivity | cbn; lia].
Qed.
Lemma grow_sock_sendall fd s : preserves grow (sock_sendall fd s).
Proof. unfold sock_sendall. grow_auto. Qed.
Lemma grow_struct_unpack_Q s : preserves grow (struct_unpack_Q s).
Proof. unfold struct_unpack_Q. grow_auto. Qed.
Lemma grow_proc_poll pid : preserves grow (proc_poll pid).
Proof.
  intros [o w]. unfold proc_poll. mstep. repeat (case_step; mstep).
  all: split; cbn; (reflexivity || lia).
Qed.
Lemma grow_os_kill pid sig : preserves grow (os_kill pid sig).
Proof.
  intros [o w]. unfold os_kill. mstep. repeat (case_step; mstep).
  all: split; cbn; (reflexivity || lia).
Qed.
Lemma grow_subprocess_Popen cmd : preserves grow (subprocess_Popen cmd).
Proof. intros [o w]. unfold subprocess_Popen. mstep. split; cbn; (reflexivity || lia). Qed.
Lemma grow_socket_connect port : preserves grow (socket_connect port).
Proof.
  intros [o w]. unfold socket_connect. mstep.
  destruct (connects w) as [|[] cs]; mstep; split; cbn; (reflexivity || lia).
Qed.
Lemma grow_sock_recv fd n : preserves grow (sock_recv fd n).
Proof.
  intros [o w]. unfold sock_recv. mstep. repeat (case_step; mstep).
  all: split; cbn; (reflexivity || lia).
Qed.
Lemma grow_stdin_write s : preserves grow (stdin_write s).
Proof.
  intros [o w]. unfold stdin_write. mstep. repeat (case_step; mstep).
  all: split; cbn; (reflexivity || lia).
Qed.
Lemma grow_outpipe_fp_read n : preserves grow (outpipe_fp_read n).
Proof.
  intros [o w]. unfold outpipe_fp_read. mstep. repeat (case_step; mstep).
  all: split; cbn; (reflexivity || lia).
Qed.
#[local] Hint Resolve grow_os_mkfifo grow_os_unlink grow_open_read grow_sock_close
  grow_sock_settimeout grow_sock_sendall grow_struct_unpack_Q grow_proc_poll grow_os_kill
  grow_subprocess_Popen grow_socket_connect grow_sock_recv grow_stdin_write
  grow_outpipe_fp_read grow_sock_reclaim grow_drop_local : pres.

Lemma grow_get_socket_trials trials n interval :
  preserves grow (get_socket_trials trials n interval).
Proof.
  induction trials as [|t ts IH]; cbn [get_socket_trials]; grow_auto.
Qed.
Lemma grow_get_socket n interval : preserves grow (get_socket n interval).
Proof. apply grow_get_socket_trials. Qed.
Lemma grow_kill_proc_if_running : preserves grow kill_proc_if_running.
Proof. unfold kill_proc_if_running. grow_auto. Qed.
Lemma grow_read_chunk sock n : preserves grow (read_chunk sock n).
Proof. unfold read_chunk. grow_auto. Qed.
#[local] Hint Resolve grow_get_socket grow_kill_proc_if_running grow_read_chunk : pres.
Lemma grow_recv_loop fuel sock size : forall chunks,
  preserves grow (recv_loop fuel sock size chunks).
Proof.
  induction fuel as [|fuel IH]; intros chunks; cbn [recv_loop]; grow_auto.
Qed.
#[local] Hint Resolve grow_recv_loop : pres.
Lemma grow_send_command_and_get_string_result fuel cmd timeout :
  preserves grow (send_command_and_get_string_result fuel cmd timeout).
Proof. unfold send_command_and_get_string_result. grow_auto. Qed.
#[local] Hint Resolve grow_send_command_and_get_string_result : pres.

Ltac stable_auto r :=
  repeat first
    [ pres_step (stable_refl r) (stable_trans r)
    | solve [apply (preserves_weaken grow (stable r)); [apply grow_stable | eauto with pres]] ].

Section Stable.

Variables (P : platform) (r : nat).

Lemma stable_command mode configfile configdict comm_mode server_port outpipe classpath :
  preserves (stable r)
    (command P mode configfile configdict comm_mode server_port outpipe classpath).
Proof.
  unfold command.
  apply (preserves_bind _ (stable_trans r)); [stable_auto r | intros _].
  apply (preserves_bind _ (stable_trans r)); [| intros c; stable_auto r].
  destruct (truthy mode); [|stable_auto r].
  intros [o w]. unfold stable. mstep. intros Hlt.
  destruct configdict as [c|]; mstep.
  - destruct (heap w !! c) as [d0|] eqn:Hc; mstep; [|auto].
    destruct (bool_decide (is_Some (d0 !! "annotators"))) eqn:Hann0; mstep; [auto|].
    destruct (MODES !! default "" mode) as [info|]; mstep; [|auto].
    split; [exact Hlt|]. intros d Hd Hann.
    destruct (decide (c = r)) as [->|Hne].
    + rewrite Hc in Hd. injection Hd as ->.
      apply bool_decide_eq_false in Hann0. contradiction.
    + rewrite lookup_alter_ne by exact Hne. exact Hd.
  - destruct (MODES !! default "" mode) as [info|]; mstep.
    + split; [lia|]. intros d Hd Hann.
      rewrite lookup_alter_ne by lia. rewrite lookup_insert_ne by lia. exact Hd.
    + split; [lia|]. intros d Hd Hann. rewrite lookup_insert_ne by lia. exact Hd.
Qed.

Lemma stable_assert_pong v : preserves (stable r) (assert_pong v).
Proof. unfold assert_pong. stable_auto r. Qed.

Lemma stable_ping_loop ping fuel :
  preserves (stable r) ping -> preserves (stable r) (ping_loop ping fuel).
Proof.
  intros Hping. induction fuel as [|fuel IH]; cbn [ping_loop]; stable_auto r;
    try assumption; apply stable_assert_pong.
Qed.

Lemma stable_ensure start :
  preserves (stable r) start -> preserves (stable r) (ensure_proc_is_running_with start).
Proof. intros Hs. unfold ensure_proc_is_running_with. stable_auto r; assumption. Qed.

Lemma stable_parse_result start fuel cmd timeout raw :
  preserves (stable r) start ->
  preserves (stable r) (send_command_and_parse_result_with P start fuel cmd timeout raw).
Proof.
  intros Hs. unfold send_command_and_parse_result_with. stable_auto r.
  apply stable_ensure. exact Hs.
Qed.

Lemma stable_start_server fuel : preserves (stable r) (start_server P fuel).
Proof.
  induction fuel as [|fuel IH]; cbn [start_server]; [stable_auto r|].
  stable_auto r.
  - apply stable_command.
  - apply stable_ping_loop, stable_parse_result, IH.
Qed.

End Stable.

Lemma MODES_nonempty m info : MODES !! m = Some info -> truthy (Some m) = true.
Proof. destruct m; [vm_compute; discriminate | reflexivity]. Qed.

Lemma snd_bind {A B} (m : M A) (k : A -> M B) st :
  snd (bind m k st) =
  match m st with
  | (Ret a, st1) => snd (k a st1)
  | (_, st1) => st1
  end.
Proof. unfold bind. destruct (m st) as [[a|e|] st1]; reflexivity. Qed.

Section CommandMutates.

Variables (P : platform) (m : string) (info : mode_info) (r : nat) (d : gmap string pyvalue).
Hypothesis Hmode : MODES !! m = Some info.
Hypothesis Hann : d !! "annotators" = None.

(** [command] with a preset and the caller's dictionary: whatever it
    returns or raises afterwards, the dictionary has been written to. *)
Lemma command_inserts configfile comm_mode server_port outpipe classpath st :
  heap (env st) !! r = Some d ->
  let st1 := snd (command P (Some m) configfile (Some r) comm_mode server_port outpipe
                    classpath st) in
  heap (env st1) !! r = Some (<["annotators" := PyStr (annotators info)]> d)
  /\ next_id (env st1) = next_id (env st).
Proof.
  intros Hd. cbv zeta. unfold command.
  rewrite snd_bind. cbn [ret]. rewrite snd_bind.
  rewrite (MODES_nonempty m info Hmode).
  destruct st as [o w]. msimpl. mstep. rewrite Hd. mstep.
  rewrite bool_decide_eq_false_2 by (rewrite Hann; apply is_Some_None). mstep.
  change (default "" (Some m)) with m. rewrite Hmode. mstep.
  cbn [mbind option_bind]. msimpl.
  rewrite !lookup_alter_eq, Hd. cbn [fmap option_fmap option_map].
  destruct (truthy configfile);
    destruct (bool_decide (<["annotators" := PyStr (annotators info)]> d = ∅)); mstep;
    try (destruct (negb (str_contains SQ _))); mstep;
    destruct (String.eqb comm_mode "SOCKET"); mstep;
    try (destruct (String.eqb comm_mode "PIPE")); mstep;
    (split; [rewrite lookup_alter_eq, Hd; reflexivity | reflexivity]).
Qed.

End CommandMutates.

Ltac conns_auto :=
  repeat first [pres_step same_conns_refl same_conns_trans | solve [eauto with pres]].

Lemma same_conns_emit e :
  is_close e = false -> is_open e = false -> preserves same_conns (emit e).
Proof.
  intros He Ho [o w]. unfold same_conns, closes, opens, emit, modify_world. msimpl.
  split; [reflexivity|]. rewrite !count_ev_snoc, He, Ho. lia.
Qed.

Lemma same_conns_time_sleep ms : preserves same_conns (time_sleep ms).
Proof. apply same_conns_emit; reflexivity. Qed.

Lemma same_conns_struct_unpack_Q s : preserves same_conns (struct_unpack_Q s).
Proof. unfold struct_unpack_Q. conns_auto. Qed.

Lemma same_conns_sock_recv fd n : preserves same_conns (sock_recv fd n).
Proof.
  intros [o w]. unfold same_conns, closes, opens, sock_recv. mstep. repeat (case_step; mstep).
  all: rewrite ?count_ev_snoc; cbn [is_close is_open]; repeat split; lia.
Qed.

Lemma same_conns_outpipe_fp_read n : preserves same_conns (outpipe_fp_read n).
Proof.
  intros [o w]. unfold same_conns, closes, opens, outpipe_fp_read. mstep.
  repeat (case_step; mstep).
  all: rewrite ?count_ev_snoc; cbn [is_close is_open]; repeat split; lia.
Qed.

#[local] Hint Resolve same_conns_time_sleep same_conns_struct_unpack_Q same_conns_sock_recv
  same_conns_outpipe_fp_read : pres.

Lemma same_conns_read_chunk sock n : preserves same_conns (read_chunk sock n).
Proof. unfold read_chunk. conns_auto. Qed.
#[local] Hint Resolve same_conns_read_chunk : pres.

Lemma same_conns_recv_loop fuel sock size : forall chunks,
  preserves same_conns (recv_loop fuel sock size chunks).
Proof.
  induction fuel as [|fuel IH]; intros chunks; cbn [recv_loop]; conns_auto.
Qed.
#[local] Hint Resolve same_conns_recv_loop : pres.

Section InitMutates.

Variables (P : platform) (m : string) (info : mode_info) (r : nat) (d : gmap string pyvalue).
Hypothesis Hmode : MODES !! m = Some info.
Hypothesis Hann : d !! "annotators" = None.

Let d' : gmap string pyvalue := <["annotators" := PyStr (annotators info)]> d.

Lemma start_server_inserts fuel st :
  proc (self st) = None -> mode (self st) = Some m -> configdict (self st) = Some r ->
  (comm_mode (self st) = "PIPE" -> is_Some (outpipe (self st))) ->
  heap (env st) !! r = Some d -> (r < next_id (env st))%nat ->
  heap (env (snd (start_server P (S fuel) st))) !! r = Some d'.
Proof.
  intros Hproc Hm Hc Hop Hd Hlt. cbn [start_server].
  rewrite snd_bind.
  assert (Hkill : kill_proc_if_running st = (Ret tt, st)).
  { destruct st as [o w]. unfold kill_proc_if_running. mstep. rewrite Hproc. reflexivity. }
  rewrite Hkill. rewrite snd_bind. cbn [get_self]. rewrite snd_bind.
  match goal with
  | |- context [match ?pipe_part st with _ => _ end] =>
      assert (Hpipe : exists st0, pipe_part st = (Ret tt, st0)
                /\ heap (env st0) = heap (env st) /\ next_id (env st0) = next_id (env st))
  end.
  { destruct (String.eqb (comm_mode (self st)) "PIPE") eqn:Hcm; [|eauto].
    apply String.eqb_eq in Hcm. destruct (Hop Hcm) as [p ->].
    destruct st as [o w]. unfold os_path_exists, os_mkfifo, os_path_exists. mstep.
    destruct (bool_decide (p ∈ files w)) eqn:Hex; mstep; [eauto|].
    rewrite Hex. mstep. eauto. }
  destruct Hpipe as (st0 & -> & Hh0 & Hn0).
  rewrite snd_bind. rewrite Hm, Hc.
  pose proof (command_inserts P m info r d Hmode Hann (configfile (self st))
                (comm_mode (self st)) (server_port (self st)) (outpipe (self st))
                (classpath (self st)) st0 ltac:(rewrite Hh0; exact Hd)) as [Hh1 Hn1].
  cbv zeta in Hh1, Hn1.
  destruct (command P (Some m) (configfile (self st)) (Some r) (comm_mode (self st))
              (server_port (self st)) (outpipe (self st)) (classpath (self st)) st0)
    as [[cmd|e|] st1] eqn:Hcmd; cbn [snd] in Hh1, Hn1; try exact Hh1.
  match goal with
  | |- context [snd (?rest st1)] =>
      assert (Hrest : preserves (stable r) rest)
  end.
  { stable_auto r. apply stable_ping_loop, stable_parse_result, stable_start_server. }
  destruct (Hrest st1) as [_ Hkeep]; [lia|].
  apply Hkeep; [exact Hh1|]. unfold d'. rewrite lookup_insert_eq. eauto.
Qed.

End InitMutates.

(** ** Traces only grow *)

Lemma extends_refl st : extends st st.
Proof. exists []. symmetry. apply app_nil_r. Qed.

Lemma extends_trans a b c : extends a b -> extends b c -> extends a c.
Proof. intros [e1 H1] [e2 H2]. exists (e1 ++ e2)%list. rewrite H2, H1, app_assoc. reflexivity. Qed.

Ltac ext_leaf :=
  msimpl;
  first [ apply extends_refl
        | exists []; msimpl; symmetry; apply app_nil_r
        | eexists; msimpl; rewrite <- ?app_assoc; reflexivity ].

Ltac ext_auto :=
  repeat first [pres_step extends_refl extends_trans | solve [eauto with pres]].

Lemma extends_emit e : preserves extends (emit e).
Proof. intros [o w]. unfold emit, modify_world. ext_leaf. Qed.
Lemma extends_set_self o : preserves extends (set_self o).
Proof. intros [o' w]. unfold set_self. ext_leaf. Qed.
Lemma extends_modify_world f :
  (forall w, trace (f w) = trace w) -> preserves extends (modify_world f).
Proof. intros H [o w]. exists []. unfold modify_world. msimpl. rewrite H, app_nil_r. reflexivity. Qed.
#[local] Hint Resolve extends_emit extends_set_self : pres.

Lemma extends_set_proc p : preserves extends (set_proc p).
Proof. unfold set_proc. ext_auto. Qed.
Lemma extends_set_outpipe_fp p : preserves extends (set_outpipe_fp p).
Proof. unfold set_outpipe_fp. ext_auto. Qed.
Lemma extends_os_path_exists p : preserves extends (os_path_exists p).
Proof. unfold os_path_exists. ext_auto. Qed.
Lemma extends_time_sleep ms : preserves extends (time_sleep ms).
Proof. unfold time_sleep. ext_auto. Qed.
#[local] Hint Resolve extends_set_proc extends_set_outpipe_fp extends_os_path_exists
  extends_time_sleep : pres.
Lemma extends_os_mkfifo p : preserves extends (os_mkfifo p).
Proof. unfold os_mkfifo. ext_auto. apply extends_modify_world. reflexivity. Qed.
Lemma extends_open_read p : preserves extends (open_read p).
Proof. unfold open_read. ext_auto. Qed.
Lemma extends_sock_close fd : preserves extends (sock_close fd).
Proof. unfold sock_close. ext_auto. apply extends_modify_world. reflexivity. Qed.
Lemma extends_sock_reclaim fd : preserves extends (sock_reclaim fd).
Proof. unfold sock_reclaim. ext_auto. apply extends_modify_world. reflexivity. Qed.
Lemma extends_drop_local sock : preserves extends (drop_local sock).
Proof. destruct sock; [apply extends_sock_reclaim | apply (preserves_ret _ extends_refl)]. Qed.
Lemma extends_sock_settimeout fd t : preserves extends (sock_settimeout fd t).
Proof. unfold sock_settimeout. ext_auto. apply extends_modify_world. reflexivity. Qed.
Lemma extends_sock_sendall fd s : preserves extends (sock_sendall fd s).
Proof. unfold sock_sendall. ext_auto. Qed.
Lemma extends_struct_unpack_Q s : preserves extends (struct_unpack_Q s).
Proof. unfold struct_unpack_Q. ext_auto. Qed.
Lemma extends_proc_poll pid : preserves extends (proc_poll pid).
Proof.
  intros [o w]. unfold proc_poll. mstep. repeat (case_step; mstep).
  all: ext_leaf.
Qed.
Lemma extends_os_kill pid sig : preserves extends (os_kill pid sig).
Proof.
  intros [o w]. unfold os_kill. mstep. repeat (case_step; mstep).
  all: ext_leaf.
Qed.
Lemma extends_socket_connect port : preserves extends (socket_connect port).
Proof.
  intros [o w]. unfold socket_connect. mstep.
  destruct (connects w) as [|[] cs]; mstep; ext_leaf.
Qed.
Lemma extends_sock_recv fd n : preserves extends (sock_recv fd n).
Proof.
  intros [o w]. unfold sock_recv. mstep. repeat (case_step; mstep).
  all: ext_leaf.
Qed.
Lemma extends_stdin_write s : preserves extends (stdin_write s).
Proof.
  intros [o w]. unfold stdin_write. mstep. repeat (case_step; mstep).
  all: ext_leaf.
Qed.
Lemma extends_outpipe_fp_read n : preserves extends (outpipe_fp_read n).
Proof.
  intros [o w]. unfold outpipe_fp_read. mstep. repeat (case_step; mstep).
  all: ext_leaf.
Qed.
#[local] Hint Resolve extends_os_mkfifo extends_open_read extends_sock_close
  extends_sock_settimeout extends_sock_sendall extends_struct_unpack_Q extends_proc_poll
  extends_os_kill extends_socket_connect extends_sock_recv extends_stdin_write
  extends_outpipe_fp_read extends_sock_reclaim extends_drop_local : pres.

Lemma extends_get_socket_trials trials n interval :
  preserves extends (get_socket_trials trials n interval).
Proof. induction trials as [|t ts IH]; cbn [get_socket_trials]; ext_auto. Qed.
Lemma extends_get_socket n interval : preserves extends (get_socket n interval).
Proof. apply extends_get_socket_trials. Qed.
Lemma extends_kill_proc_if_running : preserves extends kill_proc_if_running.
Proof. unfold kill_proc_if_running. ext_auto. Qed.
Lemma extends_read_chunk sock n : preserves extends (read_chunk sock n).
Proof. unfold read_chunk. ext_auto. Qed.
#[local] Hint Resolve extends_get_socket extends_kill_proc_if_running extends_read_chunk : pres.
Lemma extends_recv_loop fuel sock size : forall chunks,
  preserves extends (recv_loop fuel sock size chunks).
Proof. induction fuel as [|fuel IH]; intros chunks; cbn [recv_loop]; ext_auto. Qed.
#[local] Hint Resolve extends_recv_loop : pres.
Lemma extends_send_command_and_get_string_result fuel cmd timeout :
  preserves extends (send_command_and_get_string_result fuel cmd timeout).
Proof. unfold send_command_and_get_string_result. ext_auto. Qed.
Lemma extends_assert_pong v : preserves extends (assert_pong v).
Proof. unfold assert_pong. ext_auto. Qed.
#[local] Hint Resolve extends_send_command_and_get_string_result extends_assert_pong : pres.

Section ExtendsStartup.

Variable P : platform.

Lemma extends_command mode configfile configdict comm_mode server_port outpipe classpath :
  preserves extends
    (command P mode configfile configdict comm_mode server_port outpipe classpath).
Proof.
  unfold command.
  apply (preserves_bind _ extends_trans); [ext_auto | intros _].
  apply (preserves_bind _ extends_trans); [| intros c; ext_auto].
  destruct (truthy mode); [|ext_auto].
  intros [o w]. mstep.
  destruct configdict as [c|]; mstep.
  - destruct (heap w !! c) as [d0|]; mstep; [|ext_leaf].
    destruct (bool_decide (is_Some (d0 !! "annotators"))); mstep; [ext_leaf|].
    destruct (MODES !! default "" mode) as [info|]; mstep; ext_leaf.
  - destruct (MODES !! default "" mode) as [info|]; mstep; ext_leaf.
Qed.

Lemma extends_ping_loop ping fuel :
  preserves extends ping -> preserves extends (ping_loop ping fuel).
Proof. intros Hp. induction fuel as [|fuel IH]; cbn [ping_loop]; ext_auto; assumption. Qed.

Lemma extends_parse_result start fuel cmd timeout raw :
  preserves extends start ->
  preserves extends (send_command_and_parse_result_with P start fuel cmd timeout raw).
Proof.
  intros Hs. unfold send_command_and_parse_result_with, ensure_proc_is_running_with.
  ext_auto; assumption.
Qed.

Lemma extends_start_server fuel : preserves extends (start_server P fuel).
Proof.
  induction fuel as [|fuel IH]; cbn [start_server]; ext_auto.
  - apply extends_command.
  - intros [o w]. unfold subprocess_Popen. mstep. ext_leaf.
  - apply extends_ping_loop, extends_parse_result, IH.
Qed.

Lemma bind_ret_inv {A B} (m : M A) (k : A -> M B) st b st' :
  bind m k st = (Ret b, st') ->
  exists a st1, m st = (Ret a, st1) /\ k a st1 = (Ret b, st').
Proof.
  unfold bind. destruct (m st) as [[a|e|] st1]; try discriminate. eauto.
Qed.

(** A [start_server] that returns has spawned a worker. *)
Lemma start_server_spawns fuel st st' :
  start_server P fuel st = (Ret tt, st') ->
  exists pid cmd before after,
    trace (env st') = (trace (env st) ++ before ++ [EPopen pid cmd] ++ after)%list.
Proof.
  destruct fuel as [|fuel]; [discriminate|]. cbn [start_server]. intros H.
  apply bind_ret_inv in H as ([] & st1 & Hkill & H).
  apply bind_ret_inv in H as (o & st1' & Hself & H). injection Hself as <- <-.
  apply bind_ret_inv in H as ([] & st2 & Hpipe & H).
  apply bind_ret_inv in H as (cmd & st3 & Hcmd & H).
  apply bind_ret_inv in H as (pid & st4 & Hpopen & H).
  assert (E1 : extends st st1).
  { pose proof (extends_kill_proc_if_running st) as E. rewrite Hkill in E. exact E. }
  assert (E2 : extends st1 st2).
  { match type of Hpipe with ?m st1 = _ =>
      assert (Hm : preserves extends m) by ext_auto; specialize (Hm st1);
      rewrite Hpipe in Hm; exact Hm end. }
  assert (E3 : extends st2 st3).
  { pose proof (extends_command (mode (self st1)) (configfile (self st1))
                  (configdict (self st1)) (comm_mode (self st1)) (server_port (self st1))
                  (outpipe (self st1)) (classpath (self st1)) st2) as E.
    rewrite Hcmd in E. exact E. }
  assert (E4 : trace (env st4) = (trace (env st3) ++ [EPopen pid cmd])%list).
  { destruct st3 as [o3 w3]. unfold subprocess_Popen in Hpopen. mstep.
    injection Hpopen as <- <-. reflexivity. }
  assert (E5 : extends st4 st').
  { match type of H with ?m st4 = _ =>
      assert (Hm : preserves extends m);
      [ext_auto; apply extends_ping_loop, extends_parse_result, extends_start_server
      | specialize (Hm st4); rewrite H in Hm; exact Hm] end. }
  destruct (extends_trans _ _ _ E1 (extends_trans _ _ _ E2 E3)) as [before Hb].
  destruct E5 as [after Ha].
  exists pid, cmd, before, after. rewrite Ha, E4, Hb. rewrite <- !app_assoc. reflexivity.
Qed.

End ExtendsStartup.

(** ** Teardown and the timeout argument *)

Lemma kill_proc_settled st : settled st -> kill_proc_if_running st = (Ret tt, st).
Proof.
  destruct st as [o w]. unfold settled, kill_proc_if_running, proc_poll. unfold_m. simpl.
  intros [Ho | (pid & rc & Ho & Hp)]; rewrite Ho; simpl; [reflexivity|].
  rewrite Hp. reflexivity.
Qed.

Lemma settled_stopped st : settled st -> stopped st.
Proof.
  intros [Hn | (pid & rc & Hp & Hr)]; [left; exact Hn | right].
  exists pid. split; [exact Hp|]. exists rc. left. exact Hr.
Qed.

(** However [kill_proc_if_running] finds the worker, it leaves it reaped
    or signalled; the session object and the files are as they were. *)
Lemma kill_proc_stops st st1 :
  kill_proc_if_running st = (Ret tt, st1) ->
  self st1 = self st /\ files (env st1) = files (env st) /\ stopped st1.
Proof.
  destruct st as [o w]. unfold stopped, halted, kill_proc_if_running, proc_poll, os_kill.
  mstep. destruct (proc o) as [pid|] eqn:Ho; mstep; [|intros [= <-]; msimpl; auto].
  destruct (procs w !! pid) as [[|rc|rc [|lag]]|] eqn:Hp; mstep; try discriminate.
  - rewrite Hp. mstep. intros [= <-]. msimpl. repeat split. right.
    exists pid. split; [assumption|]. exists (- 9). right. eexists. apply lookup_insert_eq.
  - intros [= <-]. msimpl. repeat split. right. exists pid. split; [assumption|]. eauto.
  - intros [= <-]. msimpl. repeat split. right.
    exists pid. split; [assumption|]. exists rc. left. apply lookup_insert_eq.
  - rewrite lookup_insert_eq. mstep. intros [= <-]. msimpl. repeat split. right.
    exists pid. split; [assumption|]. exists rc. right. eexists. apply lookup_insert_eq.
Qed.

Lemma cleanup_noop st : settled st -> pipe_gone st -> cleanup st = (Ret tt, st).
Proof.
  intros Hs Hp. unfold cleanup. unfold bind at 1. rewrite (kill_proc_settled st Hs).
  destruct st as [o w]. unfold pipe_gone in Hp. simpl in Hp.
  unfold os_path_exists. unfold_m. simpl.
  destruct (truthy (outpipe o)); [|reflexivity].
  rewrite bool_decide_eq_false_2; [reflexivity | auto].
Qed.

(** A cleanup succeeds whenever the session's pid, if any, is a child the
    world knows. *)
Lemma cleanup_succeeds st :
  (forall pid, proc (self st) = Some pid -> is_Some (procs (env st) !! pid)) ->
  exists st1, cleanup st = (Ret tt, st1).
Proof.
  destruct st as [o w]. msimpl. intros Hknown.
  unfold cleanup, kill_proc_if_running, proc_poll, os_kill, os_path_exists, os_unlink,
    os_path_exists.
  mstep. destruct (proc o) as [pid|]; mstep.
  - destruct (Hknown pid eq_refl) as [s Hs]. rewrite Hs.
    destruct s as [|rc|rc [|lag]]; mstep; rewrite ?Hs, ?lookup_insert_eq; mstep;
      destruct (truthy (outpipe o)); mstep;
      try (destruct (bool_decide (default "" (outpipe o) ∈ files w)) eqn:Hex; mstep;
           rewrite ?Hex; mstep); eexists; reflexivity.
  - destruct (truthy (outpipe o)); mstep;
      try (destruct (bool_decide (default "" (outpipe o) ∈ files w)) eqn:Hex; mstep;
           rewrite ?Hex; mstep); eexists; reflexivity.
Qed.

(** With the pipe gone, [cleanup] is [kill_proc_if_running]. *)
Lemma cleanup_pipe_gone st :
  pipe_gone st ->
  cleanup st = match kill_proc_if_running st with
               | (Ret _, st1) => (Ret tt, st1)
               | r => r
               end.
Proof.
  intros Hp. unfold cleanup. unfold bind at 1.
  pose proof (kill_proc_stops st) as Hk.
  destruct (kill_proc_if_running st) as [[[]|e|] st1]; try reflexivity.
  destruct (Hk st1 eq_refl) as (Hs & Hf & _).
  destruct st1 as [o1 w1]. unfold pipe_gone in Hp. cbn [self env] in Hs, Hf.
  unfold os_path_exists. mstep. rewrite Hs.
  destruct (truthy (outpipe (self st))) eqn:Ht; [|reflexivity].
  mstep. rewrite Hf, bool_decide_eq_false_2; [reflexivity | auto].
Qed.

(** [cleanup] after the pipe has gone, by what the worker is found to
    be: still alive, the signal is sent again; dead, it is reaped. *)
Lemma cleanup_again_alive st pid rc lag :
  pipe_gone st -> proc (self st) = Some pid ->
  procs (env st) !! pid = Some (Dying rc (S lag)) ->
  cleanup st
  = (Ret tt,
     mkState (self st)
       (with_trace (trace (env st) ++ [EKill pid 9])
          (with_procs (<[pid := Dying rc lag]> (procs (env st))) (env st)))).
Proof.
  intros Hg Hp Hr. rewrite (cleanup_pipe_gone st Hg).
  destruct st as [o w]. msimpl. unfold kill_proc_if_running, proc_poll, os_kill. mstep.
  rewrite Hp. mstep. rewrite Hr. mstep. rewrite lookup_insert_eq. mstep. reflexivity.
Qed.

Lemma cleanup_again_dead st pid rc :
  pipe_gone st -> proc (self st) = Some pid ->
  procs (env st) !! pid = Some (Dying rc 0) ->
  cleanup st
  = (Ret tt, mkState (self st) (with_procs (<[pid := Exited rc]> (procs (env st))) (env st))).
Proof.
  intros Hg Hp Hr. rewrite (cleanup_pipe_gone st Hg).
  destruct st as [o w]. msimpl. unfold kill_proc_if_running, proc_poll, os_kill. mstep.
  rewrite Hp. mstep. rewrite Hr. mstep. reflexivity.
Qed.

(** A [cleanup] that returns leaves the worker reaped or signalled and
    the pipe off the disk. *)
Lemma cleanup_stops st st1 :
  cleanup st = (Ret tt, st1) -> stopped st1 /\ pipe_gone st1.
Proof.
  intros Hrun. unfold cleanup in Hrun. unfold bind at 1 in Hrun.
  destruct (kill_proc_if_running st) as [[[]|e|] st0] eqn:Hkill; try discriminate.
  apply kill_proc_stops in Hkill as (Hself & Hfiles & Hset).
  destruct st0 as [o0 w0]. unfold os_path_exists, os_unlink, os_path_exists in Hrun.
  unfold_m. simpl in *.
  destruct (truthy (outpipe o0)) eqn:Hto.
  - destruct (bool_decide (default "" (outpipe o0) ∈ files w0)) eqn:Hex;
      simpl in Hrun; repeat (rewrite Hex in Hrun; simpl in Hrun).
    + injection Hrun as <-. split; [exact Hset|].
      unfold pipe_gone. simpl. intros _. rewrite elem_of_difference, elem_of_singleton. tauto.
    + injection Hrun as <-. split; [exact Hset|].
      unfold pipe_gone. simpl. intros _. apply bool_decide_eq_false in Hex. exact Hex.
  - injection Hrun as <-. split; [exact Hset|].
    unfold pipe_gone. simpl. rewrite Hto. discriminate.
Qed.

(** [cleanup] on a session already cleaned up: it returns; the session
    object and the files are as they were; at most one signal goes
    out. *)
Lemma cleanup_again st :
  stopped st -> pipe_gone st ->
  exists st2,
    cleanup st = (Ret tt, st2)
    /\ self st2 = self st /\ files (env st2) = files (env st)
    /\ (kills st2 <= S (kills st))%nat.
Proof.
  intros Hs Hg.
  destruct Hs as [Hn | (pid & Hp & rc & [Hr | [[|lag] Hr]])].
  - exists st. rewrite cleanup_noop; [repeat split; lia | left; exact Hn | exact Hg].
  - exists st. rewrite cleanup_noop; [repeat split; lia | right; eauto | exact Hg].
  - rewrite (cleanup_again_dead st pid rc Hg Hp Hr). eexists. split; [reflexivity|].
    unfold kills. msimpl. repeat split; lia.
  - rewrite (cleanup_again_alive st pid rc lag Hg Hp Hr). eexists. split; [reflexivity|].
    unfold kills. msimpl. rewrite count_ev_snoc. cbn [is_kill]. repeat split; lia.
Qed.

(** Repeated, [cleanup] comes to see the worker's exit. *)
Lemma cleanup_settles_in lag : forall st pid rc,
  pipe_gone st -> proc (self st) = Some pid ->
  procs (env st) !! pid = Some (Dying rc lag) ->
  settled (Nat.iter (S lag) (fun s => snd (cleanup s)) st).
Proof.
  induction lag as [|lag IH]; intros st pid rc Hg Hp Hr.
  - unfold Nat.iter. cbn [nat_rect]. rewrite (cleanup_again_dead st pid rc Hg Hp Hr). cbn [snd].
    right. exists pid, rc. msimpl. split; [exact Hp | apply lookup_insert_eq].
  - rewrite Nat.iter_succ_r. cbv beta. rewrite (cleanup_again_alive st pid rc lag Hg Hp Hr). cbn [snd].
    apply (IH _ pid rc); msimpl; [exact Hg | exact Hp | apply lookup_insert_eq].
Qed.

Lemma pipe_mode_same_call fuel cmd t1 t2 st :
  comm_mode (self st) = "PIPE" ->
  send_command_and_get_string_result fuel cmd t1 st
  = send_command_and_get_string_result fuel cmd t2 st.
Proof.
  intros Hmode. unfold send_command_and_get_string_result, bind, get_self.
  rewrite Hmode. reflexivity.
Qed.





(** * Specified properties *)


(** C2, as amended.  [send_command_and_parse_result] turns into [None],
    raising nothing, a [socket.timeout] raised anywhere inside the call, a
    payload still incomplete when the loop gives up, and (with
    [raw=False]) a payload the JSON decoder rejects.  No other exception
    is caught: a [socket.error] that is not a timeout, and whatever else
    the call raises, reaches the caller.  Stated first on the outcome of
    the steps inside the [try], then on what the channel of a running
    SOCKET-mode session does after a connection is accepted: the first
    reply is late on a socket that waits (a positive timeout); the header
    declares a length that a read takes, and more than the channel
    delivers; the frame is whole but not JSON; the transport breaks; the
    first reply is not there yet on a socket that does not wait (timeout
    0); the header declares a length beyond a C [int]. *)
Theorem parse_result_failures (P : platform) (start : M unit) (fuel : nat) (cmd : string)
    (timeout : Z) (st : state) :
  let call := (ensure_proc_is_running_with start ;;
               send_command_and_get_string_result fuel cmd timeout) in
  let result := fun raw => send_command_and_parse_result_with P start fuel cmd timeout raw st in
  (forall st',
     (call st = (Raise SocketTimeout, st') -> forall raw, result raw = (Ret PyNone, st'))
     /\ (call st = (Ret None, st') -> forall raw, result raw = (Ret PyNone, st'))
     /\ (forall data, call st = (Ret (Some data), st') -> json_loads P data = None ->
           result false = (Ret PyNone, st'))
     /\ (forall e, call st = (Raise e, st') -> e <> SocketTimeout ->
           forall raw, result raw = (Raise e, st')))
  /\ (live st -> comm_mode (self st) = "SOCKET" ->
      (exists cs, connects (env st) = true :: cs) -> 0 <= timeout ->
      forall d data rs,
        (replies (env st) = Chunk d data :: rs -> timeout < d -> 0 < timeout ->
           forall raw, fst (result raw) = Ret PyNone)
        /\ (replies (env st) = Chunk d data :: rs -> d <= timeout -> 8 <= len data ->
              all_arrive (Some timeout) rs ->
              len (str_drop 8 data) + script_bytes rs < be_value (str_take 8 data) ->
              be_value (str_take 8 data) <= INT_MAX ->
              (1001 <= fuel)%nat ->
              forall raw, fst (result raw) = Ret PyNone)
        /\ (replies (env st) = Chunk d data :: rs -> d <= timeout -> 8 <= len data ->
              be_value (str_take 8 data) = len (str_drop 8 data) ->
              0 < len (str_drop 8 data) -> len (str_drop 8 data) <= INT_MAX ->
              (1 <= fuel)%nat ->
              json_loads P (str_drop 8 data) = None ->
              fst (result false) = Ret PyNone)
        /\ (replies (env st) = Fault :: rs ->
              forall raw, fst (result raw) = Raise SocketError)
        /\ (replies (env st) = Chunk d data :: rs -> timeout = 0 -> 0 < d ->
              forall raw, fst (result raw) = Raise SocketError)
        /\ (replies (env st) = Chunk d data :: rs -> d <= timeout -> 8 <= len data ->
              INT_MAX < be_value (str_take 8 data) -> (1 <= fuel)%nat ->
              forall raw, fst (result raw) = Raise OverflowError)).
Proof.
  cbv zeta. split.
  - intros st'. split; [|split; [|split]].
    + intros H raw. rewrite parse_result_of_call, H. reflexivity.
    + intros H raw. rewrite parse_result_of_call, H. reflexivity.
    + intros data H Hj. rewrite parse_result_of_call, H, Hj. reflexivity.
    + intros e H He raw. rewrite parse_result_of_call, H.
      destruct e; try reflexivity. contradiction.
  - intros Hlive Hm (cs & Hc) Ht d data rs. split; [|split; [|split; [|split; [|split]]]].
    + intros Hr Hd Hpos raw. rewrite parse_result_live by exact Hlive.
      rewrite (send_socket_late fuel cmd timeout st cs Hm Hc Ht d data rs Hr Hd Hpos).
      reflexivity.
    + intros Hr Hd Hlen Harr Hshort Hmax Hfuel raw. rewrite parse_result_live by exact Hlive.
      destruct (call_truncated_payload fuel cmd timeout st cs Hm Hc Ht d data rs
                  Hr Hd Hlen Harr Hshort Hmax Hfuel) as (st' & -> & _).
      reflexivity.
    + intros Hr Hd Hlen Hsize Hpos Hmax Hfuel Hj. rewrite parse_result_live by exact Hlive.
      destruct (call_whole_frame fuel cmd timeout st cs Hm Hc Ht d data rs
                  Hr Hd Hlen Hsize Hpos Hmax Hfuel) as (st' & ->).
      rewrite Hj. reflexivity.
    + intros Hr raw. rewrite parse_result_live by exact Hlive.
      rewrite (send_socket_fault fuel cmd timeout st cs Hm Hc Ht rs Hr).
      reflexivity.
    + intros Hr Hz Hd raw. rewrite parse_result_live by exact Hlive.
      rewrite (send_socket_would_block fuel cmd timeout st cs Hm Hc Ht d data rs Hz Hr Hd).
      reflexivity.
    + intros Hr Hd Hlen Hbig Hfuel raw. rewrite parse_result_live by exact Hlive.
      rewrite (call_oversized fuel cmd timeout st cs Hm Hc Ht d data rs Hr Hd Hlen Hbig Hfuel).
      reflexivity.
Qed.


(** C4, as amended.  One pass of the ping loop of [start_server], by what
    the ping gave: the string [PONG] ends the loop successfully; any other
    value except [None] ends it with an exception that is not a
    [socket.error], so nothing retries it; a [socket.error] is followed by
    the fixed sleep and another pass; [None] (a timeout, a payload the
    decoder rejects, or JSON [null]) is followed by another pass at once.
    The loop returns only after a ping that gave [PONG].  The loop itself
    keeps no count of retries: for every [k] there is a run in which [k]
    transport errors in a row are each slept over and retried, and the
    handshake then succeeds. *)
Theorem ping_loop_policy :
  (forall (ping : M pyvalue) (fuel : nat) (st st' : state),
     (ping st = (Ret (PyStr "PONG"), st') -> ping_loop ping (S fuel) st = (Ret tt, st'))
     /\ (forall v, ping st = (Ret v, st') -> v <> PyNone -> v <> PyStr "PONG" ->
           exists e, ping_loop ping (S fuel) st = (Raise e, st')
                     /\ is_socket_error e = false)
     /\ (forall e, ping st = (Raise e, st') -> is_socket_error e = true ->
           ping_loop ping (S fuel) st
           = ping_loop ping fuel (slept STARTUP_BUSY_WAIT_INTERVAL_SEC st'))
     /\ (ping st = (Ret PyNone, st') -> ping_loop ping (S fuel) st = ping_loop ping fuel st')
     /\ (ping_loop ping fuel st = (Ret tt, st') ->
           exists st0, ping st0 = (Ret (PyStr "PONG"), st')))
  /\ (forall (P : platform) (start : M unit) (f k n : nat) (st : state) (cs : list bool),
        json_loads P PONG_payload = Some (PyStr "PONG") ->
        live st -> comm_mode (self st) = "SOCKET" ->
        connects (env st) = (replicate (S k) true ++ cs)%list ->
        replies (env st) = (replicate k Fault ++ [Chunk 0 (frame PONG_payload)])%list ->
        exists st',
          ping_loop (send_command_and_parse_result_with P start (S f) PING 2000 false)
                    (S k + n) st = (Ret tt, st')
          /\ sleeps st' = (sleeps st + k)%nat).
Proof.
  split.
  - intros ping fuel st st'. repeat split.
    + intros H. rewrite ping_loop_unfold, H. reflexivity.
    + intros v H Hn Hp. rewrite ping_loop_unfold, H.
      destruct (assert_pong v st') as [r st1] eqn:Ha.
      apply assert_pong_ok in Ha as [-> [[Hv _] | [_ (e & -> & He)]]]; [contradiction|].
      exists e. split; [|exact He]. destruct v; try reflexivity. contradiction.
    + intros e H He. rewrite ping_loop_unfold, H, He. reflexivity.
    + intros H. rewrite ping_loop_unfold, H. reflexivity.
    + apply ping_loop_completes.
  - intros P start f k n st cs Hpong. apply ping_loop_retries. exact Hpong.
Qed.

(** C5.  [ensure_proc_is_running] calls [start_server] exactly when the
    worker was never started ([proc] is [None]) or is seen to have exited
    ([poll()] gives a return code); while the worker runs it does nothing:
    the state, trace included, is unchanged.  The statement is given both
    for an arbitrary callee [start] and for [start_server] itself; and a
    [start_server] that returns has spawned a worker, so the two cases
    never coincide.  A worker that has been sent a signal (by an earlier
    [cleanup]) falls under the same two cases: once it has died of it,
    [poll()] gives the return code and [start_server] is called; as long
    as it has not, [poll()] gives [None] and nothing is done (the trace
    is unchanged; the worker is one poll nearer its end). *)
Theorem ensure_proc_is_running_exactly (P : platform) (fuel : nat) (start : M unit) (st : state) :
  (proc (self st) = None ->
     ensure_proc_is_running_with start st = start st
     /\ ensure_proc_is_running P fuel st = start_server P fuel st)
  /\ (forall pid rc,
        proc (self st) = Some pid -> procs (env st) !! pid = Some (Exited rc) ->
        ensure_proc_is_running_with start st = start st
        /\ ensure_proc_is_running P fuel st = start_server P fuel st)
  /\ (forall pid,
        proc (self st) = Some pid -> procs (env st) !! pid = Some Running ->
        ensure_proc_is_running_with start st = (Ret tt, st)
        /\ ensure_proc_is_running P fuel st = (Ret tt, st))
  /\ (forall st',
        start_server P fuel st = (Ret tt, st') ->
        exists pid cmd before after,
          trace (env st') = (trace (env st) ++ before ++ [EPopen pid cmd] ++ after)%list)
  /\ (forall pid rc,
        proc (self st) = Some pid -> procs (env st) !! pid = Some (Dying rc 0) ->
        let st0 := mkState (self st)
                     (with_procs (<[pid := Exited rc]> (procs (env st))) (env st)) in
        ensure_proc_is_running_with start st = start st0
        /\ ensure_proc_is_running P fuel st = start_server P fuel st0)
  /\ (forall pid rc lag,
        proc (self st) = Some pid -> procs (env st) !! pid = Some (Dying rc (S lag)) ->
        let st0 := mkState (self st)
                     (with_procs (<[pid := Dying rc lag]> (procs (env st))) (env st)) in
        ensure_proc_is_running_with start st = (Ret tt, st0)
        /\ ensure_proc_is_running P fuel st = (Ret tt, st0)).
Proof.
  split; [|split; [|split; [|split; [|split]]]]; [| | |apply start_server_spawns| |];
    destruct st as [o w]; unfold ensure_proc_is_running, ensure_proc_is_running_with,
      proc_poll; mstep.
  - intros Ho. rewrite Ho. split; reflexivity.
  - intros pid rc Ho Hp. rewrite Ho. mstep. rewrite Hp. split; reflexivity.
  - intros pid Ho Hp. rewrite Ho. mstep. rewrite Hp. split; reflexivity.
  - intros pid rc Ho Hp. rewrite Ho. mstep. rewrite Hp. split; reflexivity.
  - intros pid rc lag Ho Hp. rewrite Ho. mstep. rewrite Hp. split; reflexivity.
Qed.

(** C6.  In every communication mode, when no path that the entries of
    [corenlp_jars] glob to exists, construction raises [AssertionError]
    and the world is as it was: nothing has been spawned, no system call
    made. *)
Theorem init_fails_without_jars (P : platform) (mode : option string) (server_port : Z)
    (comm_mode outpipe_filename_prefix : string) (configfile : option string)
    (configdict : option nat) (corenlp_jars : list string) (fuel : nat) (st : state) :
  (forall f p, f ∈ corenlp_jars -> p ∈ glob_glob P (files (env st)) f -> p ∉ files (env st)) ->
  exists st',
    __init__ P mode server_port comm_mode outpipe_filename_prefix configfile configdict
             corenlp_jars fuel st = (Raise AssertionError, st')
    /\ env st' = env st.
Proof.
  intros Hnone. destruct st as [o w]. simpl in Hnone.
  assert (Hany : existsb (fun f => bool_decide (f ∈ files w))
                   (concat (map (glob_glob P (files w)) corenlp_jars)) = false).
  { apply not_true_is_false. intros Hex. apply existsb_exists in Hex as (p & Hin & Hp).
    apply bool_decide_eq_true in Hp.
    apply in_concat in Hin as (l & Hl & Hpl).
    apply in_map_iff in Hl as (f & <- & Hf).
    apply list_elem_of_In in Hf, Hpl.
    exact (Hnone f p Hf Hpl Hp). }
  unfold __init__, bind, set_self, set_outpipe, os_path_exists, get_self, get_world, ret,
    assert, raise. simpl.
  destruct (String.eqb comm_mode "PIPE"); simpl.
  - destruct (bool_decide _); simpl.
    + eexists; split; reflexivity.
    + rewrite Hany. eexists; split; reflexivity.
  - rewrite Hany. eexists; split; reflexivity.
Qed.

(** C7, as amended.  After a [cleanup] that returned, the worker has
    been reaped or signalled and the pipe file is gone; a second
    [cleanup] (the explicit call, the exit hook and [__del__] all run
    this same method) returns without an exception and touches neither
    the session object nor any file.  Whether it signals again depends
    on what [poll()] finds: on a worker never started or seen to have
    exited, [cleanup] and [kill_proc_if_running] do nothing at all, the
    state, trace included, staying as it is; a worker that has died of
    the first signal is reaped, and no signal sent; a worker that the
    first signal has not yet brought down is sent [SIGKILL] again.
    Repeated, [cleanup] comes to see the exit, and from then on changes
    nothing. *)
Theorem cleanup_idempotent (st st1 : state) :
  cleanup st = (Ret tt, st1) ->
  stopped st1 /\ pipe_gone st1
  /\ (exists st2,
        cleanup st1 = (Ret tt, st2)
        /\ self st2 = self st1 /\ files (env st2) = files (env st1)
        /\ (kills st2 <= S (kills st1))%nat)
  /\ (settled st1 ->
        cleanup st1 = (Ret tt, st1) /\ kill_proc_if_running st1 = (Ret tt, st1))
  /\ (forall pid rc,
        proc (self st1) = Some pid -> procs (env st1) !! pid = Some (Dying rc 0) ->
        kills (snd (cleanup st1)) = kills st1 /\ settled (snd (cleanup st1)))
  /\ (forall pid rc lag,
        proc (self st1) = Some pid -> procs (env st1) !! pid = Some (Dying rc (S lag)) ->
        kills (snd (cleanup st1)) = S (kills st1)
        /\ procs (env (snd (cleanup st1))) !! pid = Some (Dying rc lag))
  /\ (forall pid rc lag,
        proc (self st1) = Some pid -> procs (env st1) !! pid = Some (Dying rc lag) ->
        settled (Nat.iter (S lag) (fun s => snd (cleanup s)) st1)).
Proof.
  intros Hrun. destruct (cleanup_stops st st1 Hrun) as [Hs Hp].
  split; [exact Hs|]. split; [exact Hp|].
  split; [apply cleanup_again; assumption|].
  split; [intros Hset; split; [apply cleanup_noop | apply kill_proc_settled]; assumption|].
  split; [|split].
  - intros pid rc Hpid Hdead. rewrite (cleanup_again_dead st1 pid rc Hp Hpid Hdead).
    cbn [snd]. unfold kills. msimpl. split; [reflexivity|].
    right. exists pid, rc. msimpl. split; [exact Hpid | apply lookup_insert_eq].
  - intros pid rc lag Hpid Halive. rewrite (cleanup_again_alive st1 pid rc lag Hp Hpid Halive).
    cbn [snd]. unfold kills. msimpl. rewrite count_ev_snoc. cbn [is_kill].
    split; [lia | apply lookup_insert_eq].
  - intros pid rc lag Hpid Hdying. exact (cleanup_settles_in lag st1 pid rc Hp Hpid Hdying).
Qed.

(** C8.  In PIPE mode the timeout argument has no influence: with any two
    timeouts the call returns the same result in the same final state,
    hence after the same reads.  In SOCKET mode it is applied to the
    connection: two different timeouts are told apart by some session. *)
Theorem timeout_only_in_socket_mode (fuel : nat) (cmd : string) (t1 t2 : Z) :
  (forall st, comm_mode (self st) = "PIPE" ->
     send_command_and_get_string_result fuel cmd t1 st
     = send_command_and_get_string_result fuel cmd t2 st)
  /\ (0 <= t1 -> 0 <= t2 -> t1 <> t2 ->
      exists st, comm_mode (self st) = "SOCKET" /\
        send_command_and_get_string_result fuel cmd t1 st
        <> send_command_and_get_string_result fuel cmd t2 st).
Proof.
  split; [intros st; apply pipe_mode_same_call|].
  intros H1 H2 Hne.
  set (st := mkState demo_socket_session (demo_world [true] [])).
  exists st. split; [reflexivity|].
  destruct (socket_call_without_data fuel cmd t1 [] st) as (s1 & E1 & T1);
    [reflexivity.. | exact H1 |].
  destruct (socket_call_without_data fuel cmd t2 [] st) as (s2 & E2 & T2);
    [reflexivity.. | exact H2 |].
  rewrite E1, E2. intros Heq. injection Heq as Hst. subst s2.
  rewrite T1 in T2. apply app_inv_head in T2. injection T2 as Ht. contradiction.
Qed.

(** C9.  Construction with a mode preset [m] and a caller-supplied
    dictionary (the object at [r]) that has no [annotators] key, once it
    gets as far as [start_server], leaves that very object changed: it
    now maps [annotators] to the preset's annotator string - whether
    construction then succeeds or fails. *)
Theorem init_mutates_configdict (P : platform) (m : string) (info : mode_info) (r : nat)
    (d : gmap string pyvalue) (server_port : Z) (cm prefix : string)
    (configfile : option string) (corenlp_jars : list string) (fuel : nat) (st : state) :
  MODES !! m = Some info ->
  heap (env st) !! r = Some d -> d !! "annotators" = None ->
  (r < next_id (env st))%nat ->
  (cm = "PIPE" -> session_pipe_path P prefix ∉ files (env st)) ->
  (exists f p, f ∈ corenlp_jars /\ p ∈ glob_glob P (files (env st)) f /\ p ∈ files (env st)) ->
  let st' := snd (__init__ P (Some m) server_port cm prefix configfile (Some r)
                    corenlp_jars (S fuel) st) in
  heap (env st') !! r = Some (<["annotators" := PyStr (annotators info)]> d)
  /\ heap (env st') !! r <> heap (env st) !! r.
Proof.
  intros Hmode Hd Hann Hlt Hpipe (f & p & Hf & Hp & Hex). cbv zeta.
  assert (Hgoal : heap (env (snd (__init__ P (Some m) server_port cm prefix configfile
                                    (Some r) corenlp_jars (S fuel) st))) !! r
                  = Some (<["annotators" := PyStr (annotators info)]> d)).
  { assert (Hany : existsb (fun f => bool_decide (f ∈ files (env st)))
                     (concat (map (glob_glob P (files (env st))) corenlp_jars)) = true).
    { apply existsb_exists. exists p. split; [|apply bool_decide_eq_true; exact Hex].
      apply in_concat. exists (glob_glob P (files (env st)) f).
      split; [apply in_map, list_elem_of_In, Hf | apply list_elem_of_In, Hp]. }
    unfold __init__. rewrite snd_bind. cbn [set_self]. rewrite snd_bind.
    match goal with
    | |- context [match ?pipe_part ?s0 with _ => _ end] =>
        assert (Hpart : exists o1, pipe_part s0 = (Ret tt, mkState o1 (env st))
                  /\ proc o1 = None /\ mode o1 = Some m /\ configdict o1 = Some r
                  /\ (cm = "PIPE" -> is_Some (outpipe o1))
                  /\ comm_mode o1 = cm)
    end.
    { destruct (String.eqb cm "PIPE") eqn:Hcm.
      - apply String.eqb_eq in Hcm. specialize (Hpipe Hcm).
        unfold set_outpipe, os_path_exists. mstep.
        fold (session_pipe_path P prefix).
        rewrite bool_decide_eq_false_2 by exact Hpipe. mstep.
        eexists. split; [reflexivity|]. msimpl. eauto 10.
      - eexists. split; [reflexivity|]. msimpl. repeat split; try reflexivity.
        intros ->. discriminate. }
    destruct Hpart as (o1 & -> & Hproc & Hm & Hc & Hop & Hcm).
    rewrite snd_bind. cbn [get_world env]. rewrite snd_bind. rewrite Hany. cbn [assert ret].
    rewrite snd_bind. unfold set_classpath at 1. mstep.
    set (st1 := {| self := with_classpath _ o1; env := env st |}).
    pose proof (start_server_inserts P m info r d Hmode Hann fuel st1 Hproc Hm Hc
                  ltac:(cbn; rewrite Hcm; exact Hop) Hd Hlt) as Hstart.
    destruct (start_server P (S fuel) st1) as [[[]|e|] st2]; cbn [snd] in Hstart;
      exact Hstart. }
  split; [exact Hgoal|].
  rewrite Hgoal, Hd. intros [= Heq].
  apply (f_equal (fun x => x !! "annotators")) in Heq.
  rewrite lookup_insert_eq, Hann in Heq. discriminate.
Qed.

(** C10.  A response frame whose declared length is 0, on a session whose
    worker runs: once the header is in, the loop makes a single read (for
    no bytes) and yields the empty string, so the call has made two reads
    in all; with [raw=True] the call returns the empty string, and with
    [raw=False], the decoder rejecting the empty string, it returns
    [None]. *)
Theorem empty_frame_result (P : platform) (fuel : nat) (cmd : string) (timeout : Z)
    (st : state) :
  live st -> empty_frame_next st timeout ->
  (forall sock st0, reader_bound st0 sock ->
     exists st', recv_loop (S fuel) sock 0 [] st0 = (Ret (Some ""), st')
                 /\ reads st' = S (reads st0))
  /\ (exists st', send_command_and_get_string_result (S fuel) cmd timeout st
                  = (Ret (Some ""), st')
                  /\ reads st' = (reads st + 2)%nat)
  /\ (exists st', send_command_and_parse_result P (S fuel) cmd timeout true st
                  = (Ret (PyStr ""), st'))
  /\ (json_loads P "" = None ->
      exists st', send_command_and_parse_result P (S fuel) cmd timeout false st
                  = (Ret PyNone, st')).
Proof.
  intros Hlive Hnext.
  destruct (call_empty_frame fuel cmd timeout st Hlive Hnext) as (st' & Hcall & Hreads).
  split; [|split; [|split]].
  - intros sock st0 Hb.
    destruct (recv_loop_empty_frame fuel sock st0 Hb) as (st1 & H1 & H2 & _). eauto.
  - eauto.
  - exists st'. unfold send_command_and_parse_result.
    rewrite parse_result_live by exact Hlive. rewrite Hcall. reflexivity.
  - intros Hjson. exists st'. unfold send_command_and_parse_result.
    rewrite parse_result_live by exact Hlive. rewrite Hcall. rewrite Hjson. reflexivity.
Qed.

(** * The properties at concrete inputs *)



(** C2 as stated fails: on a regular call to a running worker, a
    transport error that is not a timeout escapes
    [send_command_and_parse_result] as [socket.error]. *)
Lemma parse_result_lets_socket_error_escape :
  fst (send_command_and_parse_result P0 5 PING 2000 false
         (mkState demo_socket_session (demo_world [true] [Fault])))
  = Raise SocketError.
Proof. vm_compute. reflexivity. Qed.

(** A header cut short escapes as [struct.error]. *)
Example truncated_header_raises :
  fst (send_command_and_parse_result P0 5 PING 2000 false
         (mkState demo_socket_session (demo_world [true] [Chunk 0 "abc"])))
  = Raise StructError.
Proof. vm_compute. reflexivity. Qed.

Lemma parse_result_failures_witness :
  fst (send_command_and_parse_result P0 1001 PING 2000 false
         (mkState demo_socket_session (demo_world [true] [Chunk 2500 (frame PONG_payload)])))
    = Ret PyNone
  /\ fst (send_command_and_parse_result P0 1001 PING 2000 false
            (mkState demo_socket_session (demo_world [true] [Chunk 0 (header 9 +:+ "half")])))
    = Ret PyNone
  /\ fst (send_command_and_parse_result P0 1001 PING 2000 false
            (mkState demo_socket_session (demo_world [true] [Chunk 0 (frame "oops")])))
    = Ret PyNone
  /\ fst (send_command_and_parse_result P0 1001 PING 2000 false
            (mkState demo_socket_session (demo_world [true] [Fault])))
    = Raise SocketError.
Proof.
  assert (Hlive : forall rs, live (mkState demo_socket_session (demo_world [true] rs))).
  { intros rs. exists 1%nat. split; reflexivity. }
  unfold send_command_and_parse_result. split; [|split; [|split]].
  - destruct (parse_result_failures P0 (start_server P0 1001) 1001 PING 2000
                (mkState demo_socket_session
                   (demo_world [true] [Chunk 2500 (frame PONG_payload)]))) as [_ H].
    destruct (H (Hlive _) eq_refl (ex_intro _ [] eq_refl) ltac:(lia)
                2500 (frame PONG_payload) []) as (Hlate & _).
    apply Hlate; [reflexivity | lia | lia].
  - destruct (parse_result_failures P0 (start_server P0 1001) 1001 PING 2000
                (mkState demo_socket_session
                   (demo_world [true] [Chunk 0 (header 9 +:+ "half")]))) as [_ H].
    destruct (H (Hlive _) eq_refl (ex_intro _ [] eq_refl) ltac:(lia)
                0 (header 9 +:+ "half") []) as (_ & Hshort & _).
    apply Hshort; [reflexivity | lia | vm_compute; discriminate | reflexivity
                  | vm_compute; reflexivity | vm_compute; discriminate | lia].
  - destruct (parse_result_failures P0 (start_server P0 1001) 1001 PING 2000
                (mkState demo_socket_session
                   (demo_world [true] [Chunk 0 (frame "oops")]))) as [_ H].
    destruct (H (Hlive _) eq_refl (ex_intro _ [] eq_refl) ltac:(lia)
                0 (frame "oops") []) as (_ & _ & Hjson & _).
    apply Hjson; [reflexivity | lia | vm_compute; discriminate | reflexivity
                 | vm_compute; reflexivity | vm_compute; discriminate | lia | reflexivity].
  - destruct (parse_result_failures P0 (start_server P0 1001) 1001 PING 2000
                (mkState demo_socket_session (demo_world [true] [Fault]))) as [_ H].
    destruct (H (Hlive _) eq_refl (ex_intro _ [] eq_refl) ltac:(lia)
                0 "" []) as (_ & _ & _ & Hfault & _).
    apply Hfault. reflexivity.
Defined.


(** The same call, looked at: the descriptor is 2, and all the call did
    besides was to read the header and the payload. *)
Example one_call_trace :
  trace (env after_one_call)
  = [EConnect 2 12340 true; ESetTimeout 2 2000; ESendAll 2 (PING +:+ NL);
     ERecv 2 8; ERecv 2 6; EReclaim 2]
  /\ conns (env after_one_call) = ∅.
Proof. vm_compute. split; reflexivity. Qed.

(** The startup makes two connections: the probe, closed by [close], and
    the ping, closed as its socket is reclaimed. *)
Example startup_connections_are_closed :
  existsb (fun e => match e with EClose 4 => true | _ => false end)
          (trace (env after_startup)) = true
  /\ existsb (fun e => match e with EReclaim 5 => true | _ => false end)
          (trace (env after_startup)) = true
  /\ closes after_startup = 1%nat
  /\ conns (env after_startup) !! 4%nat = None
  /\ conns (env after_startup) !! 5%nat = None.
Proof. vm_compute. repeat split. Qed.

(** C4 as stated fails: replies whose payload is not [PONG] (one that is
    not JSON, one that is JSON [null]) are received and the ping is simply
    sent again; the handshake then completes, having slept only once, at
    startup. *)
Lemma non_pong_reply_is_retried :
  fst handshake_with_odd_replies = Ret tt
  /\ count_ev is_ping_send (trace (env (snd handshake_with_odd_replies))) = 3%nat
  /\ sleeps (snd handshake_with_odd_replies) = 1%nat.
Proof. vm_compute. split; [|split]; reflexivity. Qed.

Lemma ping_loop_policy_witness :
  exists st',
    ping_loop (send_command_and_parse_result_with P0 (start_server P0 3) 1 PING 2000 false) 3
      (mkState demo_socket_session
         (demo_world [true; true; true]
            [Fault; Fault; Chunk 0 (frame PONG_payload)]))
    = (Ret tt, st')
    /\ sleeps st' = 2%nat.
Proof.
  destruct ping_loop_policy as [_ H].
  apply (H P0 (start_server P0 3) 0%nat 2%nat 0%nat
           (mkState demo_socket_session
              (demo_world [true; true; true] [Fault; Fault; Chunk 0 (frame PONG_payload)])) []).
  - reflexivity.
  - exists 1%nat. split; reflexivity.
  - reflexivity.
  - reflexivity.
  - reflexivity.
Defined.

Lemma ensure_proc_is_running_exactly_witness :
  ensure_proc_is_running P0 5 (mkState demo_socket_session (demo_world [] []))
  = (Ret tt, mkState demo_socket_session (demo_world [] []))
  /\ ensure_proc_is_running P0 5 (mkState unstarted_socket_session (demo_world [] []))
     = start_server P0 5 (mkState unstarted_socket_session (demo_world [] [])).
Proof.
  split.
  - destruct (ensure_proc_is_running_exactly P0 5 (ret tt)
                (mkState demo_socket_session (demo_world [] []))) as (_ & _ & H & _).
    apply (H 1%nat); reflexivity.
  - destruct (ensure_proc_is_running_exactly P0 5 (ret tt)
                (mkState unstarted_socket_session (demo_world [] []))) as (H & _).
    apply H. reflexivity.
Defined.

Lemma init_fails_without_jars_witness :
  exists st',
    __init__ P0 (Some "ssplit") 12340 "PIPE" "/tmp/corenlp_pywrap_pipe" None None
             ["/asdfadsf/asdfasdf"] 5 (mkState demo_socket_session (demo_world [] []))
    = (Raise AssertionError, st')
    /\ env st' = demo_world [] [].
Proof.
  apply (init_fails_without_jars P0 (Some "ssplit") 12340 "PIPE" "/tmp/corenlp_pywrap_pipe"
           None None ["/asdfadsf/asdfasdf"] 5 (mkState demo_socket_session (demo_world [] []))).
  intros f p Hf Hp. apply list_elem_of_In in Hf. destruct Hf as [<- | []].
  vm_compute in Hp. apply list_elem_of_In in Hp. destruct Hp.
Defined.

(** C7 as stated fails: the worker not yet brought down by the first
    signal, a second [cleanup] straight after the first sends [SIGKILL]
    again, and so does change something. *)
Lemma second_cleanup_signals_again :
  fst (cleanup pipe_on_disk_slow_worker) = Ret tt
  /\ fst (cleanup (snd (cleanup pipe_on_disk_slow_worker))) = Ret tt
  /\ trace (env (snd (cleanup pipe_on_disk_slow_worker)))
     = [EKill 1 9; EUnlink "/tmp/pipe"]
  /\ trace (env (snd (cleanup (snd (cleanup pipe_on_disk_slow_worker)))))
     = [EKill 1 9; EUnlink "/tmp/pipe"; EKill 1 9]
  /\ cleanup (snd (cleanup pipe_on_disk_slow_worker))
     <> (Ret tt, snd (cleanup pipe_on_disk_slow_worker)).
Proof.
  split; [vm_compute; reflexivity|]. split; [vm_compute; reflexivity|].
  split; [vm_compute; reflexivity|]. split; [vm_compute; reflexivity|].
  intros H. apply (f_equal (fun r => kills (snd r))) in H. vm_compute in H. discriminate.
Qed.

Lemma cleanup_idempotent_witness :
  (exists st2,
     cleanup (snd (cleanup pipe_on_disk)) = (Ret tt, st2)
     /\ self st2 = self (snd (cleanup pipe_on_disk))
     /\ files (env st2) = files (env (snd (cleanup pipe_on_disk)))
     /\ (kills st2 <= S (kills (snd (cleanup pipe_on_disk))))%nat)
  /\ kills (snd (cleanup (snd (cleanup pipe_on_disk_slow_worker))))
     = S (kills (snd (cleanup pipe_on_disk_slow_worker)))
  /\ settled (Nat.iter 2 (fun s => snd (cleanup s)) (snd (cleanup pipe_on_disk_slow_worker))).
Proof.
  split; [|split].
  - apply (cleanup_idempotent pipe_on_disk (snd (cleanup pipe_on_disk))).
    vm_compute. reflexivity.
  - destruct (cleanup_idempotent pipe_on_disk_slow_worker
                (snd (cleanup pipe_on_disk_slow_worker)))
      as (_ & _ & _ & _ & _ & H & _); [vm_compute; reflexivity|].
    apply (H 1%nat (- 9) 0%nat); vm_compute; reflexivity.
  - destruct (cleanup_idempotent pipe_on_disk_slow_worker
                (snd (cleanup pipe_on_disk_slow_worker)))
      as (_ & _ & _ & _ & _ & _ & H); [vm_compute; reflexivity|].
    apply (H 1%nat (- 9) 1%nat); vm_compute; reflexivity.
Defined.

Lemma timeout_only_in_socket_mode_witness :
  send_command_and_get_string_result 5 "PING" 2000 (mkState demo_pipe_session (demo_world [] []))
  = send_command_and_get_string_result 5 "PING" 7 (mkState demo_pipe_session (demo_world [] []))
  /\ exists st, comm_mode (self st) = "SOCKET" /\
        send_command_and_get_string_result 5 "PING" 2000 st
        <> send_command_and_get_string_result 5 "PING" 7 st.
Proof.
  destruct (timeout_only_in_socket_mode 5 "PING" 2000 7) as [Hpipe Hsock].
  split; [apply Hpipe; reflexivity | apply Hsock; lia].
Defined.

Lemma init_mutates_configdict_witness :
  let st' := snd (__init__ P0 (Some "ssplit") 12340 "SOCKET" "/tmp/corenlp_pywrap_pipe" None
                    (Some 0%nat) ["/jars/a.jar"] 10
                    (mkState unstarted_socket_session world_with_callers_dict)) in
  heap (env st') !! 0%nat
  = Some (<["annotators" := PyStr "tokenize, ssplit"]> callers_dict)
  /\ heap (env st') !! 0%nat <> Some callers_dict.
Proof.
  apply (init_mutates_configdict P0 "ssplit"
           (mkModeInfo "tokenize, ssplit"
              "tokenization and sentence splitting (included in all subsequent ones)")
           0%nat callers_dict 12340 "SOCKET" "/tmp/corenlp_pywrap_pipe" None ["/jars/a.jar"] 9
           (mkState unstarted_socket_session world_with_callers_dict)).
  - reflexivity.
  - reflexivity.
  - reflexivity.
  - cbn. lia.
  - discriminate.
  - exists "/jars/a.jar", "/jars/a.jar". split; [|split].
    + apply list_elem_of_In. left. reflexivity.
    + apply list_elem_of_In. left. reflexivity.
    + vm_compute. reflexivity.
Defined.

(** A consequence for crash recovery: when the worker of that session
    has exited, the restart inside the next call runs [command] on the
    dictionary that now has [annotators], and its assertion fails. *)
Example restart_with_callers_dict_fails :
  fst (send_command_and_parse_result P0 10 PING 2000 false
         (mkState (self after_construction)
            (with_procs ((fun _ => Exited 1) <$> procs (env after_construction))
               (env after_construction))))
  = Raise AssertionError.
Proof. vm_compute. reflexivity. Qed.

Lemma empty_frame_result_witness :
  (exists st', send_command_and_parse_result P0 1 PING 2000 true empty_frame_state
               = (Ret (PyStr ""), st'))
  /\ (exists st', send_command_and_parse_result P0 1 PING 2000 false empty_frame_state
                  = (Ret PyNone, st')).
Proof.
  destruct (empty_frame_result P0 0 PING 2000 empty_frame_state) as (_ & _ & Hraw & Hjson).
  - exists 1%nat. split; reflexivity.
  - exists 0, (header 0), []. split; [reflexivity|]. split; [reflexivity|].
    left. split; [reflexivity|]. split; [lia|]. split; [lia|]. exists []. reflexivity.
  - split; [exact Hraw | apply Hjson; reflexivity].
Defined.

(** * Support for the further properties *)

(** *** Connecting *)
Lemma socket_connect_refused port st :
  refused 1 (connects (env st)) ->
  exists st',
    socket_connect port st = (Raise SocketError, st')
    /\ self st' = self st /\ conns (env st') = conns (env st)
    /\ procs (env st') = procs (env st) /\ replies (env st') = replies (env st)
    /\ files (env st') = files (env st)
    /\ connects (env st') = drop 1 (connects (env st))
    /\ attempts st' = S (attempts st) /\ sleeps st' = sleeps st.
Proof.
  destruct st as [o w]. unfold refused, socket_connect, attempts, sleeps. msimpl. intros Hr.
  mstep. destruct (connects w) as [|[] cs] eqn:Hc; mstep.
  - eexists. split; [reflexivity|]. msimpl. rewrite Hc, !count_ev_snoc. cbn.
    repeat split; lia.
  - cbn in Hr. inversion Hr; discriminate.
  - eexists. split; [reflexivity|]. msimpl. rewrite !count_ev_snoc. cbn.
    repeat split; lia.
Qed.

Lemma refused_S n cs : refused (S n) cs -> refused 1 cs /\ refused n (drop 1 cs).
Proof.
  unfold refused. destruct cs as [|b cs].
  - intros _. cbn. rewrite take_nil. split; constructor.
  - cbn. rewrite drop_0. intros H. inversion H; subst.
    split; [constructor; [reflexivity | constructor] | assumption].
Qed.

Lemma get_socket_trials_refused n interval m : forall a st,
  (a + m = n)%nat -> refused m (connects (env st)) ->
  exists st',
    get_socket_trials (seq a m) n interval st = (Raise AssertionError, st')
    /\ self st' = self st /\ conns (env st') = conns (env st)
    /\ procs (env st') = procs (env st) /\ replies (env st') = replies (env st)
    /\ files (env st') = files (env st)
    /\ connects (env st') = drop m (connects (env st))
    /\ attempts st' = (attempts st + m)%nat
    /\ sleeps st' = (sleeps st + (m - 1))%nat.
Proof.
  induction m as [|m IH]; intros a st Ha Hr.
  - cbn [seq get_socket_trials]. exists st. unfold raise.
    rewrite drop_0. repeat split; lia.
  - cbn [seq get_socket_trials]. apply refused_S in Hr as [H1 Hm].
    destruct (socket_connect_refused (server_port (self st)) st H1)
      as (st1 & Hc & Hself & Hconns & Hprocs & Hrep & Hfiles & Hcs & Hatt & Hsl).
    unfold bind at 1. cbn [get_self]. unfold try_except. rewrite Hc. cbn [is_socket_error].
    set (st2 := snd ((if Z.of_nat a <? Z.of_nat n - 1 then time_sleep interval else ret tt) st1)).
    assert (Hst2 : (if Z.of_nat a <? Z.of_nat n - 1 then time_sleep interval else ret tt) st1
                   = (Ret tt, st2)).
    { unfold st2. destruct (Z.of_nat a <? Z.of_nat n - 1); reflexivity. }
    cbv beta. unfold bind at 1. rewrite Hst2.
    assert (Hst2' : self st2 = self st1 /\ env st2 = env st2 /\
              conns (env st2) = conns (env st1) /\ procs (env st2) = procs (env st1) /\
              replies (env st2) = replies (env st1) /\ files (env st2) = files (env st1) /\
              connects (env st2) = connects (env st1) /\ attempts st2 = attempts st1 /\
              sleeps st2 = (sleeps st1 + (if (Z.of_nat a <? Z.of_nat n - 1)%Z then 1 else 0))%nat).
    { unfold st2, attempts, sleeps. destruct st1 as [o1 w1].
      destruct (Z.of_nat a <? Z.of_nat n - 1); unfold time_sleep; mstep;
        rewrite ?count_ev_snoc; cbn; repeat split; lia. }
    destruct Hst2' as (Hself2 & _ & Hconns2 & Hprocs2 & Hrep2 & Hfiles2 & Hcs2 & Hatt2 & Hsl2).
    destruct (IH (S a) st2) as (st' & Hrun & Hs' & Hc' & Hp' & Hr' & Hf' & Hcs' & Ha' & Hsl');
      [lia | rewrite Hcs2, Hcs; exact Hm |].
    exists st'. split; [exact Hrun|].
    rewrite Hs', Hc', Hp', Hr', Hf', Hcs', Ha', Hsl', Hself2, Hconns2, Hprocs2, Hrep2, Hfiles2,
      Hcs2, Hatt2, Hsl2, Hself, Hconns, Hprocs, Hrep, Hfiles, Hcs, Hatt, Hsl.
    rewrite drop_drop. repeat split; try reflexivity; try lia.
    destruct (Z.of_nat a <? Z.of_nat n - 1) eqn:E;
      [apply Z.ltb_lt in E | apply Z.ltb_ge in E]; lia.
Qed.

Lemma socket_connect_refused_id port st :
  refused 1 (connects (env st)) ->
  next_id (env (snd (socket_connect port st))) = S (next_id (env st))
  /\ heap (env (snd (socket_connect port st))) = heap (env st).
Proof.
  destruct st as [o w]. unfold refused, socket_connect. msimpl. intros Hr.
  mstep. destruct (connects w) as [|[] cs] eqn:Hc; mstep; auto.
Qed.

Lemma get_socket_trials_accepted n interval k : forall a m st cs,
  (a + m = n)%nat -> (k < m)%nat ->
  connects (env st) = (replicate k false ++ true :: cs)%list ->
  exists st',
    get_socket_trials (seq a m) n interval st = (Ret (next_id (env st) + k)%nat, st')
    /\ self st' = self st
    /\ conns (env st') = <[(next_id (env st) + k)%nat := None]> (conns (env st))
    /\ next_id (env st') = S (next_id (env st) + k)
    /\ procs (env st') = procs (env st) /\ replies (env st') = replies (env st)
    /\ files (env st') = files (env st) /\ heap (env st') = heap (env st)
    /\ connects (env st') = cs
    /\ attempts st' = (attempts st + S k)%nat
    /\ sleeps st' = (sleeps st + k)%nat.
Proof.
  induction k as [|k IH]; intros a m st cs Ha Hk Hc.
  - destruct m as [|m]; [lia|]. cbn [seq get_socket_trials replicate app] in *.
    destruct st as [o w]. unfold socket_connect, attempts, sleeps. mstep. rewrite Hc. mstep.
    rewrite Nat.add_0_r. eexists. split; [reflexivity|]. msimpl.
    rewrite !count_ev_snoc. cbn. repeat split; lia.
  - destruct m as [|m]; [lia|]. cbn [seq get_socket_trials replicate app] in *.
    assert (H1 : refused 1 (connects (env st))).
    { rewrite Hc. unfold refused. cbn. repeat constructor. }
    destruct (socket_connect_refused (server_port (self st)) st H1)
      as (st1 & Hconn & Hself & Hconns & Hprocs & Hrep & Hfiles & Hcs & Hatt & Hsl).
    destruct (socket_connect_refused_id (server_port (self st)) st H1) as [Hid Hheap].
    rewrite Hconn in Hid, Hheap. cbn [snd] in Hid, Hheap.
    unfold bind at 1. cbn [get_self]. unfold try_except. rewrite Hconn. cbn [is_socket_error].
    assert (Hlt : (Z.of_nat a <? Z.of_nat n - 1) = true) by (apply Z.ltb_lt; lia).
    rewrite Hlt. cbv beta. unfold bind at 1, time_sleep, emit, modify_world.
    set (st2 := {| self := self st1; env := _ |}).
    destruct (IH (S a) m st2 cs) as
      (st' & Hrun & Hs' & Hc' & Hn' & Hp' & Hr' & Hf' & Hh' & Hcs' & Ha' & Hsl');
      [lia | lia | unfold st2; msimpl; rewrite Hcs, Hc; reflexivity |].
    assert (E : next_id (env st2) = S (next_id (env st))) by (unfold st2; msimpl; exact Hid).
    rewrite E in *. replace (S (next_id (env st)) + k)%nat with (next_id (env st) + S k)%nat in * by lia.
    exists st'. split; [exact Hrun|].
    rewrite Hs', Hc', Hn', Hp', Hr', Hf', Hh', Hcs', Ha', Hsl'.
    unfold st2, attempts, sleeps. msimpl. rewrite !count_ev_snoc. cbn.
    fold (attempts st1) (sleeps st1).
    rewrite Hself, Hconns, Hprocs, Hrep, Hfiles, Hheap, Hatt, Hsl.
    unfold attempts, sleeps. repeat split; lia.
Qed.

(** *** Strings and streams *)

Lemma str_take_all s n : len s <= n -> str_take n s = s /\ str_drop n s = "".
Proof.
  revert n. induction s as [|c s IH]; intros n Hl; [split; reflexivity|].
  unfold len in *. cbn [String.length str_take str_drop] in *.
  destruct (n <=? 0) eqn:E; [apply Z.leb_le in E; lia|].
  destruct (IH (n - 1)) as [-> ->]; [lia|]. split; reflexivity.
Qed.

Lemma len_str_take_le n s : len (str_take n s) <= Z.max n 0.
Proof.
  revert n. induction s as [|c s IH]; intros n; cbn [str_take]; [unfold len; cbn; lia|].
  destruct (n <=? 0) eqn:E; [unfold len; cbn; lia|]. apply Z.leb_gt in E.
  specialize (IH (n - 1)). unfold len in *. cbn [String.length]. lia.
Qed.

Lemma str_app_nil_l (b : string) : "" +:+ b = b.
Proof. reflexivity. Qed.

Lemma str_app_cons c (a b : string) : String c a +:+ b = String c (a +:+ b).
Proof. reflexivity. Qed.

Ltac str_app := rewrite ?str_app_nil_l, ?str_app_cons.
Tactic Notation "str_app_in" hyp(H) := rewrite ?str_app_nil_l, ?str_app_cons in H.

Lemma len_app a b : len (a +:+ b) = len a + len b.
Proof. unfold len. induction a as [|c a IH]; str_app; cbn [String.length]; lia. Qed.

Lemma str_app_assoc (a b c : string) : (a +:+ b) +:+ c = a +:+ (b +:+ c).
Proof. induction a as [|x a IH]; str_app; [reflexivity | rewrite IH; reflexivity]. Qed.

Lemma str_take_app n a b :
  str_take n (a +:+ b) = if n <=? len a then str_take n a else a +:+ str_take (n - len a) b.
Proof.
  revert n. induction a as [|c a IH]; intros n.
  - str_app. change (len "") with 0. rewrite Z.sub_0_r.
    destruct (n <=? 0) eqn:E; [|reflexivity].
    destruct b; cbn [str_take]; [reflexivity | rewrite E; reflexivity].
  - str_app; cbn [str_take]. destruct (n <=? 0) eqn:E.
    + apply Z.leb_le in E. pose proof (len_nonneg (String c a)).
      destruct (n <=? len (String c a)) eqn:E2; [reflexivity | apply Z.leb_gt in E2; lia].
    + rewrite IH. replace (len (String c a)) with (len a + 1) by (unfold len; cbn [String.length]; lia).
      replace (n - 1 <=? len a) with (n <=? len a + 1)
        by (destruct (n <=? len a + 1) eqn:E3; symmetry;
            [apply Z.leb_le; apply Z.leb_le in E3 | apply Z.leb_gt; apply Z.leb_gt in E3]; lia).
      destruct (n <=? len a + 1); [reflexivity|].
      replace (n - 1 - len a) with (n - (len a + 1)) by lia. reflexivity.
Qed.

Lemma str_drop_app n a b :
  str_drop n (a +:+ b) = if n <=? len a then str_drop n a +:+ b else str_drop (n - len a) b.
Proof.
  revert n. induction a as [|c a IH]; intros n.
  - str_app. change (len "") with 0. rewrite Z.sub_0_r.
    destruct (n <=? 0) eqn:E; [|reflexivity].
    destruct b; cbn [str_drop]; [reflexivity | rewrite E; reflexivity].
  - str_app; cbn [str_drop]. destruct (n <=? 0) eqn:E.
    + apply Z.leb_le in E. pose proof (len_nonneg (String c a)).
      destruct (n <=? len (String c a)) eqn:E2; [reflexivity | apply Z.leb_gt in E2; lia].
    + rewrite IH. replace (len (String c a)) with (len a + 1) by (unfold len; cbn [String.length]; lia).
      replace (n - 1 <=? len a) with (n <=? len a + 1)
        by (destruct (n <=? len a + 1) eqn:E3; symmetry;
            [apply Z.leb_le; apply Z.leb_le in E3 | apply Z.leb_gt; apply Z.leb_gt in E3]; lia).
      destruct (n <=? len a + 1); [reflexivity|].
      replace (n - 1 - len a) with (n - (len a + 1)) by lia. reflexivity.
Qed.

Lemma concat_snoc chunks data :
  String.concat "" (chunks ++ [data]) = String.concat "" chunks +:+ data.
Proof.
  induction chunks as [|c [|c' cs] IH]; [reflexivity | | ].
  - cbn [app String.concat]. reflexivity.
  - change (String.concat "" ((c :: c' :: cs) ++ [data]))
      with (c +:+ "" +:+ String.concat "" ((c' :: cs) ++ [data])).
    rewrite IH. change (String.concat "" (c :: c' :: cs))
      with (c +:+ "" +:+ String.concat "" (c' :: cs)).
    str_app. rewrite str_app_assoc. reflexivity.
Qed.

Lemma len_concat chunks : len (String.concat "" chunks) = curlen chunks.
Proof.
  induction chunks as [|c cs IH] using rev_ind; [reflexivity|].
  rewrite concat_snoc, len_app, curlen_snoc, IH. reflexivity.
Qed.

Lemma script_data_pushback rest rs : script_data (pushback rest rs) = rest +:+ script_data rs.
Proof. destruct rest; reflexivity. Qed.

(** *** One read *)

Lemma read_chunk_len_aux sock n st :
  match fst (read_chunk sock n st) with
  | Ret data => len data <= Z.max n 0
  | _ => True
  end.
Proof.
  destruct st as [o w]. unfold read_chunk, sock_recv, outpipe_fp_read.
  pose proof (fun s => len_str_take_le n s) as Ht.
  run; try exact I; try apply Ht; unfold len; cbn; lia.
Qed.

Lemma read_chunk_len sock n st data st' :
  read_chunk sock n st = (Ret data, st') -> len data <= Z.max n 0.
Proof. intros H. pose proof (read_chunk_len_aux sock n st) as Ha. rewrite H in Ha. exact Ha. Qed.

Lemma read_chunk_chunk sock tmo n d data rs st :
  channel_ready st sock tmo -> replies (env st) = Chunk d data :: rs ->
  timed_out tmo d = false -> 0 < n -> n <= INT_MAX ->
  exists st',
    read_chunk sock n st = (Ret (str_take n data), st')
    /\ channel_ready st' sock tmo
    /\ replies (env st') = pushback (str_drop n data) rs
    /\ self st' = self st /\ procs (env st') = procs (env st)
    /\ connects (env st') = connects (env st) /\ conns (env st') = conns (env st)
    /\ files (env st') = files (env st) /\ heap (env st') = heap (env st)
    /\ reads st' = S (reads st) /\ sleeps st' = sleeps st /\ sent st' = sent st.
Proof.
  intros Hready Hr Hd Hn Hmax.
  assert (Hn' : (n <=? 0) = false) by (apply Z.leb_gt; lia).
  destruct (within_int n Hmax) as [Hi Hl].
  destruct st as [o w]. unfold read_chunk. mstep.
  destruct Hready as [[Hm (fd & t & -> & -> & Ht0 & Hc)] | [Hm [-> [path Hfp]]]];
    msimpl; rewrite Hm; cbn [String.eqb Ascii.eqb Bool.eqb]; cbv iota.
  - unfold sock_recv. rewrite Hi. mstep. rewrite Hn'. mstep. rewrite Hc, Hr. rewrite Hd. mstep.
    eexists. split; [reflexivity|]. msimpl. unfold reads, sleeps, sent. msimpl.
    rewrite !count_ev_snoc, flat_map_app. cbn [is_read is_sleep flat_map sent_of].
    rewrite !app_nil_r.
    split; [left; msimpl; split; [assumption|]; exists fd, t; auto|].
    repeat split; lia.
  - unfold outpipe_fp_read. mstep. rewrite Hfp, Hl. mstep. rewrite Hn'. mstep. rewrite Hr. mstep.
    eexists. split; [reflexivity|]. msimpl. unfold reads, sleeps, sent. msimpl.
    rewrite !count_ev_snoc, flat_map_app. cbn [is_read is_sleep flat_map sent_of].
    rewrite !app_nil_r.
    split; [right; msimpl; repeat split; eauto|].
    repeat split; lia.
Qed.

(** *** The accumulation loop *)

Lemma recv_loop_stream sock tmo size : forall rs fuel chunks st,
  channel_ready st sock tmo -> replies (env st) = rs -> all_arrive tmo rs ->
  0 < size - curlen chunks <= script_bytes rs -> size <= INT_MAX ->
  (length chunks + length rs <= 1001)%nat -> (length rs <= fuel)%nat ->
  exists st',
    recv_loop fuel sock size chunks st
    = (Ret (Some (String.concat "" chunks
                  +:+ str_take (size - curlen chunks) (script_data rs))), st')
    /\ script_data (replies (env st')) = str_drop (size - curlen chunks) (script_data rs)
    /\ self st' = self st /\ procs (env st') = procs (env st)
    /\ connects (env st') = connects (env st) /\ conns (env st') = conns (env st)
    /\ files (env st') = files (env st) /\ heap (env st') = heap (env st)
    /\ sent st' = sent st
    /\ (reads st' <= reads st + length rs)%nat.
Proof.
  induction rs as [|[d data|] rs IH];
    intros fuel chunks st Hready Hrs Harr Hsz Hmax Hcap Hfuel;
    pose proof (curlen_nonneg chunks) as Hcl.
  - cbn in Hsz. lia.
  - destruct fuel as [|fuel]; [cbn in Hfuel; lia|].
    unfold all_arrive in Harr. cbn [forallb arrives] in Harr.
    apply andb_prop in Harr as [Hd Harr]. apply negb_true_iff in Hd.
    rewrite recv_loop_unfold.
    destruct (read_chunk_chunk sock tmo (size - curlen chunks) d data rs st Hready Hrs Hd)
      as (st1 & -> & Hready1 & Hrs1 & Hself & Hprocs & Hconn & Hconns & Hfiles & Hheap
          & Hreads & Hsleeps & Hsent); [lia | lia |].
    cbv zeta. rewrite curlen_snoc. cbn [script_data fold_right]. fold (script_data rs).
    cbn [script_bytes fold_right] in Hsz. fold (script_bytes rs) in Hsz.
    rewrite str_take_app, str_drop_app.
    destruct (size - curlen chunks <=? len data) eqn:Hfit.
    + apply Z.leb_le in Hfit.
      assert (Hl : len (str_take (size - curlen chunks) data) = size - curlen chunks)
        by (apply len_take; lia).
      rewrite Hl. replace (size <=? curlen chunks + (size - curlen chunks)) with true
        by (symmetry; apply Z.leb_le; lia).
      exists st1. rewrite concat_snoc. split; [reflexivity|].
      rewrite Hrs1, script_data_pushback, Hself, Hprocs, Hconn, Hconns, Hfiles, Hheap, Hsent.
      cbn [length]. repeat split; lia.
    + apply Z.leb_gt in Hfit.
      destruct (str_take_all data (size - curlen chunks)) as [Ht Hdr]; [lia|].
      rewrite Ht, Hdr in *. cbn [pushback] in Hrs1.
      replace (size <=? curlen chunks + len data) with false
        by (symmetry; apply Z.leb_gt; lia).
      assert (Hne : (1 <= length rs)%nat).
      { destruct rs; [cbn in Hsz; lia | cbn [length]; lia]. }
      rewrite length_app. cbn [length] in *.
      replace (1000 <? Z.of_nat (length chunks + 1)) with false
        by (symmetry; apply Z.ltb_ge; lia).
      fold (slept 10 st1).
      destruct (IH fuel (chunks ++ [data])%list (slept 10 st1)) as
        (st' & Hrun & Hdata & Hs' & Hp' & Hc' & Hcn' & Hf' & Hh' & Hsn' & Hr');
        [exact Hready1 | exact Hrs1 | exact Harr | rewrite curlen_snoc; lia | exact Hmax
        | rewrite length_app; cbn [length]; lia | lia |].
      exists st'. rewrite Hrun, concat_snoc, curlen_snoc, str_app_assoc.
      replace (size - (curlen chunks + len data)) with (size - curlen chunks - len data) by lia.
      split; [reflexivity|].
      rewrite curlen_snoc in Hdata.
      replace (size - (curlen chunks + len data)) with (size - curlen chunks - len data)
        in Hdata by lia.
      rewrite Hdata, Hs', Hp', Hc', Hcn', Hf', Hh', Hsn'.
      unfold slept, reads, sent in *. msimpl. rewrite count_ev_snoc in Hr'. cbn [is_read] in Hr'.
      rewrite flat_map_app. cbn [flat_map sent_of]. rewrite !app_nil_r.
      rewrite <- Hself, <- Hprocs, <- Hconn, <- Hconns, <- Hfiles, <- Hheap, <- Hsent.
      repeat split; lia.
  - unfold all_arrive in Harr. cbn in Harr. discriminate.
Qed.

(** *** A whole call *)

Lemma sent_socket_call_state st cmd timeout cs rs :
  sent (socket_call_state st cmd timeout cs rs) = (sent st ++ [cmd +:+ NL])%list.
Proof. unfold sent, socket_call_state. msimpl. rewrite flat_map_app. reflexivity. Qed.

Lemma sent_pipe_call_state st pid path cmd rs :
  sent (pipe_call_state st pid path cmd rs) = (sent st ++ [cmd +:+ NL])%list.
Proof. unfold sent, pipe_call_state. msimpl. rewrite flat_map_app. reflexivity. Qed.

Lemma sent_dropped sock st : sent (dropped sock st) = sent st.
Proof.
  destruct sock as [fd|]; [|reflexivity]. unfold sent, dropped, reclaimed. msimpl.
  rewrite flat_map_app. cbn [flat_map sent_of]. rewrite !app_nil_r. reflexivity.
Qed.

Lemma timed_out_call_ready st timeout d tmo :
  call_ready st timeout d tmo -> timed_out tmo 0 = false.
Proof.
  intros [(_ & _ & Ht & _ & ->) | (_ & _ & _ & ->)]; [|reflexivity].
  cbn [timed_out]. apply Z.ltb_ge. exact Ht.
Qed.

(** Up to the header: the command is out, the header is in, the loop
    starts on what is left of the channel. *)
Lemma call_header fuel cmd timeout st d data rs tmo :
  replies (env st) = Chunk d data :: rs -> 8 <= len data ->
  call_ready st timeout d tmo ->
  exists sock st0,
    send_command_and_get_string_result fuel cmd timeout st
    = (result <- recv_loop fuel sock (be_value (str_take 8 data)) [] ;;
       drop_local sock ;;
       ret result) st0
    /\ channel_ready st0 sock tmo
    /\ replies (env st0) = pushback (str_drop 8 data) rs
    /\ self st0 = self st /\ procs (env st0) = procs (env st)
    /\ files (env st0) = files (env st) /\ heap (env st0) = heap (env st)
    /\ sent st0 = (sent st ++ [cmd +:+ NL])%list
    /\ reads st0 = S (reads st) /\ sleeps st0 = sleeps st
    /\ connects (env st0) = call_connects st.
Proof.
  intros Hr Hlen [(Hm & [cs Hc] & Ht & Hd & ->) | (Hm & (pid & Hp & Hrun) & [path Hfp] & ->)].
  - exists (Some (next_id (env st))),
      (socket_call_state st cmd timeout cs (pushback (str_drop 8 data) rs)).
    split; [apply (send_socket_header fuel cmd timeout st cs Hm Hc Ht d data rs Hr Hd Hlen)|].
    split; [apply socket_call_state_ready; assumption|].
    rewrite sent_socket_call_state, reads_socket_call_state, sleeps_socket_call_state.
    unfold call_connects. rewrite Hm, Hc. repeat split.
  - exists None, (pipe_call_state st pid path cmd (pushback (str_drop 8 data) rs)).
    split; [apply (send_pipe_header fuel cmd timeout st pid path Hm Hp Hrun Hfp d data rs Hr Hlen)|].
    split; [right; repeat split; [exact Hm | exists path; exact Hfp]|].
    rewrite sent_pipe_call_state, reads_pipe_call_state.
    unfold call_connects. rewrite Hm.
    split; [reflexivity|]. split; [reflexivity|]. split; [reflexivity|].
    split; [reflexivity|]. split; [reflexivity|]. split; [reflexivity|]. split; [reflexivity|].
    split; [|reflexivity].
    unfold sleeps, pipe_call_state, count_ev. msimpl.
    rewrite List.filter_app, length_app. cbn. lia.
Qed.

Lemma length_pushback rest rs : (length (pushback rest rs) <= S (length rs))%nat.
Proof. destruct rest; cbn [pushback length]; lia. Qed.

Lemma str_take_8_stream d data rs :
  8 <= len data -> str_take 8 (script_data (Chunk d data :: rs)) = str_take 8 data.
Proof.
  intros H. cbn [script_data fold_right]. rewrite str_take_app.
  replace (8 <=? len data) with true by (symmetry; apply Z.leb_le; exact H). reflexivity.
Qed.

Lemma str_drop_8_stream d data rs :
  8 <= len data ->
  str_drop 8 (script_data (Chunk d data :: rs)) = str_drop 8 data +:+ script_data rs.
Proof.
  intros H. cbn [script_data fold_right]. rewrite str_drop_app.
  replace (8 <=? len data) with true by (symmetry; apply Z.leb_le; exact H). reflexivity.
Qed.

(** A served call returns the announced number of bytes that follow the
    header in the stream and leaves the rest of the stream in place. *)
Lemma call_served fuel cmd timeout st :
  served_call st timeout -> (1001 <= fuel)%nat ->
  let stream := script_data (replies (env st)) in
  let n := be_value (str_take 8 stream) in
  exists st',
    send_command_and_get_string_result fuel cmd timeout st
    = (Ret (Some (str_take n (str_drop 8 stream))), st')
    /\ script_data (replies (env st')) = str_drop n (str_drop 8 stream)
    /\ self st' = self st /\ procs (env st') = procs (env st)
    /\ files (env st') = files (env st) /\ heap (env st') = heap (env st)
    /\ sent st' = (sent st ++ [cmd +:+ NL])%list.
Proof.
  intros (d & data & rs & tmo & Hr & Hlen & Hready & Harr & Hsz & Hmax & Hcap) Hfuel stream n.
  unfold n, stream. rewrite Hr, (str_take_8_stream d data rs Hlen),
    (str_drop_8_stream d data rs Hlen).
  destruct (call_header fuel cmd timeout st d data rs tmo Hr Hlen Hready)
    as (sock & st0 & -> & Hch & Hr0 & Hs0 & Hp0 & Hf0 & Hh0 & Hsn0 & _ & _ & _).
  pose proof (length_pushback (str_drop 8 data) rs) as Hlp.
  destruct (recv_loop_stream sock tmo (be_value (str_take 8 data))
              (pushback (str_drop 8 data) rs) fuel [] st0 Hch Hr0)
    as (st' & Hrun & Hdata & Hs' & Hp' & _ & _ & Hf' & Hh' & Hsn' & _).
  - apply all_arrive_pushback; [apply (timed_out_call_ready _ _ _ _ Hready) | exact Harr].
  - rewrite script_bytes_pushback. cbn [curlen fold_right]. lia.
  - exact Hmax.
  - cbn [length]. lia.
  - lia.
  - cbn [curlen fold_right String.concat] in Hrun, Hdata. rewrite Z.sub_0_r in Hrun, Hdata.
    rewrite script_data_pushback in Hrun, Hdata. str_app_in Hrun.
    exists (dropped sock st'). rewrite (call_returns _ _ _ _ _ Hrun), sent_dropped.
    destruct (dropped_facts sock st') as (-> & -> & -> & -> & -> & _).
    rewrite Hdata, Hs', Hp', Hf', Hh', Hsn', Hs0, Hp0, Hf0, Hh0, Hsn0.
    repeat split.
Qed.

(** The payload comes in the segment that brought the header. *)
Lemma recv_loop_single fuel sock tmo size d data rest st :
  channel_ready st sock tmo -> replies (env st) = Chunk d data :: rest ->
  timed_out tmo d = false -> 0 < size -> len data = size -> size <= INT_MAX ->
  exists st',
    recv_loop (S fuel) sock size [] st = (Ret (Some data), st')
    /\ replies (env st') = rest
    /\ self st' = self st /\ procs (env st') = procs (env st)
    /\ connects (env st') = connects (env st)
    /\ files (env st') = files (env st) /\ heap (env st') = heap (env st)
    /\ sent st' = sent st /\ sleeps st' = sleeps st.
Proof.
  intros Hready Hr Hd Hsize Hlen Hmax. rewrite recv_loop_unfold.
  cbn [curlen fold_right]. rewrite Z.sub_0_r.
  destruct (read_chunk_chunk sock tmo size d data rest st Hready Hr Hd Hsize Hmax)
    as (st1 & -> & _ & Hrs1 & Hself & Hprocs & Hconn & _ & Hfiles & Hheap & _ & Hsl & Hsent).
  destruct (str_take_all data size) as [Ht Hdr]; [lia|]. rewrite Ht, Hdr in *.
  cbn [pushback] in Hrs1. cbv zeta. cbn [app curlen fold_right]. rewrite Z.add_0_r, Hlen, Z.leb_refl.
  exists st1. cbn [String.concat]. repeat split; assumption.
Qed.

Lemma call_one_chunk fuel cmd timeout st d data rest tmo :
  replies (env st) = Chunk d data :: rest -> 8 <= len data ->
  be_value (str_take 8 data) = len (str_drop 8 data) -> 0 < len (str_drop 8 data) ->
  len (str_drop 8 data) <= INT_MAX ->
  call_ready st timeout d tmo ->
  exists st',
    send_command_and_get_string_result (S fuel) cmd timeout st
    = (Ret (Some (str_drop 8 data)), st')
    /\ replies (env st') = rest
    /\ self st' = self st /\ procs (env st') = procs (env st)
    /\ connects (env st') = call_connects st
    /\ files (env st') = files (env st) /\ heap (env st') = heap (env st)
    /\ sent st' = (sent st ++ [cmd +:+ NL])%list /\ sleeps st' = sleeps st.
Proof.
  intros Hr Hlen Hval Hpos Hmax Hready.
  destruct (call_header (S fuel) cmd timeout st d data rest tmo Hr Hlen Hready)
    as (sock & st0 & -> & Hch & Hr0 & Hs0 & Hp0 & Hf0 & Hh0 & Hsn0 & _ & Hsl0 & Hc0).
  assert (Hpb : pushback (str_drop 8 data) rest = Chunk 0 (str_drop 8 data) :: rest).
  { destruct (str_drop 8 data); [unfold len in Hpos; cbn in Hpos; lia | reflexivity]. }
  rewrite Hpb in Hr0. rewrite Hval.
  destruct (recv_loop_single fuel sock tmo (len (str_drop 8 data)) 0 (str_drop 8 data) rest st0
              Hch Hr0 (timed_out_call_ready _ _ _ _ Hready) Hpos eq_refl Hmax)
    as (st' & Hrun & Hrs & Hs' & Hp' & Hc' & Hf' & Hh' & Hsn' & Hsl').
  exists (dropped sock st'). rewrite (call_returns _ _ _ _ _ Hrun), sent_dropped.
  destruct (dropped_facts sock st') as (-> & -> & -> & -> & -> & -> & _ & _ & ->).
  rewrite Hrs, Hs', Hp', Hc', Hf', Hh', Hsn', Hsl',
    Hs0, Hp0, Hc0, Hf0, Hh0, Hsn0, Hsl0.
  repeat split.
Qed.

Lemma send_pipe_short fuel cmd timeout st pid path d data rs :
  comm_mode (self st) = "PIPE" -> proc (self st) = Some pid ->
  procs (env st) !! pid = Some Running -> outpipe_fp (self st) = Some path ->
  replies (env st) = Chunk d data :: rs -> len data < 8 ->
  send_command_and_get_string_result fuel cmd timeout st =
  (Raise StructError, pipe_call_state st pid path cmd (pushback (str_drop 8 data) rs)).
Proof.
  intros Hmode Hproc Hrun Hfp Hr Hlen.
  unfold send_command_and_get_string_result. unfold bind at 1. unfold get_self at 1.
  rewrite Hmode. cbn [String.eqb Ascii.eqb Bool.eqb]. cbv iota.
  destruct st as [o w]. msimpl.
  unfold stdin_write, outpipe_fp_read, struct_unpack_Q. mstep.
  rewrite Hproc. mstep. rewrite Hrun. mstep. rewrite Hfp.
  change (LONG_MAX <? 8) with false. cbv iota. mstep.
  change (8 <=? 0) with false. cbv iota. mstep. rewrite Hr. mstep.
  assert (Hne : Nat.eqb (String.length (str_take 8 data)) 8 = false).
  { apply Nat.eqb_neq. pose proof (len_take_drop 8 data). pose proof (len_nonneg (str_drop 8 data)).
    unfold len in *. lia. }
  rewrite Hne. unfold pipe_call_state. msimpl.
  rewrite <- !app_assoc. reflexivity.
Qed.

Lemma call_short_header fuel cmd timeout st d data rs tmo :
  replies (env st) = Chunk d data :: rs -> len data < 8 ->
  call_ready st timeout d tmo ->
  exists st',
    send_command_and_get_string_result fuel cmd timeout st = (Raise StructError, st')
    /\ replies (env st') = rs /\ reads st' = S (reads st)
    /\ sent st' = (sent st ++ [cmd +:+ NL])%list.
Proof.
  intros Hr Hlen [(Hm & [cs Hc] & Ht & Hd & ->) | (Hm & (pid & Hp & Hrun) & [path Hfp] & ->)].
  - rewrite (send_socket_short fuel cmd timeout st cs Hm Hc Ht d data rs Hr Hd Hlen).
    eexists. split; [reflexivity|].
    rewrite sent_socket_call_state, reads_socket_call_state.
    destruct (str_take_all data 8) as [_ ->]; [lia|]. repeat split.
  - rewrite (send_pipe_short fuel cmd timeout st pid path d data rs Hm Hp Hrun Hfp Hr Hlen).
    eexists. split; [reflexivity|].
    rewrite sent_pipe_call_state, reads_pipe_call_state.
    destruct (str_take_all data 8) as [_ ->]; [lia|]. repeat split.
Qed.

(** *** [command] *)

Lemma allocates_refl st : allocates st st.
Proof. unfold allocates. repeat split; lia. Qed.

Lemma allocates_trans a b c : allocates a b -> allocates b c -> allocates a c.
Proof.
  intros (H1 & H2 & H3 & H4 & H5 & H6 & H7 & H8) (G1 & G2 & G3 & G4 & G5 & G6 & G7 & G8).
  unfold allocates. repeat split; try congruence. lia.
Qed.

Ltac alloc_auto :=
  repeat first [pres_step allocates_refl allocates_trans | solve [eauto with pres]].

Ltac alloc_leaf := unfold allocates; msimpl; repeat split; lia.

Lemma allocates_command (P : platform) mode configfile configdict cm server_port outpipe
    classpath :
  preserves allocates (command P mode configfile configdict cm server_port outpipe classpath).
Proof.
  unfold command.
  apply (preserves_bind _ allocates_trans); [alloc_auto | intros _].
  apply (preserves_bind _ allocates_trans); [| intros c; alloc_auto].
  destruct (truthy mode); [|alloc_auto].
  intros [o w]. mstep.
  destruct configdict as [c|]; mstep.
  - destruct (heap w !! c) as [d0|]; mstep; [|alloc_leaf].
    destruct (bool_decide (is_Some (d0 !! "annotators"))); mstep; [alloc_leaf|].
    destruct (MODES !! default "" mode) as [info|]; mstep; alloc_leaf.
  - destruct (MODES !! default "" mode) as [info|]; mstep; alloc_leaf.
Qed.

Lemma str_replace_gone old new s :
  old <> new -> str_contains old (str_replace old new s) = false.
Proof.
  intros Hne. unfold str_contains.
  induction s as [|c s IH]; cbn [str_replace list_ascii_of_string existsb]; [reflexivity|].
  rewrite IH, orb_false_r.
  destruct (Ascii.eqb c old) eqn:E.
  - apply Ascii.eqb_neq. exact Hne.
  - rewrite Ascii.eqb_sym. exact E.
Qed.

Lemma command_result (P : platform) mode configfile configdict cm server_port outpipe
    classpath st s st' :
  command P mode configfile configdict cm server_port outpipe classpath st = (Ret s, st') ->
  exists comm_info more_config, s = COMMAND_format classpath comm_info more_config.
Proof.
  unfold command. intros H.
  apply bind_ret_inv in H as (? & st1 & _ & H).
  apply bind_ret_inv in H as (cd & st2 & _ & H).
  apply bind_ret_inv in H as (w & st3 & _ & H).
  apply bind_ret_inv in H as (mc & st4 & _ & H).
  apply bind_ret_inv in H as (ci & st5 & _ & H).
  inversion H. eauto.
Qed.

(** A dictionary that already has [annotators] is refused when a mode is
    given, before anything is changed. *)
Lemma command_rejects (P : platform) m configfile r cm server_port outpipe classpath d st :
  truthy (Some m) = true -> heap (env st) !! r = Some d -> is_Some (d !! "annotators") ->
  command P (Some m) configfile (Some r) cm server_port outpipe classpath st
  = (Raise AssertionError, st).
Proof.
  intros Hm Hd Hann. unfold command. destruct st as [o w]. msimpl.
  rewrite Hm. mstep. rewrite Hd. mstep.
  rewrite bool_decide_eq_true_2 by exact Hann. reflexivity.
Qed.

(** *** [kill_proc_if_running] *)

Lemma kill_proc_known st :
  known st ->
  exists st0,
    kill_proc_if_running st = (Ret tt, st0)
    /\ self st0 = self st /\ stopped st0
    /\ files (env st0) = files (env st) /\ conns (env st0) = conns (env st)
    /\ connects (env st0) = connects (env st) /\ replies (env st0) = replies (env st)
    /\ heap (env st0) = heap (env st) /\ next_id (env st0) = next_id (env st)
    /\ sleeps st0 = sleeps st /\ attempts st0 = attempts st /\ sent st0 = sent st
    /\ (forall pid, proc (self st) = Some pid -> halted st0 pid)
    /\ (forall pid, proc (self st) <> Some pid -> procs (env st0) !! pid = procs (env st) !! pid)
    /\ (settled st -> st0 = st).
Proof.
  intros Hk. destruct st as [o w]. unfold known in Hk. msimpl.
  unfold kill_proc_if_running, proc_poll, os_kill. mstep.
  destruct (proc o) as [pid|] eqn:Hp; mstep.
  - destruct (Hk pid eq_refl) as [s Hs]. rewrite Hs.
    assert (Hnot : forall s0, s0 <> s -> (forall rc, s <> Exited rc) ->
              settled {| self := o; env := w |} -> s0 = s).
    { intros s0 _ Hne [Hn | (pid' & rc & Hp' & Hr')]; msimpl; [congruence|].
      rewrite Hp in Hp'. injection Hp' as <-. rewrite Hs in Hr'. injection Hr' as ->.
      exfalso. exact (Hne rc eq_refl). }
    destruct s as [|rc|rc [|lag]]; mstep; rewrite ?Hs, ?lookup_insert_eq; mstep;
      (eexists; split; [reflexivity|]); msimpl;
      unfold stopped, halted, sleeps, attempts, sent; msimpl;
      rewrite ?count_ev_snoc, ?flat_map_app; cbn [is_sleep is_connect flat_map sent_of];
      rewrite ?app_nil_r, ?Nat.add_0_r, ?Hp;
      (split; [reflexivity|]).
    + split; [right; exists pid; split; [reflexivity|]; exists (- 9); right;
              eexists; apply lookup_insert_eq|].
      do 9 (split; [reflexivity|]).
      split; [intros pid' [= <-]; exists (- 9); right; eexists; apply lookup_insert_eq|].
      split; [intros pid' Hne; apply lookup_insert_ne; congruence|].
      intros Hset. specialize (Hnot (Exited 0) ltac:(discriminate) ltac:(discriminate) Hset).
      discriminate.
    + split; [right; exists pid; split; [reflexivity|]; exists rc; left; exact Hs|].
      do 9 (split; [reflexivity|]).
      split; [intros pid' [= <-]; exists rc; left; exact Hs|].
      split; [reflexivity | reflexivity].
    + split; [right; exists pid; split; [reflexivity|]; exists rc; left;
              apply lookup_insert_eq|].
      do 9 (split; [reflexivity|]).
      split; [intros pid' [= <-]; exists rc; left; apply lookup_insert_eq|].
      split; [intros pid' Hne; apply lookup_insert_ne; congruence|].
      intros Hset. specialize (Hnot (Exited 0) ltac:(discriminate) ltac:(discriminate) Hset).
      discriminate.
    + split; [right; exists pid; split; [reflexivity|]; exists rc; right;
              eexists; apply lookup_insert_eq|].
      do 9 (split; [reflexivity|]).
      split; [intros pid' [= <-]; exists rc; right; eexists; apply lookup_insert_eq|].
      split; [intros pid' Hne; apply lookup_insert_ne; congruence|].
      intros Hset. specialize (Hnot (Exited 0) ltac:(discriminate) ltac:(discriminate) Hset).
      discriminate.
  - eexists. split; [reflexivity|]. unfold stopped. msimpl. rewrite ?Hp.
    split; [reflexivity|]. split; [left; reflexivity|].
    do 9 (split; [reflexivity|]).
    split; [discriminate|]. split; reflexivity.
Qed.

(** *** Startup, step by step *)

Section Startup.

Variable P : platform.

Lemma command_mode_only m info configfile cm server_port outpipe classpath st :
  MODES !! m = Some info -> quote_free P info -> cm = "SOCKET" \/ cm = "PIPE" ->
  exists cmd st1,
    command P (Some m) configfile None cm server_port outpipe classpath st = (Ret cmd, st1)
    /\ allocates st st1.
Proof.
  intros Hmode Hq Hcm.
  pose proof (allocates_command P (Some m) configfile None cm server_port outpipe classpath st)
    as Halloc.
  assert (Hne : mode_config info <> ∅) by apply insert_non_empty.
  destruct (command P (Some m) configfile None cm server_port outpipe classpath st)
    as [r st1] eqn:Hrun. cbn [snd] in Halloc.
  enough (exists cmd, r = Ret cmd) as [cmd ->] by (exists cmd, st1; split; [reflexivity | exact Halloc]).
  apply (f_equal fst) in Hrun. cbn [fst] in Hrun. rewrite <- Hrun. clear Hrun Halloc.
  unfold command. destruct st as [o w]. msimpl.
  rewrite (MODES_nonempty m info Hmode). mstep.
  change (default "" (Some m)) with m. rewrite Hmode. mstep.
  cbn [mbind option_bind]. msimpl.
  rewrite lookup_alter_eq, lookup_insert_eq. cbn [fmap option_fmap option_map].
  fold (mode_config info).
  rewrite (bool_decide_eq_false_2 _ Hne).
  unfold quote_free in Hq.
  destruct (truthy configfile); mstep; rewrite Hq; mstep;
    (destruct Hcm as [-> | ->]; cbn [String.eqb Ascii.eqb Bool.eqb]; mstep; eauto).
Qed.

Lemma spawn_steps {A} cmd (k : M A) st :
  (pid <- subprocess_Popen cmd ;; set_proc (Some pid) ;;
   time_sleep STARTUP_BUSY_WAIT_INTERVAL_SEC ;; k) st
  = k (spawned st cmd).
Proof.
  destruct st as [o w]. unfold subprocess_Popen, set_proc, spawned. mstep.
  rewrite <- !app_assoc. reflexivity.
Qed.

Lemma probe_steps {A} (k : M A) st cs :
  connects (env st) = true :: cs ->
  ((sock <- get_socket 100 STARTUP_BUSY_WAIT_INTERVAL_SEC ;; sock_close sock) ;; k) st
  = k (probed st cs).
Proof.
  intros Hc. unfold bind at 1. unfold bind at 1.
  rewrite (get_socket_first 99 STARTUP_BUSY_WAIT_INTERVAL_SEC st cs Hc).
  destruct st as [o w]. unfold sock_close, probed. mstep.
  rewrite <- !app_assoc. reflexivity.
Qed.

(** A SOCKET-mode session configured by a mode alone gets as far as the
    probe: the old worker is dealt with, the command is built, the new
    worker spawned. *)
Lemma start_server_socket_spawns fuel st :
  known st -> comm_mode (self st) = "SOCKET" -> mode_only P (self st) ->
  exists cmd st0 st1,
    kill_proc_if_running st = (Ret tt, st0)
    /\ allocates st0 st1
    /\ start_server P (S fuel) st
       = ((sock <- get_socket 100 STARTUP_BUSY_WAIT_INTERVAL_SEC ;; sock_close sock) ;;
          ping_loop (send_command_and_parse_result_with P (start_server P fuel) fuel PING 2000
                       false) fuel) (spawned st1 cmd).
Proof.
  intros Hk Hm (Hcd & m & info & Hmo & Hmodes & Hq).
  destruct (kill_proc_known st Hk) as (st0 & Hkill & Hs0 & _).
  destruct (command_mode_only m info (configfile (self st)) "SOCKET" (server_port (self st))
              (outpipe (self st)) (classpath (self st)) st0 Hmodes Hq)
    as (cmd & st1 & Hcmd & Halloc); [left; reflexivity|].
  exists cmd, st0, st1. split; [exact Hkill|]. split; [exact Halloc|].
  cbn [start_server]. rewrite (bind_ret_eq _ _ st tt st0 Hkill).
  unfold bind at 1. cbn [get_self]. rewrite Hs0, Hm, Hmo, Hcd.
  cbn [String.eqb Ascii.eqb Bool.eqb]. unfold bind at 1. cbn [ret].
  rewrite (bind_ret_eq _ _ st0 cmd st1 Hcmd).
  rewrite spawn_steps. reflexivity.
Qed.

End Startup.

Lemma trace_sleeps st st' : trace (env st') = trace (env st) -> sleeps st' = sleeps st.
Proof. unfold sleeps. intros ->. reflexivity. Qed.

Lemma trace_sent st st' : trace (env st') = trace (env st) -> sent st' = sent st.
Proof. unfold sent. intros ->. reflexivity. Qed.

Lemma trace_attempts st st' : trace (env st') = trace (env st) -> attempts st' = attempts st.
Proof. unfold attempts. intros ->. reflexivity. Qed.

Lemma spawned_facts st cmd :
  live (spawned st cmd)
  /\ proc (self (spawned st cmd)) = Some (next_id (env st))
  /\ comm_mode (self (spawned st cmd)) = comm_mode (self st)
  /\ connects (env (spawned st cmd)) = connects (env st)
  /\ replies (env (spawned st cmd)) = replies (env st)
  /\ sleeps (spawned st cmd) = S (sleeps st)
  /\ attempts (spawned st cmd) = attempts st
  /\ sent (spawned st cmd) = sent st.
Proof.
  unfold spawned, live, sleeps, attempts, sent, count_ev. msimpl.
  rewrite !List.filter_app, !length_app, flat_map_app. cbn. rewrite app_nil_r.
  split; [exists (next_id (env st)); split; [reflexivity | apply lookup_insert_eq]|].
  repeat split; lia.
Qed.

Lemma probed_facts st cs :
  self (probed st cs) = self st
  /\ procs (env (probed st cs)) = procs (env st)
  /\ connects (env (probed st cs)) = cs
  /\ replies (env (probed st cs)) = replies (env st)
  /\ sleeps (probed st cs) = sleeps st
  /\ attempts (probed st cs) = S (attempts st)
  /\ sent (probed st cs) = sent st.
Proof.
  unfold probed, sleeps, attempts, sent, count_ev. msimpl.
  rewrite !List.filter_app, !length_app, flat_map_app. cbn. rewrite app_nil_r.
  repeat split; lia.
Qed.

Lemma live_same st st' :
  self st' = self st -> procs (env st') = procs (env st) -> live st -> live st'.
Proof. intros Hs Hp (pid & H1 & H2). exists pid. rewrite Hs, Hp. split; assumption. Qed.

Lemma settled_known st : settled st -> known st.
Proof.
  intros [Hn | (pid & rc & Hp & Hr)] pid' Hp'; [congruence|].
  assert (pid' = pid) as -> by congruence. rewrite Hr. eauto.
Qed.

Lemma ensure_settled start st :
  settled st -> ensure_proc_is_running_with start st = start st.
Proof.
  intros Hs. unfold ensure_proc_is_running_with, proc_poll. destruct st as [o w].
  unfold settled in Hs. msimpl. mstep.
  destruct Hs as [-> | (pid & rc & -> & Hr)]; [reflexivity|]. mstep. rewrite Hr. reflexivity.
Qed.

(** *** The probe is never answered *)

Lemma start_server_probe_fails (P : platform) (fuel : nat) (st : state) :
  known st -> comm_mode (self st) = "SOCKET" -> mode_only P (self st) ->
  refused 100 (connects (env st)) ->
  exists st',
    start_server P (S fuel) st = (Raise AssertionError, st')
    /\ live st'
    /\ attempts st' = (attempts st + 100)%nat
    /\ sleeps st' = (sleeps st + 100)%nat.
Proof.
  intros Hk Hm Hmo Href.
  destruct (start_server_socket_spawns P fuel st Hk Hm Hmo)
    as (cmd & st0 & st1 & Hkill & Halloc & ->).
  destruct (kill_proc_known st Hk)
    as (st0' & Hkill' & Hs0 & _ & _ & _ & Hc0 & _ & _ & Hn0 & Hsl0 & Hat0 & _).
  rewrite Hkill in Hkill'. injection Hkill' as <-.
  destruct Halloc as (Hs1 & _ & Hp1 & _ & Hc1 & _ & Ht1 & Hn1).
  destruct (spawned_facts st1 cmd) as (Hlive & Hproc & _ & Hc2 & _ & Hsl2 & Hat2 & _).
  destruct (get_socket_trials_refused 100 STARTUP_BUSY_WAIT_INTERVAL_SEC 100 0%nat
              (spawned st1 cmd))
    as (st' & Hrun & Hself & _ & Hprocs & _ & _ & _ & Hatt & Hsl);
    [lia | rewrite Hc2, Hc1, Hc0; exact Href |].
  exists st'. split.
  - unfold bind at 1. unfold bind at 1. unfold get_socket. rewrite Hrun. reflexivity.
  - split; [exact (live_same _ _ Hself Hprocs Hlive)|].
    rewrite Hatt, Hsl, Hat2, Hsl2, (trace_attempts _ _ Ht1), (trace_sleeps _ _ Ht1), Hat0, Hsl0.
    split; lia.
Qed.


(** The PIPE-mode step before the command is built: the fifo is created
    unless it is there. *)
Lemma fifo_step o st :
  (comm_mode o = "PIPE" -> is_Some (outpipe o)) ->
  exists st1,
    (if String.eqb (comm_mode o) "PIPE" then
       match outpipe o with
       | Some p => ex <- os_path_exists p ;; if ex then ret tt else os_mkfifo p
       | None => raise TypeError
       end
     else ret tt) st = (Ret tt, st1)
    /\ self st1 = self st /\ heap (env st1) = heap (env st)
    /\ procs (env st1) = procs (env st) /\ next_id (env st1) = next_id (env st)
    /\ connects (env st1) = connects (env st) /\ replies (env st1) = replies (env st)
    /\ conns (env st1) = conns (env st)
    /\ sent st1 = sent st /\ sleeps st1 = sleeps st
    /\ (forall p, outpipe o = Some p -> comm_mode o = "PIPE" ->
          files (env st1) = {[p]} ∪ files (env st)).
Proof.
  intros Hop. destruct st as [o' w]. destruct (String.eqb_spec (comm_mode o) "PIPE") as [Hm|Hm].
  - destruct (Hop Hm) as [p Hp]. rewrite Hp. unfold os_mkfifo, os_path_exists. mstep.
    destruct (bool_decide (p ∈ files w)) eqn:Hex; mstep.
    + apply bool_decide_eq_true_1 in Hex. eexists. split; [reflexivity|].
      do 9 (split; [reflexivity|]).
      intros q [= <-] _. msimpl. apply set_eq. intros x.
      rewrite elem_of_union, elem_of_singleton.
      split; [auto | intros [-> | Hx]; assumption].
    + rewrite Hex. mstep. eexists. split; [reflexivity|]. msimpl.
      unfold sent, sleeps. msimpl. rewrite count_ev_snoc, flat_map_app. cbn [is_sleep flat_map sent_of].
      rewrite app_nil_r, Nat.add_0_r.
      do 9 (split; [reflexivity|]).
      intros q [= <-] _. reflexivity.
  - eexists. split; [reflexivity|].
    do 9 (split; [reflexivity|]).
    intros p _ Hp. contradiction.
Qed.

Section Restart.

Variable P : platform.

(** A session given both a mode and a dictionary that by now has
    [annotators] cannot start a worker. *)
Lemma start_server_refuses fuel st r d :
  known st -> truthy (mode (self st)) = true -> configdict (self st) = Some r ->
  heap (env st) !! r = Some d -> is_Some (d !! "annotators") ->
  (comm_mode (self st) = "PIPE" -> is_Some (outpipe (self st))) ->
  exists st',
    start_server P (S fuel) st = (Raise AssertionError, st')
    /\ (stopped st' /\ (settled st -> settled st'))
    /\ next_id (env st') = next_id (env st) /\ sent st' = sent st.
Proof.
  intros Hk Hmo Hcd Hd Hann Hop.
  destruct (kill_proc_known st Hk)
    as (st0 & Hkill & Hs0 & Hset0 & _ & _ & _ & _ & Hh0 & Hn0 & _ & _ & Hsn0 & _ & _ & Hsame).
  destruct (fifo_step (self st) st0 Hop)
    as (st1 & Hfifo & Hs1 & Hh1 & Hp1 & Hn1 & _ & _ & _ & Hsn1 & _).
  destruct (mode (self st)) as [m|] eqn:Hm; [|discriminate].
  exists st1. split.
  - cbn [start_server]. rewrite (bind_ret_eq _ _ st tt st0 Hkill).
    unfold bind at 1. cbn [get_self]. rewrite Hs0.
    rewrite (bind_ret_eq _ _ st0 tt st1 Hfifo).
    rewrite Hm, Hcd.
    rewrite (bind_raise_eq _ _ st1 AssertionError st1); [reflexivity|].
    apply (command_rejects P m _ r _ _ _ _ d st1 Hmo); [rewrite Hh1, Hh0; exact Hd | exact Hann].
  - split; [split|].
    + destruct Hset0 as [Hn | (pid & Hp & Hr)]; [left | right].
      * rewrite Hs1. exact Hn.
      * exists pid. rewrite Hs1. split; [exact Hp|]. unfold halted. rewrite Hp1. exact Hr.
    + intros Hset. specialize (Hsame Hset). subst st0.
      destruct Hset as [Hn | (pid & rc & Hp & Hr)]; [left | right].
      * rewrite Hs1. exact Hn.
      * exists pid, rc. rewrite Hs1, Hp1. split; assumption.
    + rewrite Hn1, Hn0, Hsn1, Hsn0. split; reflexivity.
Qed.

End Restart.

(** *** What a call leaves untouched *)

Lemma untouched_refl st : untouched st st.
Proof. unfold untouched. repeat split; lia. Qed.

Lemma untouched_trans a b c : untouched a b -> untouched b c -> untouched a c.
Proof.
  intros (H1 & H2 & H3 & H4 & H5 & H6) (G1 & G2 & G3 & G4 & G5 & G6).
  unfold untouched. repeat split; try congruence. lia.
Qed.

Ltac untouched_leaf :=
  unfold untouched, hooks; msimpl; rewrite ?count_ev_snoc; cbn [is_atexit];
  repeat split; lia.

Ltac untouched_prim := intros [o w]; mstep; repeat (case_step; mstep); untouched_leaf.

Ltac untouched_auto :=
  repeat first [pres_step untouched_refl untouched_trans | solve [eauto with pres]].

Lemma untouched_time_sleep ms : preserves untouched (time_sleep ms).
Proof. untouched_prim. Qed.
Lemma untouched_os_path_exists p : preserves untouched (os_path_exists p).
Proof. unfold os_path_exists. untouched_prim. Qed.
Lemma untouched_struct_unpack_Q s : preserves untouched (struct_unpack_Q s).
Proof. unfold struct_unpack_Q. untouched_prim. Qed.
Lemma untouched_socket_connect port : preserves untouched (socket_connect port).
Proof. unfold socket_connect. untouched_prim. Qed.
Lemma untouched_sock_close fd : preserves untouched (sock_close fd).
Proof. unfold sock_close. untouched_prim. Qed.
Lemma untouched_sock_settimeout fd t : preserves untouched (sock_settimeout fd t).
Proof. unfold sock_settimeout. untouched_prim. Qed.
Lemma untouched_sock_sendall fd s : preserves untouched (sock_sendall fd s).
Proof. unfold sock_sendall. untouched_prim. Qed.
Lemma untouched_sock_recv fd n : preserves untouched (sock_recv fd n).
Proof. unfold sock_recv. untouched_prim. Qed.
Lemma untouched_stdin_write s : preserves untouched (stdin_write s).
Proof. unfold stdin_write. untouched_prim. Qed.
Lemma untouched_outpipe_fp_read n : preserves untouched (outpipe_fp_read n).
Proof. unfold outpipe_fp_read. untouched_prim. Qed.
Lemma untouched_open_read p : preserves untouched (open_read p).
Proof. unfold open_read, os_path_exists. untouched_prim. Qed.
Lemma untouched_sock_reclaim fd : preserves untouched (sock_reclaim fd).
Proof. unfold sock_reclaim. untouched_prim. Qed.
Lemma untouched_drop_local sock : preserves untouched (drop_local sock).
Proof. destruct sock; [apply untouched_sock_reclaim | intros st; apply untouched_refl]. Qed.

#[local] Hint Resolve untouched_time_sleep untouched_os_path_exists untouched_struct_unpack_Q
  untouched_socket_connect untouched_sock_close untouched_sock_settimeout
  untouched_sock_sendall untouched_sock_recv untouched_stdin_write untouched_outpipe_fp_read
  untouched_open_read untouched_sock_reclaim untouched_drop_local : pres.

Lemma untouched_get_socket_trials trials n interval :
  preserves untouched (get_socket_trials trials n interval).
Proof.
  induction trials as [|t ts IH]; cbn [get_socket_trials]; untouched_auto.
Qed.

Lemma untouched_get_socket n interval : preserves untouched (get_socket n interval).
Proof. apply untouched_get_socket_trials. Qed.

Lemma untouched_read_chunk sock n : preserves untouched (read_chunk sock n).
Proof.
  unfold read_chunk. untouched_auto.
Qed.

#[local] Hint Resolve untouched_get_socket untouched_read_chunk : pres.

Lemma untouched_recv_loop fuel sock size : forall chunks,
  preserves untouched (recv_loop fuel sock size chunks).
Proof.
  induction fuel as [|fuel IH]; intros chunks; cbn [recv_loop]; untouched_auto.
Qed.

#[local] Hint Resolve untouched_recv_loop : pres.

Lemma untouched_send_command_and_get_string_result fuel cmd timeout :
  preserves untouched (send_command_and_get_string_result fuel cmd timeout).
Proof.
  unfold send_command_and_get_string_result. untouched_auto.
Qed.

(** *** What starting a worker never does *)

Lemma same_config_refl o : same_config o o.
Proof. unfold same_config. repeat split. Qed.

Lemma same_config_trans a b c : same_config a b -> same_config b c -> same_config a c.
Proof.
  intros (H1 & H2 & H3 & H4 & H5 & H6 & H7) (G1 & G2 & G3 & G4 & G5 & G6 & G7).
  unfold same_config. repeat split; congruence.
Qed.

Lemma keeps_entries_same r a b : heap (env b) = heap (env a) -> keeps_entries r a b.
Proof. intros H d Hd. exists d. rewrite H. auto. Qed.

Lemma keeps_entries_trans r a b c :
  keeps_entries r a b -> keeps_entries r b c -> keeps_entries r a c.
Proof.
  intros H G d Hd. destruct (H d Hd) as (d1 & Hd1 & Hk1 & Ha1).
  destruct (G d1 Hd1) as (d2 & Hd2 & Hk2 & Ha2).
  exists d2. split; [exact Hd2|]. split.
  - intros k Hk. rewrite Hk2, Hk1 by exact Hk. reflexivity.
  - intros Hann. specialize (Ha1 Hann). subst d1. exact (Ha2 Hann).
Qed.

Lemma orderly_refl st : orderly st st.
Proof.
  unfold orderly. split; [reflexivity|]. split; [apply same_config_refl|].
  split; [lia|]. split; [auto|]. split; [intros r _; apply keeps_entries_same; reflexivity|].
  split; auto.
Qed.

Lemma orderly_trans a b c : orderly a b -> orderly b c -> orderly a c.
Proof.
  intros (H1 & H2 & H3 & H4 & H5 & H6 & H7) (G1 & G2 & G3 & G4 & G5 & G6 & G7).
  unfold orderly. split; [congruence|]. split; [exact (same_config_trans _ _ _ H2 G2)|].
  split; [lia|]. split; [|split; [|split]].
  - intros pid Hp. destruct (H4 pid Hp) as [He Hh].
    destruct (G4 pid ltac:(lia)) as [Ge Gh]. split; auto.
  - intros r Hr. apply (keeps_entries_trans r a b c); [apply H5; exact Hr | apply G5; lia].
  - auto.
  - intros q Hq. destruct (G7 q Hq) as [Hb | [Hm Ho]]; [auto|].
    right. destruct H2 as (_ & _ & _ & _ & Hcm & Hop & _). split; congruence.
Qed.

(** Where only processes, connections, the channel and the trace
    change. *)
Lemma orderly_procs a b :
  same_config (self a) (self b) -> files (env b) = files (env a) ->
  heap (env b) = heap (env a) -> hooks b = hooks a ->
  (next_id (env a) <= next_id (env b))%nat ->
  (forall pid, (pid < next_id (env a))%nat ->
     (exited a pid -> exited b pid) /\ (halted a pid -> halted b pid)) ->
  orderly a b.
Proof.
  intros Hs Hf Hh Hk Hn Hp. unfold orderly.
  split; [exact Hk|]. split; [exact Hs|]. split; [exact Hn|]. split; [exact Hp|].
  split; [intros r _; apply keeps_entries_same; exact Hh|].
  rewrite Hf. split; auto.
Qed.

Lemma untouched_orderly a b : untouched a b -> orderly a b.
Proof.
  intros (Hs & Hp & Hf & Hheap & Hh & Hn).
  apply orderly_procs; try assumption; [rewrite Hs; apply same_config_refl|].
  intros pid _. unfold exited, halted. rewrite Hp. auto.
Qed.

Lemma preserves_apply {A} (R : state -> state -> Prop) (m : M A) st :
  preserves R m -> R st (snd (m st)).
Proof. intros H. apply H. Qed.

Ltac orderly_auto :=
  repeat first
    [ pres_step orderly_refl orderly_trans
    | solve [apply (preserves_weaken untouched orderly);
             [apply untouched_orderly | eauto with pres]]
    | solve [eauto with pres] ].

Ltac orderly_leaf :=
  apply orderly_procs; unfold hooks, same_config; msimpl;
  rewrite ?count_ev_snoc; cbn [is_atexit]; try (repeat split; auto; lia).

Lemma orderly_os_kill pid sig : preserves orderly (os_kill pid sig).
Proof.
  intros [o w]. unfold os_kill. mstep.
  destruct (procs w !! pid) as [[|rc|rc lag]|] eqn:Hs; mstep;
    try apply orderly_refl; orderly_leaf.
  - intros pid' _. unfold exited, halted. msimpl.
    destruct (decide (pid' = pid)) as [->|Hne];
      [rewrite lookup_insert_eq, Hs | rewrite lookup_insert_ne by congruence; auto].
    split; [intros [rc' [=]] | intros _; exists (- sig); right; eauto].
Qed.

Lemma orderly_proc_poll pid : preserves orderly (proc_poll pid).
Proof.
  intros [o w]. unfold proc_poll. mstep.
  destruct (procs w !! pid) as [[|rc|rc [|lag]]|] eqn:Hs; mstep;
    try apply orderly_refl; orderly_leaf.
  - intros pid' _. unfold exited, halted. msimpl.
    destruct (decide (pid' = pid)) as [->|Hne];
      [rewrite lookup_insert_eq, Hs | rewrite lookup_insert_ne by congruence; auto].
    split; [intros [rc' [=]] | intros _; exists rc; left; reflexivity].
  - intros pid' _. unfold exited, halted. msimpl.
    destruct (decide (pid' = pid)) as [->|Hne];
      [rewrite lookup_insert_eq, Hs | rewrite lookup_insert_ne by congruence; auto].
    split; [intros [rc' [=]] | intros _; exists rc; right; eauto].
Qed.

Lemma orderly_subprocess_Popen cmd : preserves orderly (subprocess_Popen cmd).
Proof.
  intros [o w]. unfold subprocess_Popen. mstep. orderly_leaf.
  intros pid Hlt. unfold exited, halted. msimpl. rewrite lookup_insert_ne by lia. auto.
Qed.

Lemma orderly_set_proc p : preserves orderly (set_proc p).
Proof. intros [o w]. unfold set_proc. mstep. orderly_leaf. Qed.

Lemma orderly_set_outpipe_fp p : preserves orderly (set_outpipe_fp p).
Proof. intros [o w]. unfold set_outpipe_fp. mstep. orderly_leaf. Qed.

#[local] Hint Resolve orderly_os_kill orderly_proc_poll orderly_subprocess_Popen orderly_set_proc
  orderly_set_outpipe_fp : pres.

Lemma orderly_kill_proc_if_running : preserves orderly kill_proc_if_running.
Proof. unfold kill_proc_if_running. orderly_auto. Qed.

Lemma orderly_assert_pong v : preserves orderly (assert_pong v).
Proof. unfold assert_pong. orderly_auto. Qed.

#[local] Hint Resolve orderly_kill_proc_if_running orderly_assert_pong : pres.

Lemma orderly_fifo_step st :
  orderly st
    (snd ((if String.eqb (comm_mode (self st)) "PIPE" then
             match outpipe (self st) with
             | Some p => ex <- os_path_exists p ;; if ex then ret tt else os_mkfifo p
             | None => raise TypeError
             end
           else ret tt) st)).
Proof.
  destruct (String.eqb_spec (comm_mode (self st)) "PIPE") as [Hm|Hm]; [|apply orderly_refl].
  destruct (outpipe (self st)) as [p|] eqn:Hp; [|apply orderly_refl].
  destruct st as [o w]. unfold os_mkfifo, os_path_exists. mstep.
  destruct (bool_decide (p ∈ files w)) eqn:Hex; mstep; [apply orderly_refl|].
  rewrite Hex. mstep. unfold orderly, hooks. msimpl. rewrite count_ev_snoc. cbn [is_atexit].
  split; [lia|]. split; [apply same_config_refl|]. split; [lia|]. split; [auto|].
  split; [intros r _; apply keeps_entries_same; reflexivity|]. split.
  - intros q Hq. apply elem_of_union. right. exact Hq.
  - intros q Hq. apply elem_of_union in Hq as [Hq | Hq]; [|left; exact Hq].
    apply elem_of_singleton in Hq. subst q. right. split; assumption.
Qed.

Section Orderly.

Variable P : platform.

(** [command] writes to a dictionary only the [annotators] entry, and
    only where there is none: in the caller's dictionary after the
    assertion that it has none, or in the one it has just made. *)
Lemma heap_kept_command mode configfile configdict cm server_port outpipe classpath st r :
  (r < next_id (env st))%nat ->
  keeps_entries r st
    (snd (command P mode configfile configdict cm server_port outpipe classpath st)).
Proof.
  intros Hr.
  assert (Hlater : forall {A} (m : M A),
            (forall s, heap (env (snd (m s))) = heap (env s)) ->
            forall s, keeps_entries r st s -> keeps_entries r st (snd (m s))).
  { intros A m Hm s Hs. apply (keeps_entries_trans r st s); [exact Hs|].
    apply keeps_entries_same. apply Hm. }
  unfold command. rewrite snd_bind.
  match goal with
  | |- context [match ?m st with _ => _ end] =>
      assert (H0 : snd (m st) = st) by (destruct mode, configfile, configdict; reflexivity);
      destruct (m st) as [[[]|e|] s0]; cbn [snd] in H0; subst s0
  end; try (apply keeps_entries_same; reflexivity).
  rewrite snd_bind.
  match goal with
  | |- context [match ?m st with _ => _ end] =>
      assert (H1 : keeps_entries r st (snd (m st)))
  end.
  { destruct st as [o w]. cbn [env] in Hr.
    destruct (truthy mode); [|apply keeps_entries_same; reflexivity].
    mstep. destruct configdict as [c|]; mstep.
    - destruct (heap w !! c) as [d0|] eqn:Hc; mstep;
        [|apply keeps_entries_same; reflexivity].
      destruct (bool_decide (is_Some (d0 !! "annotators"))) eqn:Hb; mstep;
        [apply keeps_entries_same; reflexivity|].
      apply bool_decide_eq_false in Hb.
      destruct (MODES !! default "" mode) as [info|]; mstep;
        [|apply keeps_entries_same; reflexivity].
      intros d Hd. msimpl. cbn [env heap] in Hd.
      destruct (decide (r = c)) as [->|Hne].
      + rewrite Hc in Hd. injection Hd as <-. rewrite lookup_alter_eq, Hc.
        eexists. split; [reflexivity|]. split; [|contradiction].
        intros k Hk. apply lookup_insert_ne. congruence.
      + rewrite lookup_alter_ne by congruence. exists d. auto.
    - destruct (MODES !! default "" mode) as [info|]; mstep;
        intros d Hd; msimpl; cbn [env heap] in Hd; exists d;
        rewrite ?lookup_alter_ne by lia; rewrite lookup_insert_ne by lia; auto. }
  match goal with
  | |- context [match ?m st with _ => _ end] =>
      destruct (m st) as [[cd|e|] s1]; cbn [snd] in H1 |- *; try exact H1
  end.
  revert H1. generalize s1. apply Hlater. intros [o w]. mstep.
  repeat (case_step; mstep); reflexivity.
Qed.

Lemma orderly_command mode configfile configdict cm server_port outpipe classpath :
  preserves orderly (command P mode configfile configdict cm server_port outpipe classpath).
Proof.
  intros st.
  destruct (allocates_command P mode configfile configdict cm server_port outpipe classpath st)
    as (Hs & Hf & Hp & _ & _ & _ & Ht & Hn).
  unfold orderly, hooks.
  rewrite Ht. split; [reflexivity|]. split; [rewrite Hs; apply same_config_refl|].
  split; [exact Hn|]. split; [unfold exited, halted; rewrite Hp; auto|].
  split; [intros r Hr; apply heap_kept_command; exact Hr|].
  rewrite Hf. split; auto.
Qed.

Lemma orderly_ping_loop ping fuel :
  preserves orderly ping -> preserves orderly (ping_loop ping fuel).
Proof. intros Hp. induction fuel as [|fuel IH]; cbn [ping_loop]; orderly_auto; assumption. Qed.

Lemma orderly_parse_result start fuel cmd timeout raw :
  preserves orderly start ->
  preserves orderly (send_command_and_parse_result_with P start fuel cmd timeout raw).
Proof.
  intros Hs. unfold send_command_and_parse_result_with, ensure_proc_is_running_with.
  orderly_auto; try assumption.
  all: apply (preserves_weaken untouched orderly); [apply untouched_orderly|];
    apply untouched_send_command_and_get_string_result.
Qed.

(** The part of [start_server] after the old worker has been dealt
    with, from whatever state that left. *)
Lemma orderly_start_server_tail fuel st st0 :
  preserves orderly (start_server P fuel) ->
  kill_proc_if_running st = (Ret tt, st0) ->
  orderly st0 (snd (start_server P (S fuel) st)).
Proof.
  intros IH Hkill. cbn [start_server]. rewrite snd_bind, Hkill.
  unfold bind at 1. cbn [get_self]. rewrite snd_bind.
  pose proof (orderly_fifo_step st0) as Hf.
  match type of Hf with
  | orderly _ (snd ?t) => destruct t as [[[]|e|] st1]
  end; cbn [snd] in *; try exact Hf.
  eapply orderly_trans; [exact Hf|]. generalize (self st0) as o. intros o.
  apply preserves_apply. orderly_auto; try apply orderly_command.
  all: apply orderly_ping_loop, orderly_parse_result, IH.
Qed.

Lemma orderly_start_server fuel : preserves orderly (start_server P fuel).
Proof.
  induction fuel as [|fuel IH]; [intros st; apply orderly_refl|].
  intros st. pose proof (orderly_kill_proc_if_running st) as Hk.
  destruct (kill_proc_if_running st) as [[[]|e|] st0] eqn:Hkill; cbn [snd] in Hk.
  - eapply orderly_trans; [exact Hk|]. exact (orderly_start_server_tail fuel st st0 IH Hkill).
  - cbn [start_server]. rewrite snd_bind, Hkill. exact Hk.
  - cbn [start_server]. rewrite snd_bind, Hkill. exact Hk.
Qed.

End Orderly.

(** *** Construction *)

Section Construction.

Variable P : platform.

Lemma jars_found_any corenlp_jars st :
  jars_found P corenlp_jars st ->
  existsb (fun f => bool_decide (f ∈ files (env st)))
    (concat (map (glob_glob P (files (env st))) corenlp_jars)) = true.
Proof.
  intros (f & p & Hf & Hp & Hex).
  apply existsb_exists. exists p. split; [|apply bool_decide_eq_true; exact Hex].
  apply in_concat. exists (glob_glob P (files (env st)) f).
  split; [apply in_map, list_elem_of_In, Hf | apply list_elem_of_In, Hp].
Qed.

(** With the pipe path free and a jar in place, construction comes down
    to starting the worker and registering the exit hook. *)
Lemma init_reaches_start mode server_port cm prefix configfile configdict corenlp_jars fuel st :
  (cm = "PIPE" -> session_pipe_path P prefix ∉ files (env st)) ->
  jars_found P corenlp_jars st ->
  __init__ P mode server_port cm prefix configfile configdict corenlp_jars fuel st
  = (start_server P fuel ;; emit EAtexitRegister)
      (mkState (new_session P mode server_port cm prefix configfile configdict corenlp_jars)
         (env st)).
Proof.
  intros Hpipe Hjars. apply jars_found_any in Hjars.
  destruct st as [o w]. msimpl. unfold __init__, new_session.
  unfold bind at 1. cbn [set_self]. unfold bind at 1.
  destruct (String.eqb cm "PIPE") eqn:Hcm.
  - apply String.eqb_eq in Hcm. specialize (Hpipe Hcm). msimpl.
    unfold set_outpipe, os_path_exists, set_classpath. 
    unfold bind at 1. unfold bind at 1. unfold get_self at 1. unfold set_self at 1.
    unfold bind at 1. unfold bind at 1. unfold get_world at 1. msimpl. unfold ret at 1.
    fold (session_pipe_path P prefix).
    rewrite bool_decide_eq_false_2 by exact Hpipe. cbn [negb assert].
    unfold ret at 1. unfold bind at 1. unfold get_world at 1. msimpl.
    unfold bind at 1. rewrite Hjars. cbn [assert]. unfold ret at 1.
    unfold bind at 1. unfold bind at 1. unfold get_self at 1. unfold set_self at 1.
    reflexivity.
  - unfold set_classpath. unfold ret at 1. unfold bind at 1. unfold get_world at 1. msimpl.
    unfold bind at 1. rewrite Hjars. cbn [assert]. unfold ret at 1.
    unfold bind at 1. unfold bind at 1. unfold get_self at 1. unfold set_self at 1.
    reflexivity.
Qed.

(** Construction either fails an assertion before any system call, or
    comes down to starting the worker and registering the exit hook. *)
Lemma init_cases mode server_port cm prefix configfile configdict corenlp_jars fuel st :
  (exists st',
     __init__ P mode server_port cm prefix configfile configdict corenlp_jars fuel st
     = (Raise AssertionError, st') /\ env st' = env st)
  \/ (exists s1,
        __init__ P mode server_port cm prefix configfile configdict corenlp_jars fuel st
        = (start_server P fuel ;; emit EAtexitRegister) s1 /\ env s1 = env st).
Proof.
  remember (__init__ P mode server_port cm prefix configfile configdict corenlp_jars fuel st)
    as run eqn:Hrun.
  destruct st as [o w]. msimpl. unfold __init__ in Hrun.
  unfold bind at 1 in Hrun. cbn [set_self] in Hrun. unfold bind at 1 in Hrun.
  destruct (String.eqb cm "PIPE").
  - unfold set_outpipe, os_path_exists, set_classpath in Hrun.
    unfold bind at 1 in Hrun. unfold bind at 1 in Hrun. unfold get_self at 1 in Hrun.
    unfold set_self at 1 in Hrun.
    unfold bind at 1 in Hrun. unfold bind at 1 in Hrun. unfold get_world at 1 in Hrun.
    msimpl. unfold ret at 1 in Hrun.
    match type of Hrun with
    | context [negb (bool_decide ?X)] => destruct (bool_decide X)
    end; cbn [negb assert] in Hrun; [left; eexists; split; [exact Hrun | reflexivity]|].
    unfold ret at 1 in Hrun. unfold bind at 1 in Hrun. unfold get_world at 1 in Hrun. msimpl.
    unfold bind at 1 in Hrun.
    match type of Hrun with
    | context [assert (existsb ?f ?l)] => destruct (existsb f l)
    end; cbn [assert] in Hrun; [|left; eexists; split; [exact Hrun | reflexivity]].
    unfold ret at 1 in Hrun.
    unfold bind at 1 in Hrun. unfold bind at 1 in Hrun. unfold get_self at 1 in Hrun.
    unfold set_self at 1 in Hrun.
    right. eexists. split; [exact Hrun | reflexivity].
  - unfold set_classpath in Hrun. unfold ret at 1 in Hrun. unfold bind at 1 in Hrun.
    unfold get_world at 1 in Hrun. msimpl.
    unfold bind at 1 in Hrun.
    match type of Hrun with
    | context [assert (existsb ?f ?l)] => destruct (existsb f l)
    end; cbn [assert] in Hrun; [|left; eexists; split; [exact Hrun | reflexivity]].
    unfold ret at 1 in Hrun.
    unfold bind at 1 in Hrun. unfold bind at 1 in Hrun. unfold get_self at 1 in Hrun.
    unfold set_self at 1 in Hrun.
    right. eexists. split; [exact Hrun | reflexivity].
Qed.

End Construction.

(** *** [cleanup] *)

Lemma tidies_cleanup st : tidies st (snd (cleanup st)).
Proof.
  destruct st as [o w].
  unfold cleanup, kill_proc_if_running, proc_poll, os_kill, os_unlink, os_path_exists.
  mstep. repeat (case_step; mstep).
  all: unfold tidies, sent, hooks; msimpl;
    rewrite ?count_ev_snoc, ?flat_map_app; cbn [is_atexit flat_map sent_of];
    rewrite ?app_nil_r, ?Nat.add_0_r.
  all: repeat match goal with |- _ /\ _ => split end; try reflexivity; auto.
  all: try (intros q Hq; apply elem_of_difference in Hq as [Hq _]; exact Hq).
  all: try (intros pid Hne; rewrite ?lookup_insert_ne by congruence; reflexivity).
  all: try (intros q Hne Hq; apply elem_of_difference; split; [exact Hq|];
            rewrite elem_of_singleton; intros ->;
            match goal with
            | H : truthy ?x = true |- _ => destruct x; [apply Hne; reflexivity | discriminate]
            end).
Qed.

(** On a running worker, with the pipe (if any) on disk or not. *)
Lemma cleanup_live st pid :
  proc (self st) = Some pid -> procs (env st) !! pid = Some Running ->
  exists st',
    cleanup st = (Ret tt, st')
    /\ (halted st' pid /\ proc (self st') = Some pid /\ kills st' = S (kills st))
    /\ (forall p, outpipe (self st) = Some p -> p <> "" ->
          files (env st') = files (env st) ∖ {[p]}).
Proof.
  intros Hp Hr. destruct st as [o w]. msimpl.
  unfold cleanup, kill_proc_if_running, proc_poll, os_kill, os_unlink, os_path_exists.
  mstep. rewrite Hp. mstep. rewrite Hr. mstep. rewrite Hr. mstep.
  destruct (outpipe o) as [p|] eqn:Hop; cbn [truthy].
  - destruct p as [|c p]; mstep.
    + eexists. split; [reflexivity|]. unfold halted. msimpl.
      split; [split; [exists (- 9); right; eexists; apply lookup_insert_eq|]; split; [exact Hp|]; unfold kills; msimpl; rewrite ?count_ev_snoc; cbn [is_kill]; lia|]. intros p [= <-] Hne. contradiction.
    + change (default "" (Some (String c p))) with (String c p).
      destruct (bool_decide (String c p ∈ files w)) eqn:Hex; mstep.
      * rewrite Hex. mstep. eexists. split; [reflexivity|]. unfold halted. msimpl.
        split; [split; [exists (- 9); right; eexists; apply lookup_insert_eq|]; split; [exact Hp|]; unfold kills; msimpl; rewrite ?count_ev_snoc; cbn [is_kill]; lia|]. intros q [= <-] _. reflexivity.
      * apply bool_decide_eq_false_1 in Hex.
        eexists. split; [reflexivity|]. unfold halted. msimpl.
        split; [split; [exists (- 9); right; eexists; apply lookup_insert_eq|]; split; [exact Hp|]; unfold kills; msimpl; rewrite ?count_ev_snoc; cbn [is_kill]; lia|]. intros q [= <-] _.
        apply set_eq. intros x. rewrite elem_of_difference, elem_of_singleton.
        split; [intros Hx; split; [exact Hx | intros ->; contradiction] | intros [Hx _]; exact Hx].
  - mstep. eexists. split; [reflexivity|]. unfold halted. msimpl.
    split; [split; [exists (- 9); right; eexists; apply lookup_insert_eq|]; split; [exact Hp|]; unfold kills; msimpl; rewrite ?count_ev_snoc; cbn [is_kill]; lia|]. intros p Hp'. discriminate.
Qed.

(** *** Startup over the pipe *)

Lemma open_steps {A} (k : M A) st p :
  p ∈ files (env st) ->
  ((fp <- open_read p ;; set_outpipe_fp (Some fp)) ;; k) st = k (opened st p).
Proof.
  intros Hp. destruct st as [o w]. msimpl.
  unfold open_read, os_path_exists, set_outpipe_fp, opened.
  unfold bind at 1. unfold bind at 1. unfold bind at 1. unfold bind at 1.
  unfold get_world at 1. msimpl. unfold ret at 1.
  rewrite bool_decide_eq_true_2 by exact Hp. mstep. reflexivity.
Qed.

Lemma opened_facts st p :
  outpipe_fp (self (opened st p)) = Some p
  /\ proc (self (opened st p)) = proc (self st)
  /\ comm_mode (self (opened st p)) = comm_mode (self st)
  /\ outpipe (self (opened st p)) = outpipe (self st)
  /\ procs (env (opened st p)) = procs (env st)
  /\ files (env (opened st p)) = files (env st)
  /\ connects (env (opened st p)) = connects (env st)
  /\ replies (env (opened st p)) = replies (env st)
  /\ sent (opened st p) = sent st.
Proof.
  unfold opened, sent. msimpl. rewrite flat_map_app. cbn. rewrite app_nil_r.
  repeat split.
Qed.

Section PipeStartup.

Variable P : platform.
Hypothesis Hpong : json_loads P PONG_payload = Some (PyStr "PONG").

(** A PIPE-mode session configured by a mode alone, with the worker's
    [PONG] next on the pipe: the fifo is made unless it is there, the
    worker spawned, the pipe opened, the ping answered. *)
Lemma start_server_pipe_handshake fuel st p d0 rs :
  known st -> comm_mode (self st) = "PIPE" -> outpipe (self st) = Some p ->
  mode_only P (self st) ->
  replies (env st) = Chunk d0 (frame PONG_payload) :: rs ->
  exists st',
    start_server P (S (S fuel)) st = (Ret tt, st')
    /\ live st' /\ outpipe_fp (self st') = Some p /\ outpipe (self st') = Some p
    /\ comm_mode (self st') = "PIPE"
    /\ files (env st') = {[p]} ∪ files (env st)
    /\ replies (env st') = rs /\ connects (env st') = connects (env st)
    /\ sent st' = (sent st ++ [PING +:+ NL])%list.
Proof.
  intros Hk Hm Hop (Hcd & m & info & Hmo & Hmodes & Hq) Hr.
  destruct (kill_proc_known st Hk)
    as (st0 & Hkill & Hs0 & _ & Hf0 & _ & Hc0 & Hr0 & _ & _ & _ & _ & Hsn0 & _).
  destruct (fifo_step (self st) st0 ltac:(intros _; rewrite Hop; eauto))
    as (st1 & Hfifo & Hs1 & _ & _ & _ & Hc1 & Hr1 & _ & Hsn1 & _ & Hf1).
  specialize (Hf1 p Hop Hm).
  destruct (command_mode_only P m info (configfile (self st)) "PIPE" (server_port (self st))
              (outpipe (self st)) (classpath (self st)) st1 Hmodes Hq)
    as (cmd & st2 & Hcmd & Halloc); [right; reflexivity|].
  destruct Halloc as (Hs2 & Hf2 & _ & _ & Hc2 & Hr2 & Ht2 & _).
  destruct (spawned_facts st2 cmd) as (Hlive3 & _ & Hm3 & Hc3 & Hr3 & _ & _ & Hsn3).
  assert (Hf3 : files (env (spawned st2 cmd)) = files (env st2)) by reflexivity.
  assert (Hop3 : outpipe (self (spawned st2 cmd)) = outpipe (self st2)) by reflexivity.
  destruct (opened_facts (spawned st2 cmd) p)
    as (Hfp4 & Hp4 & Hm4 & Hop4 & Hps4 & Hf4 & Hc4 & Hr4 & Hsn4).
  set (s4 := opened (spawned st2 cmd) p) in *.
  assert (Hlive4 : live s4).
  { destruct Hlive3 as (pid & H1 & H2). exists pid. rewrite Hp4, Hps4. split; assumption. }
  assert (Hm4' : comm_mode (self s4) = "PIPE") by (rewrite Hm4, Hm3, Hs2, Hs1, Hs0; exact Hm).
  destruct (call_one_chunk fuel PING 2000 s4 d0 (frame PONG_payload) rs None)
    as (s5 & Hcall & Hr5 & Hs5 & Hp5 & Hc5 & Hf5 & _ & Hsn5 & _).
  { rewrite Hr4, Hr3, Hr2, Hr1, Hr0. exact Hr. }
  { vm_compute. discriminate. }
  { reflexivity. }
  { reflexivity. }
  { vm_compute. discriminate. }
  { right. split; [exact Hm4'|]. split; [exact Hlive4|]. split; [rewrite Hfp4; eauto | reflexivity]. }
  exists s5. split.
  - cbn [start_server]. rewrite (bind_ret_eq _ _ st tt st0 Hkill).
    unfold bind at 1. cbn [get_self]. rewrite Hs0.
    rewrite (bind_ret_eq _ _ st0 tt st1 Hfifo).
    rewrite Hmo, Hcd, Hm.
    rewrite (bind_ret_eq _ _ st1 cmd st2 Hcmd).
    rewrite spawn_steps. rewrite Hop. cbn [String.eqb Ascii.eqb Bool.eqb].
    rewrite open_steps by (rewrite Hf3, Hf2, Hf1; apply elem_of_union_l, elem_of_singleton; reflexivity).
    fold s4. rewrite ping_loop_unfold.
    rewrite (parse_result_live P _ (S fuel) PING 2000 false s4 Hlive4), Hcall.
    change (str_drop 8 (frame PONG_payload)) with PONG_payload. rewrite Hpong.
    reflexivity.
  - split; [exact (live_same _ _ Hs5 Hp5 Hlive4)|].
    rewrite Hs5, Hfp4, Hop4, Hop3, Hs2, Hs1, Hs0, Hr5, Hf5, Hf4, Hf3, Hf2, Hf1, Hf0, Hc5.
    unfold call_connects. rewrite Hm4'. cbn [String.eqb Ascii.eqb Bool.eqb].
    rewrite Hc4, Hc3, Hc2, Hc1, Hc0, Hsn5, Hsn4, Hsn3, (trace_sent _ _ Ht2), Hsn1, Hsn0.
    repeat split; assumption.
Qed.

End PipeStartup.

Lemma session_pipe_path_nonempty (P : platform) prefix : session_pipe_path P prefix <> "".
Proof. unfold session_pipe_path. destruct prefix; str_app; discriminate. Qed.

(** * Further properties of the code *)

(** X1.  [get_socket] when every one of its [num_retries] connection
    attempts is refused: it raises [AssertionError] after exactly
    [num_retries] attempts, having slept between two attempts but not
    after the last ([num_retries - 1] sleeps), and leaves no connection
    behind. *)
Theorem get_socket_gives_up (num_retries : nat) (retry_interval : Z) (st : state) :
  refused num_retries (connects (env st)) ->
  exists st',
    get_socket num_retries retry_interval st = (Raise AssertionError, st')
    /\ attempts st' = (attempts st + num_retries)%nat
    /\ sleeps st' = (sleeps st + (num_retries - 1))%nat
    /\ conns (env st') = conns (env st)
    /\ self st' = self st.
Proof.
  intros Href. unfold get_socket.
  destruct (get_socket_trials_refused num_retries retry_interval num_retries 0%nat st)
    as (st' & Hrun & Hself & Hconns & _ & _ & _ & _ & Hatt & Hsl); [lia | exact Href |].
  exists st'. split; [exact Hrun|]. split; [exact Hatt|]. split; [exact Hsl|].
  split; [exact Hconns | exact Hself].
Qed.

(** X2.  [get_socket] when the first [k] attempts are refused and the
    next is accepted, [k] being smaller than [num_retries]: it returns
    the socket of attempt [k + 1], the one connection it leaves open
    (with no timeout set), after [k] sleeps; later answers of the
    listener are not used up. *)
Theorem get_socket_retries (num_retries k : nat) (retry_interval : Z) (st : state)
    (cs : list bool) :
  (k < num_retries)%nat ->
  connects (env st) = (replicate k false ++ true :: cs)%list ->
  exists st',
    get_socket num_retries retry_interval st = (Ret (next_id (env st) + k)%nat, st')
    /\ conns (env st') = <[(next_id (env st) + k)%nat := None]> (conns (env st))
    /\ connects (env st') = cs
    /\ attempts st' = (attempts st + S k)%nat
    /\ sleeps st' = (sleeps st + k)%nat.
Proof.
  intros Hk Hc. unfold get_socket.
  destruct (get_socket_trials_accepted num_retries retry_interval k 0%nat num_retries st cs)
    as (st' & Hrun & _ & Hconns & _ & _ & _ & _ & _ & Hcs & Hatt & Hsl);
    [lia | exact Hk | exact Hc |].
  exists st'. split; [exact Hrun|]. split; [exact Hconns|]. split; [exact Hcs|].
  split; [exact Hatt | exact Hsl].
Qed.

(** X3.  The accumulation loop never hands back more, or less, than was
    announced: started with no more than [size_info] bytes collected, a
    string it returns has length exactly [size_info] - on any channel,
    however the bytes are segmented. *)
Theorem recv_loop_exact_length (fuel : nat) (sock : option nat) (size_info : Z)
    (chunks : list string) (st st' : state) (data : string) :
  curlen chunks <= size_info ->
  recv_loop fuel sock size_info chunks st = (Ret (Some data), st') ->
  len data = size_info.
Proof.
  revert chunks st st' data.
  induction fuel as [|fuel IH]; intros chunks st st' data Hle Hrun; [discriminate|].
  rewrite recv_loop_unfold in Hrun.
  destruct (read_chunk sock (size_info - curlen chunks) st) as [[piece|e|] st1] eqn:Hread;
    try discriminate.
  apply read_chunk_len in Hread. cbv zeta in Hrun.
  destruct (size_info <=? curlen (chunks ++ [piece])) eqn:Hdone.
  - apply Z.leb_le in Hdone. inversion Hrun; subst.
    rewrite len_concat. rewrite curlen_snoc in *. lia.
  - apply Z.leb_gt in Hdone.
    destruct (1000 <? Z.of_nat (length (chunks ++ [piece]))); [discriminate|].
    eapply IH; [|exact Hrun]. rewrite curlen_snoc. lia.
Qed.

(** X4.  The accumulation loop reassembles the stream: when every read
    returns, [size_info] is a length that a read takes as its size (it
    fits a C [int]) and the channel holds at least [size_info] bytes in
    at most 1001 segments, the loop returns the first [size_info] bytes
    of the stream, whatever the segmentation, and what follows them is
    still in the channel. *)
Theorem recv_loop_reassembles (fuel : nat) (sock : option nat) (tmo : option Z)
    (size_info : Z) (st : state) :
  channel_ready st sock tmo -> all_arrive tmo (replies (env st)) ->
  0 < size_info <= script_bytes (replies (env st)) -> size_info <= INT_MAX ->
  (length (replies (env st)) <= 1001)%nat -> (length (replies (env st)) <= fuel)%nat ->
  exists st',
    recv_loop fuel sock size_info [] st
    = (Ret (Some (str_take size_info (script_data (replies (env st))))), st')
    /\ script_data (replies (env st')) = str_drop size_info (script_data (replies (env st)))
    /\ (reads st' <= reads st + length (replies (env st)))%nat.
Proof.
  intros Hready Harr Hsz Hmax Hcap Hfuel.
  destruct (recv_loop_stream sock tmo size_info (replies (env st)) fuel [] st Hready eq_refl Harr)
    as (st' & Hrun & Hdata & _ & _ & _ & _ & _ & _ & _ & Hreads);
    [cbn [curlen fold_right]; lia | exact Hmax | cbn [length]; lia | exact Hfuel |].
  cbn [curlen fold_right String.concat] in Hrun, Hdata. rewrite Z.sub_0_r in Hrun, Hdata.
  str_app_in Hrun. exists st'. split; [exact Hrun|]. split; [exact Hdata | exact Hreads].
Qed.

(** X5.  A call takes exactly one frame off the stream, in either mode:
    when the header arrives in one piece, announces a length that a read
    takes as its size (it fits a C [int]), and the announced bytes follow
    it, in whatever segments, the call returns those bytes and leaves the
    stream at the first byte after them; it has written the command and a
    newline to the worker, once. *)
Theorem call_takes_one_frame (fuel : nat) (cmd : string) (timeout : Z) (st : state) :
  served_call st timeout -> (1001 <= fuel)%nat ->
  let stream := script_data (replies (env st)) in
  let n := be_value (str_take 8 stream) in
  exists st',
    send_command_and_get_string_result fuel cmd timeout st
    = (Ret (Some (str_take n (str_drop 8 stream))), st')
    /\ script_data (replies (env st')) = str_drop n (str_drop 8 stream)
    /\ sent st' = (sent st ++ [cmd +:+ NL])%list.
Proof.
  intros Hserved Hfuel stream n.
  destruct (call_served fuel cmd timeout st Hserved Hfuel)
    as (st' & Hrun & Hdata & _ & _ & _ & _ & Hsent).
  exists st'. split; [exact Hrun|]. split; [exact Hdata | exact Hsent].
Qed.

(** X6.  The header is read with a single read of eight bytes: when that
    read returns fewer (the header is split across segments, or the
    stream ends), the call raises [struct.error] after that one read, in
    either mode, with the bytes it got used up; and
    [send_command_and_parse_result] lets the exception through to the
    caller. *)
Theorem short_header_raises (P : platform) (start : M unit) (fuel : nat) (cmd : string)
    (timeout : Z) (st : state) (d : Z) (data : string) (rs : list reply) (tmo : option Z) :
  replies (env st) = Chunk d data :: rs -> len data < 8 ->
  call_ready st timeout d tmo ->
  (exists st',
     send_command_and_get_string_result fuel cmd timeout st = (Raise StructError, st')
     /\ replies (env st') = rs /\ reads st' = S (reads st))
  /\ (live st -> forall raw,
        fst (send_command_and_parse_result_with P start fuel cmd timeout raw st)
        = Raise StructError).
Proof.
  intros Hr Hlen Hready.
  destruct (call_short_header fuel cmd timeout st d data rs tmo Hr Hlen Hready)
    as (st' & Hrun & Hrs & Hreads & _).
  split; [exists st'; split; [exact Hrun|]; split; [exact Hrs | exact Hreads]|].
  intros Hlive raw. rewrite (parse_result_live P start fuel cmd timeout raw st Hlive), Hrun.
  reflexivity.
Qed.

(** X7.  [parse_doc] on a running worker whose response arrives whole,
    its announced length one that a read takes as its size:
    it writes [PARSEDOC], a tab, the JSON encoding of the text and a
    newline, once, and returns the payload of the response frame -
    undecoded with [raw=True], decoded otherwise ([None] where the
    decoder rejects it); the worker is the one it found. *)
Theorem parse_doc_round_trip (P : platform) (fuel : nat) (text : string) (timeout : Z)
    (raw : bool) (st : state) :
  live st -> served_call st timeout -> (1001 <= fuel)%nat ->
  let stream := script_data (replies (env st)) in
  let payload := str_take (be_value (str_take 8 stream)) (str_drop 8 stream) in
  exists st',
    parse_doc P fuel text timeout raw st
    = (Ret (if raw then PyStr payload else default PyNone (json_loads P payload)), st')
    /\ sent st' = (sent st ++ [("PARSEDOC" +:+ TAB +:+ json_dumps P (PyStr text)) +:+ NL])%list
    /\ live st'.
Proof.
  intros Hlive Hserved Hfuel stream payload.
  unfold parse_doc, send_command_and_parse_result.
  rewrite (parse_result_live P _ fuel _ timeout raw st Hlive).
  destruct (call_served fuel ("PARSEDOC" +:+ TAB +:+ json_dumps P (PyStr text)) timeout st
              Hserved Hfuel) as (st' & Hrun & _ & Hself & Hprocs & _ & _ & Hsent).
  rewrite Hrun. exists st'. split; [reflexivity|]. split; [exact Hsent|].
  destruct Hlive as (pid & Hp & Hr). exists pid. rewrite Hself, Hprocs. split; assumption.
Qed.

(** X8.  [start_server] in SOCKET mode, for a session configured by a
    mode alone, when none of the hundred probe connections is accepted:
    it raises [AssertionError] after one hundred connection attempts and
    one hundred sleeps (one after spawning, one between two attempts),
    and the worker it has just spawned is still the session's, and still
    running: nothing on this path stops it. *)
Theorem start_server_probe_gives_up (P : platform) (fuel : nat) (st : state) :
  known st -> comm_mode (self st) = "SOCKET" -> mode_only P (self st) ->
  refused 100 (connects (env st)) ->
  exists st',
    start_server P (S fuel) st = (Raise AssertionError, st')
    /\ live st'
    /\ attempts st' = (attempts st + 100)%nat
    /\ sleeps st' = (sleeps st + 100)%nat.
Proof.
  intros Hk Hm Hmo Href. exact (start_server_probe_fails P fuel st Hk Hm Hmo Href).
Qed.

(** X9.  Recovery from a worker that has gone, for a SOCKET-mode session
    configured by a mode alone: a call that finds the worker never
    started or exited spawns a new one, has its probe connection
    accepted, pings it, and on the answer [PONG] goes on to send its own
    command and return that response (of a length that a read takes
    as its size) - the caller sees only the result.
    The session then holds a running worker, to which the ping and the
    command, and nothing else, have been written. *)
Theorem call_restarts_worker (P : platform) (fuel : nat) (cmd : string) (timeout : Z)
    (raw : bool) (st : state) (cs : list bool) (d0 d : Z) (data : string) (rs : list reply) :
  json_loads P PONG_payload = Some (PyStr "PONG") ->
  settled st -> comm_mode (self st) = "SOCKET" -> mode_only P (self st) ->
  connects (env st) = true :: true :: true :: cs ->
  replies (env st) = Chunk d0 (frame PONG_payload) :: Chunk d data :: rs ->
  d0 <= 2000 -> 0 <= timeout -> d <= timeout -> 8 <= len data ->
  all_arrive (Some timeout) rs ->
  0 < be_value (str_take 8 data) <= len (str_drop 8 data) + script_bytes rs ->
  be_value (str_take 8 data) <= INT_MAX ->
  (length rs <= 1000)%nat -> (1001 <= fuel)%nat ->
  let stream := script_data (Chunk d data :: rs) in
  let payload := str_take (be_value (str_take 8 stream)) (str_drop 8 stream) in
  exists st',
    send_command_and_parse_result P (S fuel) cmd timeout raw st
    = (Ret (if raw then PyStr payload else default PyNone (json_loads P payload)), st')
    /\ live st'
    /\ sent st' = (sent st ++ [PING +:+ NL; cmd +:+ NL])%list.
Proof.
  intros Hpong Hset Hm Hmo Hc Hr Hd0 Ht Hd Hlen Harr Hsz Hmax Hcap Hfuel stream payload.
  pose proof (settled_known st Hset) as Hk.
  destruct fuel as [|f]; [lia|].
  unfold send_command_and_parse_result. rewrite parse_result_of_call.
  unfold bind at 1. rewrite (ensure_settled _ st Hset).
  (* startup *)
  destruct (start_server_socket_spawns P (S f) st Hk Hm Hmo)
    as (c & st0 & st1 & Hkill & Halloc & ->).
  destruct (kill_proc_known st Hk)
    as (st0' & Hkill' & Hs0 & _ & _ & _ & Hc0 & Hr0 & _ & _ & Hsl0 & Hat0 & Hsn0 & _).
  rewrite Hkill in Hkill'. injection Hkill' as <-.
  destruct Halloc as (Hs1 & _ & _ & _ & Hc1 & Hr1 & Ht1 & _).
  destruct (spawned_facts st1 c) as (Hlive2 & _ & Hm2 & Hc2 & Hr2 & Hsl2 & Hat2 & Hsn2).
  rewrite (probe_steps _ (spawned st1 c) (true :: true :: cs))
    by (rewrite Hc2, Hc1, Hc0; exact Hc).
  destruct (probed_facts (spawned st1 c) (true :: true :: cs))
    as (Hs3 & Hp3 & Hc3 & Hr3 & Hsl3 & Hat3 & Hsn3).
  set (s3 := probed (spawned st1 c) (true :: true :: cs)) in *.
  assert (Hlive3 : live s3) by exact (live_same _ _ Hs3 Hp3 Hlive2).
  assert (Hm3 : comm_mode (self s3) = "SOCKET") by (rewrite Hs3, Hm2, Hs1, Hs0; exact Hm).
  (* the ping *)
  rewrite ping_loop_unfold. rewrite (parse_result_live P _ (S f) PING 2000 false s3 Hlive3).
  destruct (call_one_chunk f PING 2000 s3 d0 (frame PONG_payload) (Chunk d data :: rs)
              (Some 2000)) as (s4 & -> & Hr4 & Hs4 & Hp4 & Hc4 & _ & _ & Hsn4 & Hsl4).
  { rewrite Hr3, Hr2, Hr1, Hr0. exact Hr. }
  { vm_compute. discriminate. }
  { reflexivity. }
  { reflexivity. }
  { vm_compute. discriminate. }
  { left. split; [exact Hm3|]. split; [exists (true :: cs); exact Hc3|].
    split; [lia|]. split; [exact Hd0 | reflexivity]. }
  change (str_drop 8 (frame PONG_payload)) with PONG_payload. rewrite Hpong.
  change (default PyNone (Some (PyStr "PONG"))) with (PyStr "PONG").
  cbn [assert_pong String.eqb Ascii.eqb Bool.eqb assert ret].
  (* the call *)
  assert (Hlive4 : live s4) by exact (live_same _ _ Hs4 Hp4 Hlive3).
  assert (Hm4 : comm_mode (self s4) = "SOCKET") by (rewrite Hs4; exact Hm3).
  assert (Hc4' : connects (env s4) = true :: cs).
  { rewrite Hc4. unfold call_connects. rewrite Hm3, Hc3. reflexivity. }
  destruct (call_served (S (S f)) cmd timeout s4) as (st' & Hrun & _ & Hs' & Hp' & _ & _ & Hsn');
    [| lia |].
  { exists d, data, rs, (Some timeout). split; [exact Hr4|]. split; [exact Hlen|].
    split; [left; split; [exact Hm4|]; split; [exists cs; exact Hc4'|];
            split; [exact Ht|]; split; [exact Hd | reflexivity]|].
    split; [exact Harr|]. split; [exact Hsz|]. split; [exact Hmax | exact Hcap]. }
  rewrite Hr4 in Hrun. fold stream in Hrun. fold payload in Hrun. rewrite Hrun.
  exists st'. split; [reflexivity|].
  split; [exact (live_same _ _ Hs' Hp' Hlive4)|].
  rewrite Hsn', Hsn4, Hsn3, Hsn2, (trace_sent _ _ Ht1), Hsn0, <- app_assoc.
  reflexivity.
Qed.

(** X10.  [command] touches nothing outside the dictionaries: whatever
    its arguments and its outcome, the session object, the files, the
    processes, the connections, the channel and the trace are as before -
    it makes no system call; it may only create or change a dictionary.
    And a command line it returns is a single line. *)
Theorem command_only_builds (P : platform) (mode configfile : option string)
    (configdict : option nat) (cm : string) (server_port : Z) (outpipe : option string)
    (classpath : string) (st : state) :
  let run := command P mode configfile configdict cm server_port outpipe classpath st in
  allocates st (snd run)
  /\ (forall s, fst run = Ret s -> str_contains (ascii_of_nat 10) s = false).
Proof.
  cbv zeta. split.
  - apply allocates_command.
  - intros s Hs.
    destruct (command P mode configfile configdict cm server_port outpipe classpath st)
      as [r st'] eqn:Hrun. cbn [fst] in Hs. subst r.
    apply command_result in Hrun as (ci & mc & ->).
    unfold COMMAND_format. apply str_replace_gone. discriminate.
Qed.

(** X11.  [command] cannot be run twice with a mode preset on the same
    caller-supplied dictionary: the first run, unless it is refused
    itself, writes [annotators] into the dictionary, and the next run,
    whatever its other arguments, finds the key and fails its
    assertion. *)
Theorem command_not_repeatable (P : platform) (m : string) (info : mode_info) (r : nat)
    (cf1 cf2 : option string) (cm1 cm2 : string) (port1 port2 : Z) (op1 op2 : option string)
    (cp1 cp2 : string) (st : state) :
  MODES !! m = Some info -> is_Some (heap (env st) !! r) ->
  let st1 := snd (command P (Some m) cf1 (Some r) cm1 port1 op1 cp1 st) in
  command P (Some m) cf2 (Some r) cm2 port2 op2 cp2 st1 = (Raise AssertionError, st1).
Proof.
  intros Hmode [d Hd]. cbv zeta.
  pose proof (MODES_nonempty m info Hmode) as Hm.
  destruct (d !! "annotators") as [v|] eqn:Hann.
  - rewrite (command_rejects P m cf1 r cm1 port1 op1 cp1 d st Hm Hd) by (rewrite Hann; eauto).
    cbn [snd]. apply (command_rejects P m cf2 r cm2 port2 op2 cp2 d st Hm Hd).
    rewrite Hann. eauto.
  - destruct (command_inserts P m info r d Hmode Hann cf1 cm1 port1 op1 cp1 st Hd) as [Hd1 _].
    apply (command_rejects P m cf2 r cm2 port2 op2 cp2 _ _ Hm Hd1).
    rewrite lookup_insert_eq. eauto.
Qed.

(** X12.  No restart for a session built with both a mode and a
    dictionary: once the dictionary has [annotators] (the first start
    put it there), [start_server] raises [AssertionError] before a worker
    is spawned - the worker the session had has been sent [SIGKILL]
    unless it was seen to have exited, in which case the session is as
    settled as it was; no identifier is used, nothing is written - and
    so does every call that finds the worker gone. *)
Theorem restart_refused (P : platform) (fuel : nat) (st : state) (r : nat)
    (d : gmap string pyvalue) :
  known st -> truthy (mode (self st)) = true -> configdict (self st) = Some r ->
  heap (env st) !! r = Some d -> is_Some (d !! "annotators") ->
  (comm_mode (self st) = "PIPE" -> is_Some (outpipe (self st))) ->
  (exists st',
     start_server P (S fuel) st = (Raise AssertionError, st')
     /\ (stopped st' /\ (settled st -> settled st'))
     /\ next_id (env st') = next_id (env st) /\ sent st' = sent st)
  /\ (settled st -> forall cmd timeout raw,
        fst (send_command_and_parse_result P (S fuel) cmd timeout raw st)
        = Raise AssertionError).
Proof.
  intros Hk Hmo Hcd Hd Hann Hop.
  destruct (start_server_refuses P fuel st r d Hk Hmo Hcd Hd Hann Hop)
    as (st' & Hrun & Hset & Hn & Hsn).
  split; [exists st'; split; [exact Hrun|]; split; [exact Hset|]; split; assumption|].
  intros Hsettled cmd timeout raw.
  unfold send_command_and_parse_result. rewrite parse_result_of_call.
  unfold bind at 1. rewrite (ensure_settled _ st Hsettled), Hrun. reflexivity.
Qed.

(** X13.  What [start_server] never does, whatever its outcome and
    however often the startup ping restarts it: it registers no exit
    hook; changes no configuration field of the session object; revives
    no process that has exited or been signalled; deletes no file; and
    creates no file but the pipe of a PIPE-mode session.  The dictionary
    that [configdict] refers to is not out of its reach - [command]
    writes [annotators] into it -, but that is all: of every dictionary
    there is, each entry other than [annotators] is kept, and so is
    [annotators] where there was one. *)
Theorem start_server_orderly (P : platform) (fuel : nat) (st : state) :
  orderly st (snd (start_server P fuel st)).
Proof. apply orderly_start_server. Qed.

(** X14.  [start_server] never leaves the previous worker alone: a
    worker the session holds when [start_server] is entered has, by the
    time it is left, been seen to have exited or been sent [SIGKILL] (it
    dies in its own time: nothing waits for it), whether a new one was
    started or not; and one that had been seen to exit stays so. *)
Theorem start_server_stops_old_worker (P : platform) (fuel : nat) (st : state) (pid : nat) :
  proc (self st) = Some pid -> is_Some (procs (env st) !! pid) ->
  (pid < next_id (env st))%nat ->
  halted (snd (start_server P (S fuel) st)) pid
  /\ (exited st pid -> exited (snd (start_server P (S fuel) st)) pid).
Proof.
  intros Hp Hs Hlt.
  assert (Hk : known st) by (intros pid' Hp'; assert (pid' = pid) as -> by congruence; exact Hs).
  destruct (kill_proc_known st Hk)
    as (st0 & Hkill & _ & _ & _ & _ & _ & _ & _ & Hn0 & _ & _ & _ & Hdead & _).
  destruct (orderly_start_server_tail P fuel st st0 (orderly_start_server P fuel) Hkill)
    as (_ & _ & _ & Hex & _).
  split.
  - apply Hex; [rewrite Hn0; exact Hlt | exact (Hdead pid Hp)].
  - destruct (orderly_start_server P (S fuel) st) as (_ & _ & _ & Hex' & _).
    apply Hex'. exact Hlt.
Qed.

(** X15.  [__init__] registers the exit hook exactly when it returns:
    one hook more after a construction that succeeded, none after one
    that raised - wherever it raised, a spawned worker or not. *)
Theorem init_registers_hook_on_success (P : platform) (mode : option string)
    (server_port : Z) (cm prefix : string) (configfile : option string)
    (configdict : option nat) (corenlp_jars : list string) (fuel : nat) (st : state) :
  let run := __init__ P mode server_port cm prefix configfile configdict corenlp_jars fuel st in
  hooks (snd run) = match fst run with
                    | Ret _ => S (hooks st)
                    | _ => hooks st
                    end.
Proof.
  cbv zeta.
  destruct (init_cases P mode server_port cm prefix configfile configdict corenlp_jars fuel st)
    as [(st' & -> & Henv) | (s1 & -> & Henv)].
  - cbn [fst snd]. unfold hooks. rewrite Henv. reflexivity.
  - unfold bind. destruct (orderly_start_server P fuel s1) as [Hh _].
    assert (Hs1 : hooks s1 = hooks st) by (unfold hooks; rewrite Henv; reflexivity).
    destruct (start_server P fuel s1) as [[[]|e|] s2]; cbn [fst snd] in *;
      [|congruence|congruence].
    unfold emit, modify_world, hooks in *. msimpl. rewrite count_ev_snoc. cbn [is_atexit].
    lia.
Qed.

(** X16.  A call leaves the session as it found it: whatever the channel
    does and however the call ends - a result, [None], a timeout, a
    transport error - [send_command_and_get_string_result] changes
    neither the session object nor the processes, the files or the
    dictionaries; and on a running worker so does the whole of
    [send_command_and_parse_result], which never stops or replaces a
    worker that runs - not even after a timeout. *)
Theorem call_leaves_session_untouched (P : platform) (start : M unit) (fuel : nat)
    (cmd : string) (timeout : Z) (raw : bool) (st : state) :
  untouched st (snd (send_command_and_get_string_result fuel cmd timeout st))
  /\ (live st ->
      let st' := snd (send_command_and_parse_result_with P start fuel cmd timeout raw st) in
      untouched st st' /\ live st').
Proof.
  pose proof (untouched_send_command_and_get_string_result fuel cmd timeout st) as Hu.
  split; [exact Hu|].
  intros Hlive. cbv zeta. rewrite (parse_result_live P start fuel cmd timeout raw st Hlive).
  assert (Hsnd : forall st', untouched st st' -> untouched st st' /\ live st').
  { intros st' H. split; [exact H|]. destruct H as (Hs & Hp & _).
    exact (live_same _ _ Hs Hp Hlive). }
  destruct (send_command_and_get_string_result fuel cmd timeout st) as [[[data|]|e|] st'];
    cbn [snd] in *; try (apply Hsnd; exact Hu).
  destruct (is_socket_timeout e); cbn [snd]; apply Hsnd; exact Hu.
Qed.

(** X17.  A construction that fails at the probe: in SOCKET mode with
    a mode preset, the jars in place and nobody answering the hundred
    probe connections, [__init__] raises [AssertionError] with the worker
    it spawned still running and no exit hook registered for it.  What
    is left to stop that worker is [__del__] of the half-built object:
    run on the state the failure leaves, it returns having sent the
    worker [SIGKILL], once. *)
Theorem init_probe_failure_leaves_worker_to_del (P : platform) (m : string) (info : mode_info)
    (server_port : Z) (prefix : string) (configfile : option string)
    (corenlp_jars : list string) (fuel : nat) (st : state) :
  MODES !! m = Some info -> quote_free P info -> jars_found P corenlp_jars st ->
  refused 100 (connects (env st)) ->
  exists st' pid st2,
    __init__ P (Some m) server_port "SOCKET" prefix configfile None corenlp_jars (S fuel) st
    = (Raise AssertionError, st')
    /\ proc (self st') = Some pid /\ procs (env st') !! pid = Some Running
    /\ hooks st' = hooks st
    /\ __del__ st' = (Ret tt, st2)
    /\ halted st2 pid /\ proc (self st2) = Some pid /\ kills st2 = S (kills st')
    /\ hooks st2 = hooks st.
Proof.
  intros Hmode Hq Hjars Href.
  rewrite (init_reaches_start P (Some m) server_port "SOCKET" prefix configfile None
             corenlp_jars (S fuel) st ltac:(discriminate) Hjars).
  set (s1 := mkState _ (env st)).
  destruct (start_server_probe_fails P fuel s1) as (st' & Hrun & Hlive & _).
  - intros pid Hp. discriminate.
  - reflexivity.
  - split; [reflexivity|]. exists m, info. split; [reflexivity|]. split; assumption.
  - exact Href.
  - destruct Hlive as (pid & Hpid & Hrunning).
    destruct (cleanup_live st' pid Hpid Hrunning) as (st2 & Hclean & (Hh & Hp2 & Hk2) & _).
    assert (Hhooks : hooks st' = hooks st).
    { destruct (orderly_start_server P (S fuel) s1) as [Hh' _]. rewrite Hrun in Hh'.
      exact Hh'. }
    exists st', pid, st2. rewrite (bind_raise_eq _ _ s1 AssertionError st' Hrun).
    split; [reflexivity|]. split; [exact Hpid|]. split; [exact Hrunning|].
    split; [exact Hhooks|]. split; [exact Hclean|]. split; [exact Hh|].
    split; [exact Hp2|]. split; [exact Hk2|].
    pose proof (tidies_cleanup st') as Ht. rewrite Hclean in Ht. cbn [snd] in Ht.
    destruct Ht as (_ & _ & _ & _ & _ & _ & _ & Hhk & _). rewrite Hhk. exact Hhooks.
Qed.

(** X18.  In PIPE mode [__init__] refuses a pipe path that is already
    taken: it raises [AssertionError] before anything else happens - the
    jars are not looked for, nothing is spawned, the world is as it
    was. *)
Theorem init_refuses_existing_pipe (P : platform) (mode : option string) (server_port : Z)
    (prefix : string) (configfile : option string) (configdict : option nat)
    (corenlp_jars : list string) (fuel : nat) (st : state) :
  session_pipe_path P prefix ∈ files (env st) ->
  exists st',
    __init__ P mode server_port "PIPE" prefix configfile configdict corenlp_jars fuel st
    = (Raise AssertionError, st')
    /\ env st' = env st /\ outpipe (self st') = Some (session_pipe_path P prefix).
Proof.
  intros Hex. destruct st as [o w]. msimpl. unfold __init__.
  unfold bind at 1. cbn [set_self]. unfold bind at 1.
  cbn [String.eqb Ascii.eqb Bool.eqb].
  unfold set_outpipe, os_path_exists.
  unfold bind at 1. unfold bind at 1. unfold get_self at 1. unfold set_self at 1.
  unfold bind at 1. unfold bind at 1. unfold get_world at 1. msimpl. unfold ret at 1.
  fold (session_pipe_path P prefix).
  rewrite bool_decide_eq_true_2 by exact Hex. cbn [negb assert].
  eexists. split; [reflexivity|]. split; reflexivity.
Qed.

(** X19.  [cleanup] touches only what is the session's own: whatever its
    outcome, the session object, the dictionaries, the connections and
    the channel are as before, nothing is written to a worker, no hook
    is registered; no file is created, and none is removed except the
    session's pipe; no process changes state except the session's
    worker. *)
Theorem cleanup_touches_only_its_own (st : state) :
  tidies st (snd (cleanup st)) /\ tidies st (snd (__del__ st)).
Proof. split; apply tidies_cleanup. Qed.

(** X20.  Construction and cleanup of a PIPE-mode session, end to end:
    with a mode preset, the jars in place, the pipe path free and the
    worker answering the ping, [__init__] returns with a running worker,
    the fifo on disk and opened, and one exit hook registered; [cleanup]
    then returns with the worker sent [SIGKILL], once, and the files
    exactly those that were there before construction. *)
Theorem pipe_session_round_trip (P : platform) (m : string) (info : mode_info)
    (server_port : Z) (prefix : string) (configfile : option string)
    (corenlp_jars : list string) (fuel : nat) (st : state) (d0 : Z) (rs : list reply) :
  json_loads P PONG_payload = Some (PyStr "PONG") ->
  MODES !! m = Some info -> quote_free P info ->
  session_pipe_path P prefix ∉ files (env st) -> jars_found P corenlp_jars st ->
  replies (env st) = Chunk d0 (frame PONG_payload) :: rs ->
  exists st1 st2,
    __init__ P (Some m) server_port "PIPE" prefix configfile None corenlp_jars (S (S fuel)) st
    = (Ret tt, st1)
    /\ live st1
    /\ session_pipe_path P prefix ∈ files (env st1)
    /\ outpipe_fp (self st1) = Some (session_pipe_path P prefix)
    /\ hooks st1 = S (hooks st)
    /\ cleanup st1 = (Ret tt, st2)
    /\ files (env st2) = files (env st)
    /\ stopped st2 /\ kills st2 = S (kills st1).
Proof.
  intros Hpong Hmode Hq Hfree Hjars Hr.
  rewrite (init_reaches_start P (Some m) server_port "PIPE" prefix configfile None
             corenlp_jars (S (S fuel)) st (fun _ => Hfree) Hjars).
  set (s1 := mkState _ (env st)).
  destruct (start_server_pipe_handshake P Hpong fuel s1 (session_pipe_path P prefix) d0 rs)
    as (st' & Hrun & Hlive & Hfp & Hop & Hcm & Hfiles & _).
  { intros pid Hp. discriminate. }
  { reflexivity. }
  { reflexivity. }
  { split; [reflexivity|]. exists m, info. split; [reflexivity|]. split; assumption. }
  { exact Hr. }
  rewrite (bind_ret_eq _ _ s1 tt st' Hrun).
  set (st1 := snd (emit EAtexitRegister st')).
  assert (Hst1 : emit EAtexitRegister st' = (Ret tt, st1)) by reflexivity.
  assert (Hself1 : self st1 = self st') by reflexivity.
  assert (Hprocs1 : procs (env st1) = procs (env st')) by reflexivity.
  assert (Hfiles1 : files (env st1) = files (env st')) by reflexivity.
  pose proof (live_same st' st1 Hself1 Hprocs1 Hlive) as Hlive1.
  destruct Hlive1 as (pid & Hp1 & Hr1).
  destruct (cleanup_live st1 pid Hp1 Hr1) as (st2 & Hclean & (Hex & Hp2 & Hk2) & Hunlink).
  exists st1, st2. split; [exact Hst1|].
  split; [exists pid; split; assumption|].
  split; [rewrite Hfiles1, Hfiles; apply elem_of_union_l, elem_of_singleton; reflexivity|].
  split; [rewrite Hself1; exact Hfp|].
  split.
  { destruct (orderly_start_server P (S (S fuel)) s1) as [Hh _]. rewrite Hrun in Hh.
    cbn [snd] in Hh. unfold st1, emit, modify_world, hooks in *. msimpl.
    rewrite count_ev_snoc. cbn [is_atexit]. unfold s1 in Hh. msimpl. lia. }
  split; [exact Hclean|].
  split.
  - rewrite (Hunlink (session_pipe_path P prefix)
               ltac:(rewrite Hself1; exact Hop) (session_pipe_path_nonempty P prefix)).
    rewrite Hfiles1, Hfiles. apply set_eq. intros x.
    rewrite elem_of_difference, elem_of_union, elem_of_singleton.
    split; [intros [[-> | Hx] Hne]; [contradiction | exact Hx]|].
    intros Hx. split; [right; exact Hx | intros ->; contradiction].
  - split; [|exact Hk2]. right. exists pid. split; [exact Hp2 | exact Hex].
Qed.

(** * The further properties at concrete inputs *)

Lemma get_socket_gives_up_witness :
  exists st',
    get_socket 3 500 refusing_state = (Raise AssertionError, st')
    /\ attempts st' = (attempts refusing_state + 3)%nat
    /\ sleeps st' = (sleeps refusing_state + (3 - 1))%nat
    /\ conns (env st') = conns (env refusing_state)
    /\ self st' = self refusing_state.
Proof.
  apply (get_socket_gives_up 3 500 refusing_state).
  repeat constructor.
Defined.

Lemma get_socket_retries_witness :
  exists st',
    get_socket 100 1000 late_listener_state = (Ret 4%nat, st')
    /\ conns (env st') = <[4%nat := None]> (conns (env late_listener_state))
    /\ connects (env st') = [true]
    /\ attempts st' = (attempts late_listener_state + 3)%nat
    /\ sleeps st' = (sleeps late_listener_state + 2)%nat.
Proof.
  apply (get_socket_retries 100 2 1000 late_listener_state [true]); [lia | reflexivity].
Defined.

Lemma recv_loop_exact_length_witness :
  fst (recv_loop 3 None 5 ["h"]
         (mkState demo_pipe_session (demo_world [] [Chunk 30 "el"; Chunk 0 "lo"])))
  = Ret (Some "hello")
  /\ len "hello" = 5.
Proof.
  split; [vm_compute; reflexivity|].
  apply (recv_loop_exact_length 3 None 5 ["h"]
           (mkState demo_pipe_session (demo_world [] [Chunk 30 "el"; Chunk 0 "lo"]))
           (snd (recv_loop 3 None 5 ["h"]
                   (mkState demo_pipe_session (demo_world [] [Chunk 30 "el"; Chunk 0 "lo"]))))
           "hello").
  - vm_compute. discriminate.
  - vm_compute. reflexivity.
Defined.

Lemma recv_loop_reassembles_witness :
  exists st',
    recv_loop 4 None 5 []
      (mkState demo_pipe_session
         (demo_world [] [Chunk 0 "h"; Chunk 30 "el"; Chunk 0 ("lo" +:+ header 1); Chunk 0 "x"]))
    = (Ret (Some "hello"), st')
    /\ script_data (replies (env st')) = frame "x".
Proof.
  destruct (recv_loop_reassembles 4 None None 5
              (mkState demo_pipe_session
                 (demo_world [] [Chunk 0 "h"; Chunk 30 "el"; Chunk 0 ("lo" +:+ header 1);
                                 Chunk 0 "x"])))
    as (st' & Hrun & Hrest & _).
  - right. split; [reflexivity|]. split; [reflexivity|]. exists "/tmp/pipe". reflexivity.
  - reflexivity.
  - vm_compute. split; [reflexivity | discriminate].
  - vm_compute. discriminate.
  - cbn. lia.
  - cbn. lia.
  - exists st'. split; [exact Hrun | exact Hrest].
Defined.

Lemma call_takes_one_frame_witness :
  exists st',
    send_command_and_get_string_result 1001 PING 2000 slow_socket_state
    = (Ret (Some "hello"), st')
    /\ script_data (replies (env st')) = frame "x"
    /\ sent st' = [PING +:+ NL].
Proof.
  apply (call_takes_one_frame 1001 PING 2000 slow_socket_state); [|lia].
  exists 2000, (header 5 +:+ "h"),
    [Chunk 2000 "el"; Chunk 2000 ("lo" +:+ header 1); Chunk 0 "x"], (Some 2000).
  split; [reflexivity|]. split; [vm_compute; discriminate|].
  split; [left; split; [reflexivity|]; split; [exists []; reflexivity|];
          split; [lia|]; split; [lia | reflexivity]|].
  split; [reflexivity|].
  split; [vm_compute; split; [reflexivity | discriminate]|].
  split; [vm_compute; discriminate | cbn; lia].
Defined.

Lemma short_header_raises_witness :
  (exists st',
     send_command_and_get_string_result 5 PING 2000 split_header_state
     = (Raise StructError, st')
     /\ replies (env st') = [Chunk 0 (str_drop 3 (frame PONG_payload))]
     /\ reads st' = S (reads split_header_state))
  /\ fst (send_command_and_parse_result P0 5 PING 2000 false split_header_state)
     = Raise StructError.
Proof.
  destruct (short_header_raises P0 (start_server P0 5) 5 PING 2000 split_header_state 0 "abc"
              [Chunk 0 (str_drop 3 (frame PONG_payload))] (Some 2000)) as [Hcall Hparse].
  - reflexivity.
  - vm_compute. reflexivity.
  - left. split; [reflexivity|]. split; [exists []; reflexivity|].
    split; [lia|]. split; [lia | reflexivity].
  - split; [exact Hcall|]. apply Hparse. exists 1%nat. split; reflexivity.
Defined.

Lemma parse_doc_round_trip_witness :
  exists st',
    parse_doc P0 1001 "Hello world." PARSEDOC_TIMEOUT_SEC true fragmented_pipe_state
    = (Ret (PyStr "hello"), st')
    /\ sent st' = [("PARSEDOC" +:+ TAB +:+ DQ +:+ "Hello world." +:+ DQ) +:+ NL]
    /\ live st'.
Proof.
  apply (parse_doc_round_trip P0 1001 "Hello world." PARSEDOC_TIMEOUT_SEC true
           fragmented_pipe_state); [exists 1%nat; split; reflexivity | | lia].
  exists 0, (header 5 +:+ "h"), [Chunk 30 "el"; Chunk 0 ("lo" +:+ header 1); Chunk 0 "x"], None.
  split; [reflexivity|]. split; [vm_compute; discriminate|].
  split; [right; split; [reflexivity|]; split; [exists 1%nat; split; reflexivity|];
          split; [exists "/tmp/pipe"; reflexivity | reflexivity]|].
  split; [reflexivity|].
  split; [vm_compute; split; [reflexivity | discriminate]|].
  split; [vm_compute; discriminate | cbn; lia].
Defined.

Lemma start_server_probe_gives_up_witness :
  exists st',
    start_server P0 1 (mkState unstarted_socket_session (demo_world [] []))
    = (Raise AssertionError, st')
    /\ live st'
    /\ attempts st' = 100%nat
    /\ sleeps st' = 100%nat.
Proof.
  apply (start_server_probe_gives_up P0 0 (mkState unstarted_socket_session (demo_world [] []))).
  - intros pid Hp. discriminate.
  - reflexivity.
  - split; [reflexivity|]. exists "ssplit", (mkModeInfo "tokenize, ssplit"
      "tokenization and sentence splitting (included in all subsequent ones)").
    split; [reflexivity|]. split; [reflexivity | vm_compute; reflexivity].
  - constructor.
Defined.

Lemma call_restarts_worker_witness :
  exists st',
    send_command_and_parse_result P0 1002 "PARSEDOC" 2000 false crashed_socket_state
    = (Ret (PyBool true), st')
    /\ live st'
    /\ sent st' = [PING +:+ NL; "PARSEDOC" +:+ NL].
Proof.
  apply (call_restarts_worker P0 1001 "PARSEDOC" 2000 false crashed_socket_state []
           0 0 (header 4 +:+ "tr") [Chunk 5 "ue"]).
  - reflexivity.
  - right. exists 1%nat, 1. split; reflexivity.
  - reflexivity.
  - split; [reflexivity|]. exists "ssplit", (mkModeInfo "tokenize, ssplit"
      "tokenization and sentence splitting (included in all subsequent ones)").
    split; [reflexivity|]. split; [reflexivity | vm_compute; reflexivity].
  - reflexivity.
  - reflexivity.
  - lia.
  - lia.
  - lia.
  - vm_compute. discriminate.
  - reflexivity.
  - vm_compute. split; [reflexivity | discriminate].
  - vm_compute. discriminate.
  - cbn. lia.
  - lia.
Defined.

Lemma command_only_builds_witness :
  str_contains (ascii_of_nat 10)
    (COMMAND_format "/opt/pywrapper/lib/*:/jars/a.jar" "--server 12340"
       (" --configdict '" +:+ dumps_frag (PyDict [("annotators", PyStr "tokenize, ssplit")])
        +:+ "'")) = false.
Proof.
  destruct (command_only_builds P0 (Some "ssplit") None None "SOCKET" 12340 None
              "/opt/pywrapper/lib/*:/jars/a.jar"
              (mkState unstarted_socket_session (demo_world [] []))) as [_ H].
  apply (H (COMMAND_format "/opt/pywrapper/lib/*:/jars/a.jar" "--server 12340"
              (" --configdict '"
               +:+ dumps_frag (PyDict [("annotators", PyStr "tokenize, ssplit")]) +:+ "'"))).
  vm_compute. reflexivity.
Defined.

Lemma command_not_repeatable_witness :
  let st1 := snd (command P0 (Some "ssplit") None (Some 0%nat) "SOCKET" 12340 None
                    "/opt/pywrapper/lib/*:/jars/a.jar"
                    (mkState unstarted_socket_session world_with_callers_dict)) in
  command P0 (Some "ssplit") None (Some 0%nat) "PIPE" 12341 (Some "/tmp/pipe")
    "/opt/pywrapper/lib/*:/jars/a.jar" st1
  = (Raise AssertionError, st1).
Proof.
  apply (command_not_repeatable P0 "ssplit"
           (mkModeInfo "tokenize, ssplit"
              "tokenization and sentence splitting (included in all subsequent ones)")
           0%nat None None "SOCKET" "PIPE" 12340 12341 None (Some "/tmp/pipe")
           "/opt/pywrapper/lib/*:/jars/a.jar" "/opt/pywrapper/lib/*:/jars/a.jar"
           (mkState unstarted_socket_session world_with_callers_dict)).
  - reflexivity.
  - exists callers_dict. reflexivity.
Defined.

Lemma restart_refused_witness :
  (exists st',
     start_server P0 1 stale_dict_state = (Raise AssertionError, st')
     /\ (stopped st' /\ (settled stale_dict_state -> settled st'))
     /\ next_id (env st') = next_id (env stale_dict_state)
     /\ sent st' = sent stale_dict_state)
  /\ fst (send_command_and_parse_result P0 1 PING 2000 false stale_dict_state)
     = Raise AssertionError.
Proof.
  destruct (restart_refused P0 0 stale_dict_state 0%nat
              (<["annotators" := PyStr "tokenize, ssplit"]> callers_dict)) as [Hstart Hcall].
  - intros pid [= <-]. exists (Exited 1). reflexivity.
  - reflexivity.
  - reflexivity.
  - reflexivity.
  - exists (PyStr "tokenize, ssplit"). reflexivity.
  - discriminate.
  - split; [exact Hstart|]. apply Hcall. right. exists 1%nat, 1. split; reflexivity.
Defined.

Lemma start_server_stops_old_worker_witness :
  halted (snd (start_server P0 3 (mkState demo_socket_session (demo_world [] [])))) 1
  /\ (exited (mkState demo_socket_session (demo_world [] [])) 1 ->
      exited (snd (start_server P0 3 (mkState demo_socket_session (demo_world [] [])))) 1).
Proof.
  apply (start_server_stops_old_worker P0 2 (mkState demo_socket_session (demo_world [] [])) 1).
  - reflexivity.
  - exists Running. reflexivity.
  - cbn. lia.
Defined.

Lemma call_leaves_session_untouched_witness :
  let st := mkState demo_socket_session
              (demo_world [true] [Chunk 2500 (frame PONG_payload)]) in
  let st' := snd (send_command_and_parse_result P0 5 PING 2000 false st) in
  fst (send_command_and_parse_result P0 5 PING 2000 false st) = Ret PyNone
  /\ untouched st st' /\ live st'.
Proof.
  cbv zeta. split; [vm_compute; reflexivity|].
  destruct (call_leaves_session_untouched P0 (start_server P0 5) 5 PING 2000 false
              (mkState demo_socket_session
                 (demo_world [true] [Chunk 2500 (frame PONG_payload)]))) as [_ H].
  apply H. exists 1%nat. split; reflexivity.
Defined.

Lemma init_probe_failure_leaves_worker_to_del_witness :
  exists st' pid st2,
    __init__ P0 (Some "ssplit") 12340 "SOCKET" "/tmp/corenlp_pywrap_pipe" None None
             ["/jars/a.jar"] 1 (mkState unstarted_socket_session (demo_world [] []))
    = (Raise AssertionError, st')
    /\ proc (self st') = Some pid /\ procs (env st') !! pid = Some Running
    /\ hooks st' = 0%nat
    /\ __del__ st' = (Ret tt, st2)
    /\ halted st2 pid /\ proc (self st2) = Some pid /\ kills st2 = S (kills st')
    /\ hooks st2 = 0%nat.
Proof.
  apply (init_probe_failure_leaves_worker_to_del P0 "ssplit"
           (mkModeInfo "tokenize, ssplit"
              "tokenization and sentence splitting (included in all subsequent ones)")
           12340 "/tmp/corenlp_pywrap_pipe" None ["/jars/a.jar"] 0
           (mkState unstarted_socket_session (demo_world [] []))).
  - reflexivity.
  - vm_compute. reflexivity.
  - exists "/jars/a.jar", "/jars/a.jar". split; [|split].
    + apply list_elem_of_In. left. reflexivity.
    + apply list_elem_of_In. left. reflexivity.
    + vm_compute. reflexivity.
  - constructor.
Defined.

Lemma init_refuses_existing_pipe_witness :
  exists st',
    __init__ P0 (Some "ssplit") 12340 "PIPE" "/tmp/p" None None ["/jars/a.jar"] 5
      (mkState unstarted_socket_session
         (with_files {[ session_pipe_path P0 "/tmp/p" ]} (demo_world [] [])))
    = (Raise AssertionError, st')
    /\ env st' = with_files {[ session_pipe_path P0 "/tmp/p" ]} (demo_world [] [])
    /\ outpipe (self st') = Some (session_pipe_path P0 "/tmp/p").
Proof.
  apply (init_refuses_existing_pipe P0 (Some "ssplit") 12340 "/tmp/p" None None
           ["/jars/a.jar"] 5
           (mkState unstarted_socket_session
              (with_files {[ session_pipe_path P0 "/tmp/p" ]} (demo_world [] [])))).
  change (session_pipe_path P0 "/tmp/p" ∈ ({[ session_pipe_path P0 "/tmp/p" ]} : gset string)).
  apply elem_of_singleton_2. reflexivity.
Defined.

Lemma pipe_session_round_trip_witness :
  exists st1 st2,
    __init__ P0 (Some "ssplit") 12340 "PIPE" "/tmp/corenlp_pywrap_pipe" None None
             ["/jars/a.jar"] 2 blank_state
    = (Ret tt, st1)
    /\ live st1
    /\ session_pipe_path P0 "/tmp/corenlp_pywrap_pipe" ∈ files (env st1)
    /\ outpipe_fp (self st1) = Some (session_pipe_path P0 "/tmp/corenlp_pywrap_pipe")
    /\ hooks st1 = 1%nat
    /\ cleanup st1 = (Ret tt, st2)
    /\ files (env st2) = {[ "/jars/a.jar" ]}
    /\ stopped st2 /\ kills st2 = S (kills st1).
Proof.
  apply (pipe_session_round_trip P0 "ssplit"
           (mkModeInfo "tokenize, ssplit"
              "tokenization and sentence splitting (included in all subsequent ones)")
           12340 "/tmp/corenlp_pywrap_pipe" None ["/jars/a.jar"] 0 blank_state 0 []).
  - reflexivity.
  - reflexivity.
  - vm_compute. reflexivity.
  - intros H.
    change (session_pipe_path P0 "/tmp/corenlp_pywrap_pipe" ∈ ({[ "/jars/a.jar" ]} : gset string))
      in H.
    apply elem_of_singleton_1 in H. vm_compute in H. discriminate.
  - exists "/jars/a.jar", "/jars/a.jar". split; [|split].
    + apply list_elem_of_In. left. reflexivity.
    + apply list_elem_of_In. left. reflexivity.
    + vm_compute. reflexivity.
  - reflexivity.
Defined.
